(** * HealthcareDataExtractor: a shallow embedding of [src/data_extractor.py]

    The extractor searches an OCR text with a table of regular
    expressions, normalises the captured strings (amounts to floats,
    dates to ISO strings) and validates the resulting field map against
    per-document-type required-field lists.

    Modelling conventions.
    - A Python [str] is a Rocq [string]; its 8-bit characters are read as
      the code points U+0000..U+00FF.  The character classes [\d], [\w],
      [\s], [str.strip], [str.lower] and case-insensitive matching are
      the Unicode ones restricted to that range.
    - A Python [dict] is an insertion-ordered association list.
    - An exception is a value of [exn]; code that may raise returns
      [res].  [try ... except Exception] is written out in
      [extract_structured_data].
    - [datetime.utcnow()] is an explicit clock reading passed to the
      entry point.
    - A Python [float] is a binary64: a finite one is represented by
      its exact rational value, and [float(str)] rounds the decimal
      literal to the nearest binary64, ties to even, and to an infinity
      beyond the range of the format (see [PyFloat.round64]). *)

From Stdlib Require Import String Ascii List Bool Arith NArith ZArith.
From Stdlib Require Import QArith Qabs Qround Qpower Lia Lqa.
Import ListNotations.
Close Scope Q_scope.
Local Open Scope nat_scope.
Local Open Scope string_scope.
Local Open Scope list_scope.

Set Implicit Arguments.

(* ================================================================= *)
(** ** Characters and strings *)

Module PyStr.

Definition code (c : ascii) : N := N_of_ascii c.

Definition in_range (lo hi : N) (c : ascii) : bool :=
  ((lo <=? code c) && (code c <=? hi))%N.

(** [\d] : Unicode category Nd below U+0100 is exactly [0-9]. *)
Definition is_digit (c : ascii) : bool := in_range 48 57 c.

Definition is_upper (c : ascii) : bool := in_range 65 90 c.
Definition is_lower (c : ascii) : bool := in_range 97 122 c.

(** [str.isspace] / [\s] below U+0100:
    TAB LF VT FF CR, FS GS RS US, SPACE, NEL, NBSP. *)
Definition is_space (c : ascii) : bool :=
  in_range 9 13 c || in_range 28 32 c
  || (code c =? 133)%N || (code c =? 160)%N.

(** [str.isalnum] below U+0100 (letters, decimal digits, and the
    superscript digits and vulgar fractions that are numeric). *)
Definition is_alnum (c : ascii) : bool :=
  is_digit c || is_upper c || is_lower c
  || (code c =? 170)%N || in_range 178 179 c || (code c =? 181)%N
  || in_range 185 186 c || in_range 188 190 c
  || in_range 192 214 c || in_range 216 246 c || in_range 248 255 c.

(** [\w] *)
Definition is_word (c : ascii) : bool := is_alnum c || (code c =? 95)%N.

(** [str.lower] on one character. *)
Definition lower_char (c : ascii) : ascii :=
  if is_upper c || in_range 192 214 c || in_range 216 222 c
  then ascii_of_N (code c + 32) else c.

Fixpoint lower (s : string) : string :=
  match s with
  | EmptyString => EmptyString
  | String c s' => String (lower_char c) (lower s')
  end.

Definition is_empty (s : string) : bool :=
  match s with EmptyString => true | _ => false end.

Section Strip.

(** The characters to strip. *)
Variable blank : ascii -> bool.

Fixpoint lstrip_with (s : string) : string :=
  match s with
  | EmptyString => EmptyString
  | String c s' => if blank c then lstrip_with s' else s
  end.

Fixpoint rstrip_with (s : string) : string :=
  match s with
  | EmptyString => EmptyString
  | String c s' =>
      let r := rstrip_with s' in
      if blank c && is_empty r then EmptyString else String c r
  end.

Definition strip_with (s : string) : string := rstrip_with (lstrip_with s).

End Strip.

(** [str.strip()] *)
Definition strip (s : string) : string := strip_with is_space s.

(** The white space [float] and [int] skip around a number: the ASCII
    white space, and NEL and NBSP, which they read as blanks (but not
    FS, GS, RS, US). *)
Definition is_number_space (c : ascii) : bool :=
  in_range 9 13 c || (code c =? 32)%N || (code c =? 133)%N || (code c =? 160)%N.

(** [s.replace(c, '')] for a one-character [c]. *)
Fixpoint remove_char (x : ascii) (s : string) : string :=
  match s with
  | EmptyString => EmptyString
  | String c s' =>
      if Ascii.eqb c x then remove_char x s' else String c (remove_char x s')
  end.

(** [sub in s] *)
Fixpoint contains (sub s : string) : bool :=
  prefix sub s
  || match s with
     | EmptyString => false
     | String _ s' => contains sub s'
     end.

(** Truthiness of a [str]. *)
Definition nonempty (s : string) : bool := negb (is_empty s).

Fixpoint all_chars (p : ascii -> bool) (s : string) : bool :=
  match s with
  | EmptyString => true
  | String c s' => p c && all_chars p s'
  end.

End PyStr.
Import PyStr.

(* ================================================================= *)
(** ** Insertion-ordered dictionaries *)

Module PyDict.

Definition dict (V : Type) := list (string * V).

Fixpoint get {V} (k : string) (d : dict V) : option V :=
  match d with
  | [] => None
  | (k', v) :: d' => if String.eqb k k' then Some v else get k d'
  end.

Definition mem {V} (k : string) (d : dict V) : bool :=
  match get k d with Some _ => true | None => false end.

(** [d[k] = v] : overwrite in place, or append a new key. *)
Fixpoint set {V} (k : string) (v : V) (d : dict V) : dict V :=
  match d with
  | [] => [(k, v)]
  | (k', v') :: d' =>
      if String.eqb k k' then (k', v) :: d' else (k', v') :: set k v d'
  end.

(** [d.update(e)] *)
Definition update {V} (d e : dict V) : dict V :=
  fold_left (fun acc kv => set (fst kv) (snd kv) acc) e d.

Definition keys {V} (d : dict V) : list string := map fst d.

End PyDict.

(* ================================================================= *)
(** ** Regular expressions: the fragment of Python's [re] the rule
       tables use, matched by backtracking with Python's priorities *)

Module Re.

(** Character sets.  Every pattern of the extractor is compiled with
    [(?i)] and [re.IGNORECASE], so literals and ranges match both
    cases. *)
Inductive cset : Type :=
| CLit (c : ascii)            (* a literal character *)
| CRange (lo hi : ascii)      (* [lo-hi] *)
| CDigit                      (* \d *)
| CWord                       (* \w *)
| CSpace                      (* \s *)
| CUnion (a b : cset).        (* members of one bracket expression *)

Definition swap_case (c : ascii) : ascii :=
  if is_upper c then ascii_of_N (code c + 32)
  else if is_lower c then ascii_of_N (code c - 32)
  else c.

Fixpoint cset_mem_exact (cs : cset) (c : ascii) : bool :=
  match cs with
  | CLit x => Ascii.eqb c x
  | CRange lo hi => in_range (code lo) (code hi) c
  | CDigit => is_digit c
  | CWord => is_word c
  | CSpace => is_space c
  | CUnion a b => cset_mem_exact a c || cset_mem_exact b c
  end.

Definition cset_mem (cs : cset) (c : ascii) : bool :=
  cset_mem_exact cs c || cset_mem_exact cs (swap_case c).

Inductive regex : Type :=
| Eps
| Chr (cs : cset)
| Seq (r1 r2 : regex)
| Alt (r1 r2 : regex)
| Rep (lazy : bool) (lo : nat) (hi : option nat) (r : regex)
                              (* r{lo,hi}, r{lo,}; lazy for the ? suffix *)
| Group (r : regex)           (* the capturing group, number 1 *)
| Ahead (r : regex)           (* (?=r) *)
| Dollar                      (* $ without re.MULTILINE *)
| EndZ.                       (* \Z *)

(** The content of group 1 so far: [None] while it has not taken part. *)
Definition capture := option string.

Definition newline : ascii := ascii_of_N 10.

(** [$] matches at the end and just before a final newline. *)
Definition at_dollar (s : string) : bool :=
  match s with
  | EmptyString => true
  | String c EmptyString => Ascii.eqb c newline
  | _ => false
  end.

Definition below (n : nat) (hi : option nat) : bool :=
  match hi with None => true | Some h => Nat.ltb n h end.

(** The part of [s] in front of its suffix [s']. *)
Definition consumed (s s' : string) : string :=
  substring 0 (String.length s - String.length s') s.

Section Repetition.

Variable A : Type.
(** The matcher of the repeated expression. *)
Variable body : string -> capture -> (string -> capture -> option A) -> option A.
Variables (lz : bool) (lo : nat) (hi : option nat).
Variable k : string -> capture -> option A.

(** [n] iterations are done.  A greedy repetition first tries one more
    and then to stop, a lazy one the other way round.  An iteration
    counts only when the body consumed text, so [fuel] starting at the
    length of the text never runs out before the text does. *)
Fixpoint rep_loop (fuel n : nat) (s : string) (cap : capture) : option A :=
  let more (_ : unit) :=
    match fuel with
    | O => None
    | S fuel' =>
        if below n hi
        then body s cap
               (fun s1 c1 =>
                  if Nat.ltb (String.length s1) (String.length s)
                  then rep_loop fuel' (S n) s1 c1 else None)
        else None
    end in
  let stop (_ : unit) := if Nat.leb lo n then k s cap else None in
  if lz
  then match stop tt with Some x => Some x | None => more tt end
  else match more tt with Some x => Some x | None => stop tt end.

End Repetition.

(** [rmatch r s cap k]: match [r] at the front of [s]; on success hand
    the remaining text and the capture to the continuation [k]; a
    failing continuation makes the matcher backtrack to its next
    choice. *)
Fixpoint rmatch (r : regex) (A : Type) (s : string) (cap : capture)
         (k : string -> capture -> option A) {struct r} : option A :=
  match r with
  | Eps => k s cap
  | Chr cs =>
      match s with
      | String c s' => if cset_mem cs c then k s' cap else None
      | EmptyString => None
      end
  | Seq r1 r2 => rmatch r1 s cap (fun s1 c1 => rmatch r2 s1 c1 k)
  | Alt r1 r2 =>
      match rmatch r1 s cap k with
      | Some x => Some x
      | None => rmatch r2 s cap k
      end
  | Rep lz lo hi r1 =>
      rep_loop (fun s0 c0 k0 => rmatch r1 s0 c0 k0) lz lo hi k
               (String.length s) O s cap
  | Group r1 => rmatch r1 s cap (fun s1 _ => k s1 (Some (consumed s s1)))
  | Ahead r1 =>
      match rmatch r1 s cap (fun _ c1 => Some c1) with
      | Some c1 => k s c1
      | None => None
      end
  | Dollar => if at_dollar s then k s cap else None
  | EndZ => if is_empty s then k s cap else None
  end.

(** A match object: [group(0)] and [group(1)]. *)
Record rmatch_object : Type := MkMatch {
  group0 : string;
  group1 : capture
}.

Definition match_at (r : regex) (s : string) : option rmatch_object :=
  rmatch r s None (fun s' c => Some (MkMatch (consumed s s') c)).

(** [re.search]: the first start position, left to right, at which the
    pattern matches. *)
Fixpoint search (r : regex) (s : string) : option rmatch_object :=
  match match_at r s with
  | Some m => Some m
  | None =>
      match s with
      | EmptyString => None
      | String _ s' => search r s'
      end
  end.

(** Number of capturing groups of a pattern: [len(match.groups())]. *)
Fixpoint ngroups (r : regex) : nat :=
  match r with
  | Seq r1 r2 | Alt r1 r2 => ngroups r1 + ngroups r2
  | Rep _ _ _ r1 | Ahead r1 => ngroups r1
  | Group r1 => S (ngroups r1)
  | _ => O
  end.

(** *** Pattern syntax helpers *)

Fixpoint lit (s : string) : regex :=
  match s with
  | EmptyString => Eps
  | String c EmptyString => Chr (CLit c)
  | String c s' => Seq (Chr (CLit c)) (lit s')
  end.

Fixpoint seq (rs : list regex) : regex :=
  match rs with
  | [] => Eps
  | [r] => r
  | r :: rs' => Seq r (seq rs')
  end.

Fixpoint alts (rs : list regex) : regex :=
  match rs with
  | [] => Eps
  | [r] => r
  | r :: rs' => Alt r (alts rs')
  end.

Definition star (r : regex) : regex := Rep false 0 None r.
Definition plus (r : regex) : regex := Rep false 1 None r.
Definition plus_lazy (r : regex) : regex := Rep true 1 None r.
Definition opt (r : regex) : regex := Rep false 0 (Some 1) r.
Definition rep (lo hi : nat) (r : regex) : regex := Rep false lo (Some hi) r.
Definition times (n : nat) (r : regex) : regex := Rep false n (Some n) r.

Definition d : regex := Chr CDigit.
Definition w : regex := Chr CWord.
Definition sp : regex := Chr CSpace.
Definition ch (c : ascii) : regex := Chr (CLit c).
Definition AZ : cset := CRange "A" "Z".
Definition digits09 : cset := CRange "0" "9".

Fixpoint union (cs : list cset) : cset :=
  match cs with
  | [] => CRange "1" "0"
  | [c] => c
  | c :: cs' => CUnion c (union cs')
  end.

End Re.

(* ================================================================= *)
(** ** The rule tables of [HealthcareDataExtractor.__init__] *)

Module Rules.
Import Re.
Local Open Scope char_scope.

(** Every registered pattern is a prefix, one capturing group and an
    optional lookahead. *)
Definition pattern (prefix body suffix : regex) : regex :=
  Seq prefix (Seq (Group body) suffix).

Definition colon_space : cset := union [CLit ":"; CSpace].   (* [:\s] *)
Definition space_colon : cset := union [CSpace; CLit ":"].   (* [\s:] *)
Definition slash_dash : cset := union [CLit "/"; CLit "-"].  (* [/-] *)
Definition eol : regex := Ahead (Alt (ch newline) Dollar).   (* (?=\n|$) *)
Definition eolZ : regex := Ahead (Alt (ch newline) EndZ).    (* (?=\n|\Z) *)
Definition words : regex :=                                  (* \w+(?:\s+\w+)* *)
  seq [plus w; star (seq [plus sp; plus w])].
Definition numeric_date : regex :=         (* \d{1,2}[/-]\d{1,2}[/-]\d{2,4} *)
  seq [rep 1 2 d; Chr slash_dash; rep 1 2 d; Chr slash_dash; rep 2 4 d].
Definition prose : cset :=                                   (* [\w\s\.,-] *)
  union [CWord; CSpace; CLit "."; CLit ","; CLit "-"].

Definition patient_name_re : regex :=
  pattern (seq [alts [lit "patient"; lit "name"]; star (Chr colon_space)])
          words Eps.

Definition date_of_birth_re : regex :=
  pattern (seq [alts [lit "dob"; lit "date of birth"]; star (Chr colon_space)])
          numeric_date Eps.

Definition member_id_re : regex :=
  pattern (seq [alts [seq [lit "member"; star sp; lit "id"];
                      seq [lit "policy"; star sp; lit "number"]];
                star (Chr colon_space)])
          (plus w) Eps.

Definition date_of_service_re : regex :=
  pattern (seq [alts [lit "date of service"; lit "service date"; lit "dos"];
                star (Chr colon_space)])
          numeric_date Eps.

Definition provider_name_re : regex :=
  pattern (seq [alts [lit "provider"; lit "doctor"; lit "physician"];
                star (Chr colon_space)])
          words Eps.

Definition diagnosis_code_re : regex :=
  pattern (seq [alts [lit "diagnosis"; lit "dx"];
                star (Chr (union [CSpace; CWord]));
                lit "code"; star (Chr space_colon)])
          (seq [Chr AZ; rep 2 5 d; opt (seq [ch "."; plus d])]) Eps.

Definition procedure_code_re : regex :=
  pattern (seq [alts [lit "procedure"; lit "tx"; lit "treatment"];
                star (Chr (union [CSpace; CWord]));
                lit "code"; star (Chr space_colon)])
          (seq [Chr AZ; rep 1 4 d; opt (Chr AZ); rep 0 4 d]) Eps.

Definition amount_re : regex :=
  pattern (seq [alts [lit "amount"; lit "total"; lit "charge"; lit "balance"];
                star (Chr space_colon); opt (ch "$"); star sp])
          (seq [plus d; opt (seq [ch "."; times 2 d])]) Eps.

Definition phone_re : regex :=
  pattern (seq [alts [lit "phone"; lit "tel"; lit "mobile"];
                star (Chr space_colon)])
          (seq [opt (ch "("); times 3 d;
                opt (Chr (union [CLit "-"; CSpace; CLit "."; CLit ")"]));
                star sp; times 3 d;
                opt (Chr (union [CLit "-"; CSpace; CLit "."]));
                star sp; times 4 d]) Eps.

Definition claim_number_re : regex :=
  pattern (seq [alts [seq [lit "claim"; star sp; opt (ch "#")]; lit "id"];
                star (Chr space_colon)])
          (plus (Chr (union [AZ; digits09; CLit "-"]))) Eps.

Definition group_number_re : regex :=
  pattern (seq [lit "group"; star sp; opt (ch "#"); star (Chr space_colon)])
          (plus w) Eps.

Definition adjustment_reason_re : regex :=
  pattern (seq [lit "adjustment"; star sp; lit "reason"; star (Chr space_colon)])
          (seq [w; plus_lazy (Chr (union [CWord; CSpace]))]) eol.

Definition patient_responsibility_re : regex :=
  pattern (seq [lit "patient"; star sp; lit "responsibility";
                star (Chr space_colon); opt (ch "$"); star sp])
          (seq [plus d; ch "."; times 2 d]) Eps.

Definition medication_re : regex :=
  pattern (seq [lit "medication"; star (Chr space_colon)])
          (plus (Chr (union [CWord; CSpace; CLit "-"]))) eol.

Definition dosage_re : regex :=
  pattern (seq [lit "dosage"; star (Chr space_colon)])
          (plus (Chr (union [CDigit; CSpace; CWord; CLit "/"]))) eol.

Definition frequency_re : regex :=
  pattern (seq [lit "frequency"; star (Chr space_colon)])
          (plus (Chr (union [CWord; CSpace]))) eol.

Definition refills_re : regex :=
  pattern (seq [lit "refill"; opt (lit "s"); star (Chr space_colon)])
          (plus d) Eps.

Definition prescriber_re : regex :=
  pattern (seq [lit "prescriber"; star (Chr space_colon)])
          (plus (Chr (union [CWord; CSpace; CLit "."]))) eol.

Definition report_type_re : regex :=
  pattern (seq [lit "report"; star sp; lit "type"; star (Chr space_colon)])
          (plus (Chr (union [CWord; CSpace]))) eol.

Definition findings_re : regex :=
  pattern (seq [lit "findings"; star (Chr space_colon)])
          (plus (Chr prose)) eolZ.

Definition impression_re : regex :=
  pattern (seq [lit "impression"; star (Chr space_colon)])
          (plus (Chr prose)) eolZ.

Definition recommendations_re : regex :=
  pattern (seq [lit "recommendation"; opt (lit "s"); star (Chr space_colon)])
          (plus (Chr prose)) eolZ.

Local Open Scope string_scope.

(** [self.patterns] *)
Definition patterns : PyDict.dict regex :=
  [ ("patient_name", patient_name_re);
    ("date_of_birth", date_of_birth_re);
    ("member_id", member_id_re);
    ("date_of_service", date_of_service_re);
    ("provider_name", provider_name_re);
    ("diagnosis_code", diagnosis_code_re);
    ("procedure_code", procedure_code_re);
    ("amount", amount_re);
    ("phone", phone_re) ].

Definition insurance_claim_rules : PyDict.dict regex :=
  [ ("claim_number", claim_number_re);
    ("group_number", group_number_re);
    ("adjustment_reason", adjustment_reason_re);
    ("patient_responsibility", patient_responsibility_re) ].

Definition prescription_rules : PyDict.dict regex :=
  [ ("medication", medication_re);
    ("dosage", dosage_re);
    ("frequency", frequency_re);
    ("refills", refills_re);
    ("prescriber", prescriber_re) ].

Definition medical_report_rules : PyDict.dict regex :=
  [ ("report_type", report_type_re);
    ("findings", findings_re);
    ("impression", impression_re);
    ("recommendations", recommendations_re) ].

(** [self.doc_type_patterns] *)
Definition doc_type_patterns : PyDict.dict (PyDict.dict regex) :=
  [ ("insurance_claim", insurance_claim_rules);
    ("prescription", prescription_rules);
    ("medical_report", medical_report_rules) ].

End Rules.

(* ================================================================= *)
(** ** Exceptions *)

(** An exception object; [msg] is [str(e)]. *)
Inductive exn : Type :=
| ValueError (msg : string)
| AttributeError (msg : string)
| OtherError (msg : string).

Definition str_exn (e : exn) : string :=
  match e with ValueError m | AttributeError m | OtherError m => m end.

Inductive res (A : Type) : Type :=
| Ok (a : A)
| Raise (e : exn).
Arguments Ok {A} a.
Arguments Raise {A} e.

(* ================================================================= *)
(** ** [float(str)] *)

Module PyFloat.

(** A binary64.  [Num q] is the finite float of value [q], as a reduced
    fraction, [Num 0] being [0.0]; [NegZero] is [-0.0]. *)
Inductive pyfloat : Type :=
| Num (q : Q)
| NegZero
| Inf (negative : bool)
| NaN.

(** [bool(x)] for a float: false exactly for the two zeros. *)
Definition truthy (f : pyfloat) : bool :=
  match f with
  | Num q => negb (Qeq_bool q 0)
  | NegZero => false
  | _ => true
  end.

(** [2^e], for an exponent of either sign. *)
Definition two_to (e : Z) : Q := Qpower (Qmake 2 1) e.

(** The exponent [e] with [2^e <= x < 2^(e+1)], for a positive [x]. *)
Definition floor_log2 (x : Q) : Z :=
  let e0 := (Z.log2 (Qnum x) - Z.log2 (Zpos (Qden x)))%Z in
  if Qle_bool (two_to e0) x then e0 else (e0 - 1)%Z.

(** The nearest integer, the even one of two that are equally near. *)
Definition round_half_even (y : Q) : Z :=
  let k := Qfloor y in
  match Qcompare (Qminus y (inject_Z k)) (Qmake 1 2) with
  | Lt => k
  | Gt => (k + 1)%Z
  | Eq => if Z.even k then k else (k + 1)%Z
  end.

(** The binary64 a non-negative value is read as: the nearest multiple
    of the unit in the last place (53 significant bits, no unit below
    [2^-1074]), ties to even; an infinity from [2^1024] on. *)
Definition round64 (x : Q) : pyfloat :=
  if Qle_bool x 0 then Num 0
  else
    let ulp := two_to (Z.max (floor_log2 x - 52) (-1074)) in
    let v := Qmult (inject_Z (round_half_even (Qdiv x ulp))) ulp in
    if Qle_bool (two_to 1024) v then Inf false else Num (Qred v).

Definition digit_val (c : ascii) : Z := Z.of_N (code c) - 48.

Fixpoint int_of_digits_acc (acc : Z) (s : string) : Z :=
  match s with
  | EmptyString => acc
  | String c s' => int_of_digits_acc (10 * acc + digit_val c) s'
  end.

Definition int_of_digits (s : string) : Z := int_of_digits_acc 0 s.

Definition underscore : ascii := "_"%char.

(** [(["_"] digit)*] : the digits read and the text left over. *)
Fixpoint digit_run (s : string) : string * string :=
  match s with
  | EmptyString => (EmptyString, EmptyString)
  | String c s' =>
      if is_digit c
      then let (ds, r) := digit_run s' in (String c ds, r)
      else if Ascii.eqb c underscore
      then match s' with
           | String c' s'' =>
               if is_digit c'
               then let (ds, r) := digit_run s'' in (String c' ds, r)
               else (EmptyString, s)
           | EmptyString => (EmptyString, s)
           end
      else (EmptyString, s)
  end.

(** [digitpart ::= digit (["_"] digit)*] *)
Definition digitpart (s : string) : option (string * string) :=
  match s with
  | String c s' =>
      if is_digit c
      then let (ds, r) := digit_run s' in Some (String c ds, r)
      else None
  | EmptyString => None
  end.

Definition is_sign (c : ascii) : bool :=
  Ascii.eqb c "+"%char || Ascii.eqb c "-"%char.

(** [exponent ::= ("e" | "E") [sign] digitpart], absent when the text
    does not start with it. *)
Definition exponent (s : string) : (Z * string) :=
  match s with
  | String c s' =>
      if Ascii.eqb c "e"%char || Ascii.eqb c "E"%char
      then
        let (neg, s1) :=
          match s' with
          | String g s'' => if is_sign g then (Ascii.eqb g "-"%char, s'')
                            else (false, s')
          | EmptyString => (false, s')
          end in
        match digitpart s1 with
        | Some (ds, r) =>
            ((if neg then - int_of_digits ds else int_of_digits ds)%Z, r)
        | None => (0%Z, s)
        end
      else (0%Z, s)
  | EmptyString => (0%Z, s)
  end.

(** [number ::= [digitpart] "." digitpart | digitpart ["."]] :
    integer digits, fraction digits, the text left over. *)
Definition number (s : string) : option (string * string * string) :=
  match digitpart s with
  | Some (ip, r) =>
      match r with
      | String c r' =>
          if Ascii.eqb c "."%char
          then match digitpart r' with
               | Some (fp, r'') => Some (ip, fp, r'')
               | None => Some (ip, EmptyString, r')
               end
          else Some (ip, EmptyString, r)
      | EmptyString => Some (ip, EmptyString, r)
      end
  | None =>
      match s with
      | String c r' =>
          if Ascii.eqb c "."%char
          then match digitpart r' with
               | Some (fp, r'') => Some (EmptyString, fp, r'')
               | None => None
               end
          else None
      | EmptyString => None
      end
  end.

(** The value [m * 10^e] as a reduced fraction. *)
Definition scale (m e : Z) : Q :=
  if (0 <=? e)%Z then Qred (Qmake (m * 10 ^ e) 1)
  else Qred (Qmake m (Z.to_pos (10 ^ (- e)))).

Definition absfloat (s : string) : option pyfloat :=
  let l := lower s in
  if String.eqb l "inf" || String.eqb l "infinity" then Some (Inf false)
  else if String.eqb l "nan" then Some NaN
  else
    match number s with
    | Some (ip, fp, r) =>
        let (e, r') := exponent r in
        if is_empty r'
        then Some (round64 (scale (int_of_digits (ip ++ fp))
                                     (e - Z.of_nat (String.length fp))))
        else None
    | None => None
    end.

Definition negate (f : pyfloat) : pyfloat :=
  match f with
  | Num q => if Qeq_bool q 0 then NegZero else Num (Qopp q)
  | NegZero => Num 0
  | Inf n => Inf (negb n)
  | NaN => NaN
  end.

(** [float(s)]: [None] stands for [ValueError]. *)
Definition float_of_str (s : string) : option pyfloat :=
  match strip_with is_number_space s with
  | String c s' =>
      if is_sign c
      then match absfloat s' with
           | Some f => Some (if Ascii.eqb c "-"%char then negate f else f)
           | None => None
           end
      else absfloat (String c s')
  | EmptyString => None
  end.

End PyFloat.

(* ================================================================= *)
(** ** [datetime]: [strptime] for the directives of the source's format
       list, calendar validation and [isoformat] *)

Module PyDate.
Import Re.
Local Open Scope Z_scope.

Record date : Type := MkDate { year : Z; month : Z; day : Z }.

Definition is_leap (y : Z) : bool :=
  (y mod 4 =? 0) && (negb (y mod 100 =? 0) || (y mod 400 =? 0)).

Definition days_in_month (y m : Z) : Z :=
  if m =? 2 then (if is_leap y then 29 else 28)
  else if (m =? 4) || (m =? 6) || (m =? 9) || (m =? 11) then 30
  else 31.

(** [datetime.date(y, m, d)]: [ValueError] outside the calendar. *)
Definition make_date (y m d : Z) : res date :=
  if negb ((1 <=? y) && (y <=? 9999))
  then Raise (ValueError "year is out of range")
  else if negb ((1 <=? m) && (m <=? 12))
  then Raise (ValueError "month must be in 1..12")
  else if negb ((1 <=? d) && (d <=? days_in_month y m))
  then Raise (ValueError "day is out of range for month")
  else Ok (MkDate y m d).

Definition digit_chr (n : Z) : ascii := ascii_of_N (Z.to_N (n + 48)).

Definition zpad2 (n : Z) : string :=
  String (digit_chr (n / 10 mod 10)) (String (digit_chr (n mod 10)) "").

Definition zpad4 (n : Z) : string :=
  String (digit_chr (n / 1000 mod 10))
    (String (digit_chr (n / 100 mod 10)) (zpad2 n)).

(** [date.isoformat()] : ["%04d-%02d-%02d"]. *)
Definition isoformat (dt : date) : string :=
  (zpad4 (year dt) ++ "-" ++ zpad2 (month dt) ++ "-" ++ zpad2 (day dt))%string.

(** A clock reading, as [datetime.utcnow()] returns it. *)
Record datetime : Type := MkDatetime {
  on : date; hour : Z; minute : Z; second : Z; microsecond : Z
}.

Definition zpad6 (n : Z) : string :=
  (zpad2 (n / 10000) ++ zpad4 n)%string.

(** [datetime.isoformat()] : the fraction is printed when not zero. *)
Definition datetime_isoformat (t : datetime) : string :=
  (isoformat (on t) ++ "T" ++ zpad2 (hour t) ++ ":" ++ zpad2 (minute t)
   ++ ":" ++ zpad2 (second t)
   ++ (if Z.eqb (microsecond t) 0 then "" else "." ++ zpad6 (microsecond t)))%string.

(** *** [strptime] *)

Inductive directive : Type := Dm | Dd | DY | Dy.

Inductive fmt_item : Type :=
| Dir (x : directive)
| Lit (c : ascii).

(** The format string split into directives and literal characters;
    [None] for a directive outside [%m %d %Y %y]. *)
Fixpoint parse_format (fmt : string) : option (list fmt_item) :=
  match fmt with
  | EmptyString => Some []
  | String c rest =>
      if Ascii.eqb c "%"%char
      then match rest with
           | String x rest' =>
               let item :=
                 if Ascii.eqb x "m"%char then Some Dm
                 else if Ascii.eqb x "d"%char then Some Dd
                 else if Ascii.eqb x "Y"%char then Some DY
                 else if Ascii.eqb x "y"%char then Some Dy
                 else None in
               match item, parse_format rest' with
               | Some i, Some l => Some (Dir i :: l)
               | _, _ => None
               end
           | EmptyString => None
           end
      else match parse_format rest with
           | Some l => Some (Lit c :: l)
           | None => None
           end
  end.

Definition r09 : cset := CDigit.
Definition r (lo hi : ascii) : cset := CRange lo hi.
Definition l (c : ascii) : cset := CLit c.

Local Open Scope char_scope.

(** The regular expression of each directive, as the alternatives of
    [_strptime.TimeRE], each a sequence of character sets:
    [%m] is [1[0-2]|0[1-9]|[1-9]],
    [%d] is [3[0-1]|[1-2]\d|0[1-9]|[1-9]| [1-9]],
    [%Y] is [\d\d\d\d] and [%y] is [\d\d]. *)
Definition directive_re (x : directive) : list (list cset) :=
  match x with
  | Dm => [ [l "1"; r "0" "2"]; [l "0"; r "1" "9"]; [r "1" "9"] ]
  | Dd => [ [l "3"; r "0" "1"]; [r "1" "2"; r09]; [l "0"; r "1" "9"];
            [r "1" "9"]; [l " "; r "1" "9"] ]
  | DY => [ [r09; r09; r09; r09] ]
  | Dy => [ [r09; r09] ]
  end.

Local Open Scope string_scope.

(** A sequence of character sets against the front of [s]:
    the text matched and the text left. *)
Fixpoint match_classes (cs : list cset) (s : string) : option (string * string) :=
  match cs with
  | [] => Some ("", s)
  | c :: cs' =>
      match s with
      | String a s' =>
          if cset_mem c a
          then match match_classes cs' s' with
               | Some (t, rest) => Some (String a t, rest)
               | None => None
               end
          else None
      | EmptyString => None
      end
  end.

(** All ways a directive matches at the front of [s], in the order the
    backtracking matcher tries them. *)
Definition directive_matches (x : directive) (s : string) : list (string * string) :=
  flat_map (fun cs => match match_classes cs s with
                      | Some m => [m]
                      | None => []
                      end) (directive_re x).

(** All ways the whole format matches at the front of [s], in
    backtracking order: the texts found for the directives and the text
    left after the match. *)
Fixpoint format_matches (f : list fmt_item) (s : string)
  : list (list (directive * string) * string) :=
  match f with
  | [] => [([], s)]
  | Lit c :: f' =>
      match s with
      | String a s' => if cset_mem (CLit c) a then format_matches f' s' else []
      | EmptyString => []
      end
  | Dir x :: f' =>
      flat_map (fun m =>
                  map (fun fr => ((x, fst m) :: fst fr, snd fr))
                      (format_matches f' (snd m)))
               (directive_matches x s)
  end.

(** [int(text)] for a text of digits with surrounding blanks. *)
Definition py_int (t : string) : Z :=
  PyFloat.int_of_digits (strip_with is_number_space t).

(** The loop over [found_dict]: defaults 1900-01-01, and a two-digit
    year up to 68 is in the 2000s, otherwise in the 1900s. *)
Fixpoint assign (found : list (directive * string)) (y m d : Z) : Z * Z * Z :=
  match found with
  | [] => (y, m, d)
  | (Dm, t) :: rest => assign rest y (py_int t) d
  | (Dd, t) :: rest => assign rest y m (py_int t)
  | (DY, t) :: rest => assign rest (py_int t) m d
  | (Dy, t) :: rest =>
      let yy := py_int t in
      assign rest (if Z.leb yy 68 then Z.add yy 2000 else Z.add yy 1900) m d
  end.

(** [datetime.strptime(data_string, fmt).date()] *)
Definition strptime (data_string fmt : string) : res date :=
  match parse_format fmt with
  | None => Raise (ValueError "bad directive in format")
  | Some f =>
      match format_matches f data_string with
      | [] => Raise (ValueError "time data does not match format")
      | (found, rest) :: _ =>
          if is_empty rest
          then let '(y, m, d) := assign found 1900%Z 1%Z 1%Z in make_date y m d
          else Raise (ValueError "unconverted data remains")
      end
  end.

End PyDate.

(* ================================================================= *)
(** ** [HealthcareDataExtractor] *)

Import Rules.

(** A value of the normalised field map. *)
Inductive value : Type :=
| VStr (s : string)
| VFloat (f : PyFloat.pyfloat)
| VNone.

(** [bool(v)] *)
Definition truthy (v : value) : bool :=
  match v with
  | VStr s => nonempty s
  | VFloat f => PyFloat.truthy f
  | VNone => false
  end.

(** *** [_extract_using_patterns] *)

(** [match.group(1).strip() if match.groups() else match.group(0).strip()] *)
Definition matched_value (pattern : Re.regex) (m : Re.rmatch_object) : res string :=
  if Nat.ltb 0 (Re.ngroups pattern)
  then match Re.group1 m with
       | Some g => Ok (strip g)
       | None => Raise (AttributeError "'NoneType' object has no attribute 'strip'")
       end
  else Ok (strip (Re.group0 m)).

Fixpoint extract_loop (text : string) (items : PyDict.dict Re.regex)
         (extracted : PyDict.dict string) : res (PyDict.dict string) :=
  match items with
  | [] => Ok extracted
  | (field, pattern) :: rest =>
      match Re.search pattern text with
      | Some m =>
          match matched_value pattern m with
          | Ok v => extract_loop text rest (PyDict.set field v extracted)
          | Raise e => Raise e
          end
      | None => extract_loop text rest extracted
      end
  end.

Definition _extract_using_patterns (text : string) (pats : PyDict.dict Re.regex)
  : res (PyDict.dict string) :=
  extract_loop text pats [].

(** *** [_parse_date] *)

Definition date_formats : list string :=
  ["%m/%d/%Y"; "%m-%d-%Y"; "%Y-%m-%d"; "%m/%d/%y"; "%m-%d-%y"].

(** The [for fmt in ...] loop: the ISO text of the first format that
    parses, [None] when the loop runs out. *)
Fixpoint try_formats (date_str : string) (fmts : list string) : option string :=
  match fmts with
  | [] => None
  | fmt :: rest =>
      match PyDate.strptime date_str fmt with
      | Ok dt => Some (PyDate.isoformat dt)
      | Raise _ => try_formats date_str rest
      end
  end.

Definition _parse_date (date_str : string) : value :=
  if is_empty date_str then VNone
  else match try_formats date_str date_formats with
       | Some iso => VStr iso
       | None => VStr date_str
       end.

(** *** [_post_process_fields] *)

Definition is_numeric_key (key : string) : bool :=
  existsb (String.eqb key) ["amount"; "patient_responsibility"].

Definition is_date_key (key : string) : bool :=
  contains "date" (lower key) || contains "dob" (lower key).

(** The body of the loop for one non-empty [value]. *)
Definition process_value (key val : string) : value :=
  let cleaned := strip val in
  if is_numeric_key key
  then match PyFloat.float_of_str
               (strip (remove_char "," (remove_char "$" cleaned))) with
       | Some f => VFloat f
       | None => VStr cleaned
       end
  else if is_date_key key then _parse_date cleaned
  else VStr cleaned.

Fixpoint post_loop (items : PyDict.dict string) (processed : PyDict.dict value)
  : PyDict.dict value :=
  match items with
  | [] => processed
  | (key, val) :: rest =>
      if is_empty val then post_loop rest processed
      else post_loop rest (PyDict.set key (process_value key val) processed)
  end.

Definition _post_process_fields (fields : PyDict.dict string) : PyDict.dict value :=
  post_loop fields [].

(** *** [_validate_extracted_data] *)

Record report : Type := MkReport {
  is_valid : bool;
  errors : list string;
  warnings : list string
}.

Definition required_fields : PyDict.dict (list string) :=
  [ ("insurance_claim", ["patient_name"; "member_id"; "date_of_service"]);
    ("prescription", ["patient_name"; "medication"; "dosage"]);
    ("medical_report", ["patient_name"; "report_type"]) ].

(** [field not in fields or not fields[field]] *)
Definition missing (fields : PyDict.dict value) (field : string) : bool :=
  match PyDict.get field fields with
  | None => true
  | Some v => negb (truthy v)
  end.

Fixpoint check_required (fields : PyDict.dict value) (req : list string)
         (validation : report) : report :=
  match req with
  | [] => validation
  | field :: rest =>
      check_required fields rest
        (if missing fields field
         then MkReport false
                (errors validation ++ [("Missing required field: " ++ field)%string])
                (warnings validation)
         else validation)
  end.

Section Validation.

(** Whether [datetime.fromisoformat] accepts a string.  The accepted
    language depends on the interpreter version; the validator only
    observes whether the call raises. *)
Variable fromisoformat_ok : string -> bool.

Fixpoint check_dates (items : PyDict.dict value) (validation : report) : report :=
  match items with
  | [] => validation
  | (field, v) :: rest =>
      check_dates rest
        (match v with
         | VStr s =>
             if is_date_key field && negb (fromisoformat_ok s)
             then MkReport (is_valid validation) (errors validation)
                    (warnings validation
                     ++ [("Invalid date format for " ++ field ++ ": " ++ s)%string])
             else validation
         | _ => validation
         end)
  end.

Definition _validate_extracted_data (fields : PyDict.dict value)
           (doc_type : option string) : report :=
  let validation := MkReport true [] [] in
  let validation :=
    match doc_type with
    | Some dt =>
        match PyDict.get dt required_fields with
        | Some req => check_required fields req validation
        | None => validation
        end
    | None => validation
    end in
  check_dates fields validation.

End Validation.

(** *** [extract_structured_data] *)

(** The returned dictionary: a key that was never assigned is [None]. *)
Record result : Type := MkResult {
  extraction_timestamp : option string;
  document_type : option string;
  extracted_fields : option (PyDict.dict value);
  validation : option report;
  error : option string
}.

(** [{}] *)
Definition empty_result : result := MkResult None None None None None.

Definition set_fields (f : PyDict.dict value) (r : result) : result :=
  MkResult (extraction_timestamp r) (document_type r) (Some f)
           (validation r) (error r).

Definition set_validation (v : report) (r : result) : result :=
  MkResult (extraction_timestamp r) (document_type r) (extracted_fields r)
           (Some v) (error r).

Definition set_error (m : string) (r : result) : result :=
  MkResult (extraction_timestamp r) (document_type r) (extracted_fields r)
           (validation r) (Some m).

(** How a call ends: it returns a dictionary or an exception leaves it. *)
Inductive outcome : Type :=
| Returns (r : result)
| Propagates (e : exn).

(** Statements that mutate [result] and may raise: the state after the
    statement, and the exception if one was raised. *)
Definition stmt (A : Type) : Type := result -> res A * result.

Definition ret {A} (a : A) : stmt A := fun r => (Ok a, r).

Definition bind {A B} (c : stmt A) (k : A -> stmt B) : stmt B :=
  fun r => match c r with
           | (Ok a, r') => k a r'
           | (Raise e, r') => (Raise e, r')
           end.

Definition call {A} (x : res A) : stmt A := fun r => (x, r).

Definition modify (f : result -> result) : stmt unit := fun r => (Ok tt, f r).

Notation "x <- c ;; k" := (bind c (fun x => k))
  (at level 61, c at next level, right associativity).
Notation "c ;;; k" := (bind c (fun _ => k))
  (at level 61, right associativity).

(** [try: body  except Exception as e: result['error'] = str(e)] followed
    by [return result]. *)
Definition try_except_return (body : stmt unit) (r : result) : outcome :=
  match body r with
  | (Ok _, r') => Returns r'
  | (Raise e, r') => Returns (set_error (str_exn e) r')
  end.

(** The dictionary of raw strings as it sits in [result] before
    normalisation replaces it. *)
Definition raw_view (raw : PyDict.dict string) : PyDict.dict value :=
  map (fun kv => (fst kv, VStr (snd kv))) raw.

(** [doc_type or 'unknown'] *)
Definition or_unknown (doc_type : option string) : string :=
  match doc_type with
  | Some dt => if is_empty dt then "unknown" else dt
  | None => "unknown"
  end.

(** [doc_type and doc_type in self.doc_type_patterns], with the rule set
    when it holds. *)
Definition registered (doc_type : option string) : option (PyDict.dict Re.regex) :=
  match doc_type with
  | Some dt => if is_empty dt then None else PyDict.get dt doc_type_patterns
  | None => None
  end.

(** The dictionary the entry point starts from. *)
Definition initial_result (now : PyDate.datetime) (doc_type : option string)
  : result :=
  MkResult (Some (PyDate.datetime_isoformat now))
           (Some (or_unknown doc_type)) (Some []) None None.

Section Orchestration.

(** The three methods the entry point calls on [self]. *)
Variable extract_stage : string -> PyDict.dict Re.regex -> res (PyDict.dict string).
Variable normalize_stage : PyDict.dict string -> res (PyDict.dict value).
Variable validate_stage : PyDict.dict value -> option string -> res report.

(** The body of the [try] block. *)
Definition pipeline (text : string) (doc_type : option string) : stmt unit :=
  common_fields <- call (extract_stage text patterns) ;;
  let raw := PyDict.update [] common_fields in
  modify (set_fields (raw_view raw)) ;;;
  raw <- match registered doc_type with
         | Some rules =>
             doc_specific <- call (extract_stage text rules) ;;
             let raw := PyDict.update raw doc_specific in
             modify (set_fields (raw_view raw)) ;;;
             ret raw
         | None => ret raw
         end ;;
  processed <- call (normalize_stage raw) ;;
  modify (set_fields processed) ;;;
  report <- call (validate_stage processed doc_type) ;;
  modify (set_validation report).

Definition extract_structured_data_with (now : PyDate.datetime)
           (text : string) (doc_type : option string) : outcome :=
  if is_empty text then Returns empty_result
  else try_except_return (pipeline text doc_type) (initial_result now doc_type).

End Orchestration.

(** The entry point with the methods of the class; [now] is what
    [datetime.utcnow()] returns during the call. *)
Definition extract_structured_data (fromisoformat_ok : string -> bool)
           (now : PyDate.datetime) (text : string) (doc_type : option string)
  : outcome :=
  extract_structured_data_with
    _extract_using_patterns
    (fun fields => Ok (_post_process_fields fields))
    (fun fields dt => Ok (_validate_extracted_data fromisoformat_ok fields dt))
    now text doc_type.

(* ================================================================= *)
(** ** [HealthcareDocumentProcessor] *)

(** *** [_determine_document_type]

    The label is read off [str(analysis_result).lower()]; the argument
    here is [str(analysis_result)], the rendering of the analysis
    result. *)
Definition _determine_document_type (rendered : string) : string :=
  if contains "claim" (lower rendered) then "insurance_claim"
  else if contains "prescription" (lower rendered) then "prescription"
  else if contains "report" (lower rendered) then "medical_report"
  else "unknown".

(* ================================================================= *)
(** * Vocabulary of the statements *)

Unset Implicit Arguments.

(** ** The validator *)

(** The required-field table as the specification words it. *)
Definition spec_required (doc_type : option string) : list string :=
  match doc_type with
  | Some dt =>
      if String.eqb dt "insurance_claim"
      then ["patient_name"; "member_id"; "date_of_service"]
      else if String.eqb dt "prescription"
      then ["patient_name"; "medication"; "dosage"]
      else if String.eqb dt "medical_report"
      then ["patient_name"; "report_type"]
      else []
  | None => []
  end.

(** A field is absent from the map or carries a falsy value. *)
Definition absent_or_falsy (fields : PyDict.dict value) (field : string) : Prop :=
  PyDict.get field fields = None
  \/ exists v, PyDict.get field fields = Some v /\ truthy v = false.

(** ** What a regular expression matches *)

Module ReSem.
Import Re.

(** [n] consecutive matches of a relation [R]. *)
Inductive Iter (R : string -> string -> capture -> capture -> Prop)
  : nat -> string -> string -> capture -> capture -> Prop :=
| Iter_O : forall s c, Iter R 0 "" s c c
| Iter_S : forall n w1 w2 s c c1 c2,
    R w1 (w2 ++ s)%string c c1 -> Iter R n w2 s c1 c2 ->
    Iter R (S n) (w1 ++ w2)%string s c c2.

Definition within (n : nat) (hi : option nat) : Prop :=
  match hi with None => True | Some h => n <= h end.

(** [M r w s c c']: the expression [r] matches the word [w] when the
    text [s] follows it, taking the capture from [c] to [c'].  The
    relation ignores priorities: it holds of every match the
    backtracking matcher can return. *)
Fixpoint M (r : regex) (w s : string) (c c' : capture) {struct r} : Prop :=
  match r with
  | Eps => w = "" /\ c' = c
  | Chr cs => exists a, w = String a "" /\ cset_mem cs a = true /\ c' = c
  | Seq r1 r2 =>
      exists w1 w2 c1, w = (w1 ++ w2)%string
                       /\ M r1 w1 (w2 ++ s)%string c c1 /\ M r2 w2 s c1 c'
  | Alt r1 r2 => M r1 w s c c' \/ M r2 w s c c'
  | Rep _ lo hi r1 =>
      exists n, lo <= n /\ within n hi /\ Iter (M r1) n w s c c'
  | Group r1 => (exists c1, M r1 w s c c1) /\ c' = Some w
  | Ahead r1 =>
      w = "" /\ exists w1 s1, s = (w1 ++ s1)%string /\ M r1 w1 s1 c c'
  | Dollar => w = "" /\ at_dollar s = true /\ c' = c
  | EndZ => w = "" /\ s = "" /\ c' = c
  end.

(** What a matcher function promises: a result comes from a match of
    [R] followed by a successful continuation. *)
Definition sound_for {A : Type}
  (R : string -> string -> capture -> capture -> Prop)
  (f : string -> capture -> (string -> capture -> option A) -> option A) : Prop :=
  forall s cap k x,
    f s cap k = Some x ->
    exists w s' c', s = (w ++ s')%string /\ R w s' cap c' /\ k s' c' = Some x.

(** A matcher uses its continuation only through its results. *)
Definition respects {A : Type}
  (f : string -> capture -> (string -> capture -> option A) -> option A) : Prop :=
  forall s cap k1 k2,
    (forall s' c, k1 s' c = k2 s' c) -> f s cap k1 = f s cap k2.

(** A matcher whose continuation always fails, fails. *)
Definition fails {A : Type}
  (f : string -> capture -> (string -> capture -> option A) -> option A) : Prop :=
  forall s cap, f s cap (fun _ _ => None) = None.

(** A rule is well formed when it is a prefix, the capturing group and
    a suffix, with no other group. *)
Definition is_rule (r : regex) : bool :=
  match r with
  | Seq p (Seq (Group b) x) =>
      Nat.eqb (ngroups p) 0 && Nat.eqb (ngroups b) 0 && Nat.eqb (ngroups x) 0
  | _ => false
  end.

Definition rule_body (r : regex) : regex :=
  match r with
  | Seq _ (Seq (Group b) _) => b
  | _ => Eps
  end.

End ReSem.

(** ** Extraction and the entry point *)

Definition rules_ok (rules : PyDict.dict Re.regex) : bool :=
  forallb (fun kr => ReSem.is_rule (snd kr)) rules.

(** Where an extracted value comes from: the rule registered for the
    field matched and the value is its stripped capture. *)
Definition extracted_by (text : string) (rules : PyDict.dict Re.regex)
           (k v : string) : Prop :=
  exists r m g, In (k, r) rules /\ Re.search r text = Some m
                /\ Re.group1 m = Some g /\ v = strip g.

Section StageVocabulary.

Variable ex : string -> PyDict.dict Re.regex -> res (PyDict.dict string).
Variable no : PyDict.dict string -> res (PyDict.dict value).
Variable va : PyDict.dict value -> option string -> res report.

(** The merged raw fields, when both extractions return. *)
Definition merged_fields (text : string) (doc_type : option string)
  : res (PyDict.dict string) :=
  match ex text patterns with
  | Raise e => Raise e
  | Ok common =>
      match registered doc_type with
      | Some rules =>
          match ex text rules with
          | Raise e => Raise e
          | Ok specific =>
              Ok (PyDict.update (PyDict.update [] common) specific)
          end
      | None => Ok (PyDict.update [] common)
      end
  end.

(** What the call returns once the raw fields are merged. *)
Definition after_merge (r0 : result) (doc_type : option string)
           (raw : PyDict.dict string) : outcome :=
  match no raw with
  | Raise e => Returns (set_error (str_exn e) (set_fields (raw_view raw) r0))
  | Ok processed =>
      match va processed doc_type with
      | Raise e => Returns (set_error (str_exn e) (set_fields processed r0))
      | Ok rep => Returns (set_validation rep (set_fields processed r0))
      end
  end.

End StageVocabulary.

(** The extracted fields a caller reads from a returned dictionary:
    [result.get('extracted_fields', {})]. *)
Definition fields_of (r : result) : PyDict.dict value :=
  match extracted_fields r with
  | Some f => f
  | None => []
  end.

(** The returned dictionary without its [extraction_timestamp]. *)
Definition forget_timestamp (o : outcome) : outcome :=
  match o with
  | Returns r =>
      Returns (MkResult None (document_type r) (extracted_fields r)
                        (validation r) (error r))
  | Propagates e => Propagates e
  end.

(** The normalised entry of one raw entry: empty values are dropped. *)
Definition normalized (key val : string) : option value :=
  if is_empty val then None else Some (process_value key val).

(** The registered document types, as the specification lists them. *)
Definition registered_types : list string :=
  ["insurance_claim"; "prescription"; "medical_report"].

(** The names of the common rules, as the specification lists them. *)
Definition common_fields : list string :=
  ["patient_name"; "date_of_birth"; "member_id"; "date_of_service";
   "provider_name"; "diagnosis_code"; "procedure_code"; "amount"; "phone"].

(** ** Shapes of texts *)

Module CharSets.
Local Open Scope char_scope.

Definition digit_chars : list ascii :=
  ["0"; "1"; "2"; "3"; "4"; "5"; "6"; "7"; "8"; "9"].

Definition not_space (c : ascii) : bool := negb (is_space c).


End CharSets.

Module DateShape.
Import PyDate CharSets.
Local Open Scope char_scope.

(** The shape [YYYY-MM-DD]: ten characters, digits around two dashes. *)
Definition iso_shape (s : string) : bool :=
  match s with
  | String y1 (String y2 (String y3 (String y4 (String h1
      (String m1 (String m2 (String h2 (String d1 (String d2 EmptyString))))))))) =>
      is_digit y1 && is_digit y2 && is_digit y3 && is_digit y4
      && Ascii.eqb h1 "-"
      && is_digit m1 && is_digit m2
      && Ascii.eqb h2 "-"
      && is_digit d1 && is_digit d2
  | _ => false
  end.

Definition f_mdY (c : ascii) : list fmt_item :=
  [Dir Dm; Lit c; Dir Dd; Lit c; Dir DY].
Definition f_Ymd : list fmt_item :=
  [Dir DY; Lit "-"; Dir Dm; Lit "-"; Dir Dd].
Definition f_mdy (c : ascii) : list fmt_item :=
  [Dir Dm; Lit c; Dir Dd; Lit c; Dir Dy].

Definition str2 (a b : ascii) : string := String a (String b EmptyString).
Definition str4 (a b c e : ascii) : string := String a (String b (str2 c e)).

(** For a month-and-day text [m1 m2 - d1 d2]: when the first match of
    [%m-%d] uses the whole text, the month is [m1 m2], the day is
    [d1 d2], and both print back as they were read. *)
Definition month_day_check (m1 m2 d1 d2 : ascii) : bool :=
  match format_matches [Dir Dm; Lit "-"; Dir Dd]
          (String m1 (String m2 (String "-" (str2 d1 d2)))) with
  | [] => true
  | (found, rest) :: _ =>
      negb (is_empty rest)
      || match found with
         | [(Dm, a); (Dd, b)] =>
             String.eqb a (str2 m1 m2) && String.eqb b (str2 d1 d2)
             && String.eqb (zpad2 (py_int a)) a
             && String.eqb (zpad2 (py_int b)) b
         | _ => false
         end
  end.

(** Four digits read as a year print back as they were. *)
Definition year_check (a b c e : ascii) : bool :=
  String.eqb (zpad4 (py_int (str4 a b c e))) (str4 a b c e).

End DateShape.


Module FloatShape.
Import PyFloat.


End FloatShape.

(** ** Decimal texts and the floats they are read as *)

Module Decimal.
Import PyFloat.



End Decimal.

Module FloatRead.
Import PyFloat.
Local Open Scope Q_scope.


End FloatRead.

(** ** Inputs of the examples *)

Definition noon : PyDate.datetime :=
  PyDate.MkDatetime (PyDate.MkDate 2023 5 10) 12 0 0 0.

Definition midnight : PyDate.datetime :=
  PyDate.MkDatetime (PyDate.MkDate 2023 5 11) 0 0 0 0.

(** A normalisation stage that fails on every input. *)
Definition failing_normalizer (_ : PyDict.dict string) : res (PyDict.dict value) :=
  Raise (AttributeError "'int' object has no attribute 'strip'").

Definition claim_text : string :=
  "Total Amount: $150.00; patient responsibility $ 20.00".

(** [result['extracted_fields']] after the two [update] calls of the
    entry point: the common result put into the empty dictionary, then
    the type-specific result put over it. *)
Definition overlaid (common specific : PyDict.dict string)
  : PyDict.dict string :=
  PyDict.update (PyDict.update [] common) specific.

(** An extraction stage whose two results share the name patient_name:
    one pair of fields for the common table, another for any other
    table. *)
Definition colliding_stage (_ : string) (rules : PyDict.dict Re.regex)
  : res (PyDict.dict string) :=
  Ok (if Nat.eqb (List.length rules) (List.length patterns)
      then [("patient_name", "Ann Common"); ("member_id", "M1")]
      else [("patient_name", "Ann Specific"); ("dosage", "5 mg")]).


(** The sample document of the module's [__main__] block. *)
Definition sample_text : string :=
  "
    PATIENT INFORMATION
    Name: John Doe
    Date of Birth: 01/15/1980
    Member ID: ABC123456
    
    CLAIM DETAILS
    Claim #: CLM987654
    Date of Service: 05/10/2023
    Provider: Dr. Smith
    Diagnosis Code: E11.65
    Procedure Code: 99213
    Total Amount: $150.00
    ".

(* ================================================================= *)
(** * Vocabulary of the further properties *)

(** ** Extraction *)

(** The stripped capture of a rule on a text, when the rule matches. *)
Definition captured (r : Re.regex) (text : string) : option string :=
  match Re.search r text with
  | Some m => option_map strip (Re.group1 m)
  | None => None
  end.

(** The fields a rule table selects from a text, in table order. *)
Definition selected (text : string) (rules : PyDict.dict Re.regex)
  : PyDict.dict string :=
  flat_map (fun kr => match captured (snd kr) text with
                      | Some v => [(fst kr, v)]
                      | None => []
                      end) rules.

(** The entries normalisation keeps, in order. *)
Definition kept (fields : PyDict.dict string) : PyDict.dict value :=
  flat_map (fun kv => match normalized (fst kv) (snd kv) with
                      | Some v => [(fst kv, v)]
                      | None => []
                      end) fields.

Module ReFirst.
Import Re.

Definition all_ascii : list ascii := map ascii_of_nat (List.seq 0 256).

(** No member of the set is white space. *)
Definition cset_black (cs : cset) : bool :=
  forallb (fun a => negb (cset_mem cs a) || negb (is_space a)) all_ascii.

(** Every word the expression matches is empty or starts with a
    character that is not white space (a sufficient syntactic test). *)
Fixpoint black0 (r : regex) : bool :=
  match r with
  | Eps | Ahead _ | Dollar | EndZ => true
  | Chr cs => cset_black cs
  | Seq r1 r2 => black0 r1 && black0 r2
  | Alt r1 r2 => black0 r1 && black0 r2
  | Rep _ _ _ r1 => black0 r1
  | Group r1 => black0 r1
  end.

(** Every word the expression matches starts with a character that is
    not white space (a sufficient syntactic test). *)
Fixpoint black1 (r : regex) : bool :=
  match r with
  | Eps | Ahead _ | Dollar | EndZ => false
  | Chr cs => cset_black cs
  | Seq r1 r2 => black1 r1 || (black0 r1 && black1 r2)
  | Alt r1 r2 => black1 r1 && black1 r2
  | Rep _ lo _ r1 => Nat.leb 1 lo && black1 r1
  | Group r1 => black1 r1
  end.

(** A word that starts with a character that is not white space. *)
Definition starts_black (w : string) : Prop :=
  exists a t, w = String a t /\ is_space a = false.

End ReFirst.

(** Every rule of the table captures a word that starts with a
    character that is not white space. *)
Definition rules_black (rules : PyDict.dict Re.regex) : bool :=
  forallb (fun kr => ReFirst.black1 (ReSem.rule_body (snd kr))) rules.

(** ** The pipeline *)

(** The raw fields of a text: what the common rules select, then what
    the rules of a registered doc_type select. *)
Definition raw_fields (text : string) (doc_type : option string)
  : PyDict.dict string :=
  selected text patterns
  ++ match registered doc_type with
     | Some rules => selected text rules
     | None => []
     end.

(** A value that is a float or a non-empty stripped string. *)
Definition solid (v : value) : Prop :=
  (exists f, v = VFloat f)
  \/ (exists s, v = VStr s /\ s <> "" /\ strip s = s).

(** ** The validator's messages *)

(** The fields the table of the validator requires for a doc_type. *)
Definition required_of (doc_type : option string) : list string :=
  match doc_type with
  | Some dt => match PyDict.get dt required_fields with
               | Some req => req
               | None => []
               end
  | None => []
  end.

Definition missing_message (field : string) : string :=
  ("Missing required field: " ++ field)%string.

Definition date_message (field s : string) : string :=
  ("Invalid date format for " ++ field ++ ": " ++ s)%string.

(** The warnings of a field map, entry by entry. *)
Definition date_warnings (iso : string -> bool) (fields : PyDict.dict value)
  : list string :=
  flat_map (fun kv => match snd kv with
                      | VStr s =>
                          if is_date_key (fst kv) && negb (iso s)
                          then [date_message (fst kv) s] else []
                      | _ => []
                      end) fields.

(** ** Dates as the date rules capture them *)

Module DateText.
Import PyDate.
Local Open Scope Z_scope.

(** One of the two separators of the date rules. *)
Definition sep (c : ascii) : bool := Ascii.eqb c "/" || Ascii.eqb c "-".

(** A text of [lo] to [hi] digits. *)
Definition digit_text (lo hi : nat) (s : string) : bool :=
  all_chars is_digit s
  && Nat.leb lo (String.length s) && Nat.leb (String.length s) hi.

(** [\d{1,2}[/-]\d{1,2}[/-]\d{2,4}], in its parts. *)
Definition date_text (ms : string) (c1 : ascii) (ds : string) (c2 : ascii)
           (ys : string) : string :=
  (ms ++ String c1 (ds ++ String c2 ys))%string.

(** The year a two-digit year stands for: up to 68 in the 2000s,
    otherwise in the 1900s. *)
Definition century (yy : Z) : Z :=
  if yy <=? 68 then 2000 + yy else 1900 + yy.

(** The year a year text of four or of two digits stands for. *)
Definition year_of (ys : string) : option Z :=
  match String.length ys with
  | 4%nat => Some (py_int ys)
  | 2%nat => Some (century (py_int ys))
  | _ => None
  end.

(** The calendar date a month-first text stands for: the separators
    agree, the year has four or two digits and the numbers are a date of
    the calendar. *)
Definition date_of (ms : string) (c1 : ascii) (ds : string) (c2 : ascii)
           (ys : string) : option date :=
  if Ascii.eqb c1 c2
  then match year_of ys with
       | Some y =>
           match make_date y (py_int ms) (py_int ds) with
           | Ok dt => Some dt
           | Raise _ => None
           end
       | None => None
       end
  else None.

(** The numbers [%m] and [%d] accept. *)
Definition dir_ok (x : directive) (n : Z) : bool :=
  match x with
  | Dm => (1 <=? n) && (n <=? 12)
  | Dd => (1 <=? n) && (n <=? 31)
  | _ => false
  end.

(** The number of digits [%Y] and [%y] take, and the year they give. *)
Definition year_len (x : directive) : nat :=
  match x with DY => 4%nat | _ => 2%nat end.

Definition year_val (x : directive) (ys : string) : Z :=
  match x with
  | DY => py_int ys
  | _ => let yy := py_int ys in if yy <=? 68 then yy + 2000 else yy + 1900
  end.

(** Two results of [strptime] that agree up to the message of the
    exception. *)
Definition same_outcome (a b : res date) : Prop :=
  match a, b with
  | Ok x, Ok y => x = y
  | Raise _, Raise _ => True
  | _, _ => False
  end.

End DateText.

(** ** The labels of the document processor *)

(** The rendering mentions the keyword, in any letter case. *)
Definition mentions (keyword rendered : string) : bool :=
  contains keyword (lower rendered).

(* ================================================================= *)
(** * Properties *)

(** ** Dictionaries *)

Module DictFacts.
Import PyDict.

Lemma get_set_same {V} (k : string) (v : V) (dd : dict V) :
  get k (set k v dd) = Some v.
Proof.
  induction dd as [|[k' v'] dd IH]; simpl.
  - now rewrite String.eqb_refl.
  - destruct (String.eqb k k') eqn:E; simpl; rewrite E; auto.
Qed.

Lemma get_set_other {V} (k k' : string) (v : V) (dd : dict V) :
  k <> k' -> get k (set k' v dd) = get k dd.
Proof.
  intros Hne. induction dd as [|[k2 v2] dd IH]; simpl.
  - destruct (String.eqb k k') eqn:E; auto.
    apply String.eqb_eq in E. contradiction.
  - destruct (String.eqb k' k2) eqn:E; simpl.
    + apply String.eqb_eq in E. subst k2.
      destruct (String.eqb k k') eqn:E2; auto.
      apply String.eqb_eq in E2. contradiction.
    + now rewrite IH.
Qed.

Lemma get_none_not_in {V} (k : string) (dd : dict V) :
  get k dd = None <-> ~ In k (keys dd).
Proof.
  induction dd as [|[k' v'] dd IH]; simpl.
  - tauto.
  - destruct (String.eqb k k') eqn:E.
    + apply String.eqb_eq in E. subst. split; [discriminate | tauto].
    + apply String.eqb_neq in E. rewrite IH. split.
      * intros H [H1 | H1]; [congruence | tauto].
      * tauto.
Qed.

Lemma keys_set {V} (k : string) (v : V) (dd : dict V) :
  keys (set k v dd) = if mem k dd then keys dd else keys dd ++ [k].
Proof.
  unfold mem. induction dd as [|[k' v'] dd IH]; simpl; auto.
  destruct (String.eqb k k') eqn:E; simpl; auto.
  rewrite IH. destruct (get k dd); auto.
Qed.

Lemma nodup_set {V} (k : string) (v : V) (dd : dict V) :
  NoDup (keys dd) -> NoDup (keys (set k v dd)).
Proof.
  intros H. rewrite keys_set. unfold mem.
  destruct (get k dd) eqn:E; auto.
  apply get_none_not_in in E.
  apply NoDup_app; auto.
  - constructor; [simpl; tauto | constructor].
  - intros x Hx [Hk | []]. subst. contradiction.
Qed.

Lemma in_set {V} (k : string) (v : V) (dd : dict V) (k0 : string) (v0 : V) :
  In (k0, v0) (set k v dd) -> (k0 = k /\ v0 = v) \/ In (k0, v0) dd.
Proof.
  induction dd as [|[k' v'] dd IH]; simpl.
  - intros [H | []]. inversion H. auto.
  - destruct (String.eqb k k') eqn:E; simpl.
    + apply String.eqb_eq in E. subst k'.
      intros [H | H]; [inversion H; auto | auto].
    + intros [H | H]; auto. destruct (IH H); auto.
Qed.

(** [d.update(e)] : a key of [e] takes [e]'s value, every other key
    keeps the value it had in [d]. *)
Lemma get_update {V} (dd e : dict V) (k : string) :
  NoDup (keys e) ->
  get k (update dd e) =
  match get k e with Some v => Some v | None => get k dd end.
Proof.
  unfold update. revert dd.
  induction e as [|[k1 v1] e IH]; intros dd Hnd; simpl; auto.
  inversion Hnd as [|x l Hnotin Hnd']; subst.
  rewrite IH by assumption.
  destruct (String.eqb k k1) eqn:E.
  - apply String.eqb_eq in E. subst k1.
    apply get_none_not_in in Hnotin. rewrite Hnotin.
    apply get_set_same.
  - apply String.eqb_neq in E.
    destruct (get k e); auto. now apply get_set_other.
Qed.

Lemma update_nil_l {V} (e : dict V) :
  NoDup (keys e) -> forall k, get k (update [] e) = get k e.
Proof.
  intros H k. rewrite get_update by assumption. destruct (get k e); auto.
Qed.


Lemma nodup_update {V} (dd e : dict V) :
  NoDup (keys dd) -> NoDup (keys (update dd e)).
Proof.
  unfold update. revert dd.
  induction e as [|[k1 v1] e IH]; intros dd H; simpl; auto.
  apply IH. now apply nodup_set.
Qed.

End DictFacts.

(** ** The validator *)

Lemma missing_spec (fields : PyDict.dict value) (field : string) :
  missing fields field = true <-> absent_or_falsy fields field.
Proof.
  unfold missing, absent_or_falsy.
  destruct (PyDict.get field fields) as [v|].
  - rewrite negb_true_iff. split.
    + intros H. right. now exists v.
    + intros [H | [v' [H1 H2]]]; congruence.
  - split; auto.
Qed.

Lemma check_dates_keeps (iso : string -> bool) (items : PyDict.dict value) :
  forall v, is_valid (check_dates iso items v) = is_valid v
            /\ errors (check_dates iso items v) = errors v.
Proof.
  induction items as [|[field x] items IH]; intros v; simpl; auto.
  destruct x; try apply IH.
  destruct (is_date_key field && negb (iso s)); [|apply IH].
  match goal with |- context [check_dates iso items ?r] =>
    destruct (IH r) as [H1 H2] end.
  rewrite H1, H2. auto.
Qed.

Lemma check_required_valid (fields : PyDict.dict value) (req : list string) :
  forall v, is_valid (check_required fields req v)
            = is_valid v && forallb (fun f => negb (missing fields f)) req.
Proof.
  induction req as [|f req IH]; intros v; simpl.
  - now rewrite andb_true_r.
  - rewrite IH. destruct (missing fields f); simpl; auto.
    now rewrite andb_false_r.
Qed.

Lemma check_required_errors_nil (fields : PyDict.dict value) (req : list string) :
  forall v, is_valid (check_required fields req v) = true ->
            errors (check_required fields req v) = errors v.
Proof.
  induction req as [|f req IH]; intros v; simpl; auto.
  destruct (missing fields f); auto.
  rewrite check_required_valid. simpl. discriminate.
Qed.

(** The table of the code is the table of the specification. *)
Lemma required_fields_spec (doc_type : option string) :
  match doc_type with
  | Some dt => match PyDict.get dt required_fields with
               | Some req => req
               | None => []
               end
  | None => []
  end = spec_required doc_type.
Proof.
  destruct doc_type as [dt|]; simpl; auto.
  destruct (String.eqb dt "insurance_claim"); auto.
  destruct (String.eqb dt "prescription"); auto.
  destruct (String.eqb dt "medical_report"); auto.
Qed.

Lemma validate_is_valid (iso : string -> bool) (fields : PyDict.dict value)
      (doc_type : option string) :
  is_valid (_validate_extracted_data iso fields doc_type)
  = forallb (fun f => negb (missing fields f)) (spec_required doc_type).
Proof.
  unfold _validate_extracted_data.
  destruct (check_dates_keeps iso fields
              (match doc_type with
               | Some dt =>
                   match PyDict.get dt required_fields with
                   | Some req => check_required fields req (MkReport true [] [])
                   | None => MkReport true [] []
                   end
               | None => MkReport true [] []
               end)) as [H _].
  rewrite H. rewrite <- required_fields_spec.
  destruct doc_type as [dt|]; auto.
  destruct (PyDict.get dt required_fields); auto.
  now rewrite check_required_valid.
Qed.

(** C1. For every field map and every doc_type the report's [is_valid]
    is false exactly when some field required for that doc_type
    (insurance_claim: patient_name, member_id, date_of_service;
    prescription: patient_name, medication, dosage; medical_report:
    patient_name, report_type) is absent from the map or has a falsy
    value; whatever the date check accepts or rejects, [is_valid] is
    the same. *)
Theorem C1_is_valid_iff_required_present :
  forall (iso : string -> bool) (fields : PyDict.dict value)
         (doc_type : option string),
    (is_valid (_validate_extracted_data iso fields doc_type) = false
     <-> exists field, In field (spec_required doc_type)
                       /\ absent_or_falsy fields field)
    /\ (forall iso' : string -> bool,
          is_valid (_validate_extracted_data iso' fields doc_type)
          = is_valid (_validate_extracted_data iso fields doc_type)).
Proof.
  intros iso fields doc_type. split.
  - rewrite validate_is_valid. split.
    + intros H.
      destruct (forallb (fun f => negb (missing fields f))
                        (spec_required doc_type)) eqn:E; [discriminate|].
      assert (Hex : existsb (fun f => missing fields f)
                            (spec_required doc_type) = true).
      { clear H. induction (spec_required doc_type) as [|f l IH]; simpl in *.
        - discriminate.
        - destruct (missing fields f); simpl in *; auto. }
      apply existsb_exists in Hex. destruct Hex as [f [Hin Hm]].
      exists f. split; auto. now apply missing_spec.
    + intros [f [Hin Hm]]. apply missing_spec in Hm.
      destruct (forallb (fun f => negb (missing fields f))
                        (spec_required doc_type)) eqn:E; auto.
      rewrite forallb_forall in E. specialize (E f Hin).
      rewrite Hm in E. discriminate.
  - intros iso'. now rewrite !validate_is_valid.
Qed.

(** ** What a successful match says about the matched text *)

Module ReFacts.
Import Re ReSem.

Lemma sapp_assoc (a b c : string) : ((a ++ b) ++ c = a ++ (b ++ c))%string.
Proof. induction a; simpl; congruence. Qed.


Lemma slength_app (a b : string) :
  String.length (a ++ b) = String.length a + String.length b.
Proof. induction a; simpl; auto. Qed.

Lemma substring_all (a b : string) :
  substring 0 (String.length a) (a ++ b) = a.
Proof. induction a; simpl; [destruct b; auto | congruence]. Qed.

Lemma consumed_app (a b : string) : consumed (a ++ b) b = a.
Proof.
  unfold consumed. rewrite slength_app.
  replace (String.length a + String.length b - String.length b)
    with (String.length a) by lia.
  apply substring_all.
Qed.

Lemma rep_loop_sound (A : Type) R body lz lo hi
      (k : string -> capture -> option A) :
  sound_for R body ->
  forall fuel n s cap x,
    within n hi ->
    rep_loop body lz lo hi k fuel n s cap = Some x ->
    exists m w s' c',
      s = (w ++ s')%string /\ Iter R m w s' cap c'
      /\ lo <= n + m /\ within (n + m) hi /\ k s' c' = Some x.
Proof.
  intros Hbody.
  assert (Hstop : forall n s cap x,
             within n hi ->
             (if Nat.leb lo n then k s cap else None) = Some x ->
             exists m w s' c',
               s = (w ++ s')%string /\ Iter R m w s' cap c'
               /\ lo <= n + m /\ within (n + m) hi /\ k s' c' = Some x).
  { intros n s cap x Hw H. destruct (Nat.leb lo n) eqn:E; [|discriminate].
    apply Nat.leb_le in E.
    exists 0, EmptyString, s, cap. rewrite Nat.add_0_r.
    repeat split; auto. constructor. }
  induction fuel as [|fuel IH]; intros n s cap x Hw H; simpl in H.
  - destruct lz.
    + destruct (if Nat.leb lo n then k s cap else None) eqn:E;
        [inversion H; subst; eauto | discriminate].
    + eauto.
  - assert (Hmore :
      (if below n hi
       then body s cap
              (fun s1 c1 =>
                 if Nat.ltb (String.length s1) (String.length s)
                 then rep_loop body lz lo hi k fuel (S n) s1 c1 else None)
       else None) = Some x ->
      exists m w s' c',
        s = (w ++ s')%string /\ Iter R m w s' cap c'
        /\ lo <= n + m /\ within (n + m) hi /\ k s' c' = Some x).
    { intros Hm. destruct (below n hi) eqn:Eb; [|discriminate].
      apply Hbody in Hm. destruct Hm as [w1 [s1 [c1 [Hs [HR Hk]]]]].
      destruct (Nat.ltb (String.length s1) (String.length s)); [|discriminate].
      apply IH in Hk.
      - destruct Hk as [m [w2 [s' [c' [Hs1 [Hit [Hlo [Hhi Hk]]]]]]]].
        exists (S m), (w1 ++ w2)%string, s', c'.
        rewrite Nat.add_succ_r. subst s s1.
        split; [now rewrite sapp_assoc|].
        split; [econstructor; eauto|]. auto.
      - unfold within, below in *. destruct hi; auto.
        apply Nat.ltb_lt in Eb. lia. }
    destruct lz.
    + destruct (if Nat.leb lo n then k s cap else None) eqn:E.
      * inversion H; subst. eauto.
      * auto.
    + match type of H with
      | match ?e with _ => _ end = _ => destruct e eqn:E
      end.
      * inversion H; subst. auto.
      * eauto.
Qed.

(** Soundness of the backtracking matcher. *)
Lemma rmatch_sound (r : regex) :
  forall (A : Type), sound_for (M r) (fun s cap (k : _ -> _ -> option A) => rmatch r s cap k).
Proof.
  unfold sound_for.
  induction r as [|cs|r1 IH1 r2 IH2|r1 IH1 r2 IH2|lz lo hi r1 IH1|r1 IH1|r1 IH1| |];
    intros A s cap k x H; simpl in H.
  - exists EmptyString, s, cap. simpl. auto.
  - destruct s as [|a s']; [discriminate|].
    destruct (cset_mem cs a) eqn:E; [|discriminate].
    exists (String a ""), s', cap. simpl. repeat split; eauto.
  - apply IH1 in H. destruct H as [w1 [s1 [c1 [Hs [HM1 H]]]]].
    apply IH2 in H. destruct H as [w2 [s2 [c2 [Hs1 [HM2 H]]]]].
    subst. exists (w1 ++ w2)%string, s2, c2.
    split; [now rewrite sapp_assoc|]. split; auto.
    simpl. exists w1, w2, c1. auto.
  - destruct (rmatch r1 s cap k) eqn:E.
    + inversion H; subst. apply IH1 in E.
      destruct E as [w [s' [c' [Hs [HM Hk]]]]].
      exists w, s', c'. simpl. auto.
    + apply IH2 in H. destruct H as [w [s' [c' [Hs [HM Hk]]]]].
      exists w, s', c'. simpl. auto.
  - apply (@rep_loop_sound A (M r1)) in H.
    + destruct H as [m [w [s' [c' [Hs [Hit [Hlo [Hhi Hk]]]]]]]].
      exists w, s', c'. simpl. repeat split; auto. exists m. auto.
    + exact (IH1 A).
    + unfold within. destruct hi; lia.
  - apply IH1 in H. destruct H as [w [s' [c' [Hs [HM Hk]]]]].
    subst s. rewrite consumed_app in Hk.
    exists w, s', (Some w). simpl. repeat split; eauto.
  - destruct (rmatch r1 s cap (fun _ c1 => Some c1)) as [c1|] eqn:E; [|discriminate].
    apply IH1 in E. destruct E as [w [s' [c' [Hs [HM Hk]]]]].
    inversion Hk; subst c'.
    exists EmptyString, s, c1. simpl. repeat split; auto.
    exists w, s'. auto.
  - destruct (at_dollar s) eqn:E; [|discriminate].
    exists EmptyString, s, cap. simpl. auto.
  - destruct s; simpl in H; [|discriminate].
    exists EmptyString, EmptyString, cap. simpl. auto.
Qed.

(** *** The fuel of a repetition never runs out *)

Lemma rep_loop_ext (A : Type) body lz lo hi
      (k1 k2 : string -> capture -> option A) :
  respects body -> (forall s c, k1 s c = k2 s c) ->
  forall fuel n s cap,
    rep_loop body lz lo hi k1 fuel n s cap
    = rep_loop body lz lo hi k2 fuel n s cap.
Proof.
  intros Hb Hk. induction fuel as [|fuel IH]; intros n s cap; simpl.
  - now rewrite Hk.
  - rewrite Hk.
    rewrite (Hb s cap
               (fun s1 c1 => if Nat.ltb (String.length s1) (String.length s)
                             then rep_loop body lz lo hi k1 fuel (S n) s1 c1
                             else None)
               (fun s1 c1 => if Nat.ltb (String.length s1) (String.length s)
                             then rep_loop body lz lo hi k2 fuel (S n) s1 c1
                             else None)).
    + reflexivity.
    + intros s' c. now rewrite IH.
Qed.

Lemma rep_loop_fail (A : Type) body lz lo hi :
  respects body -> fails body ->
  forall fuel n s cap,
    rep_loop body lz lo hi (fun _ _ => @None A) fuel n s cap = None.
Proof.
  intros Hb Hf. induction fuel as [|fuel IH]; intros n s cap; simpl.
  - destruct lz; destruct (Nat.leb lo n); reflexivity.
  - rewrite (Hb s cap _ (fun _ _ => None)).
    + rewrite !Hf. destruct lz; destruct (Nat.leb lo n);
        destruct (below n hi); reflexivity.
    + intros s' c. rewrite IH. now destruct (Nat.ltb _ _).
Qed.

Lemma rmatch_ext (r : regex) :
  forall A : Type, respects (fun s cap (k : _ -> _ -> option A) => rmatch r s cap k).
Proof.
  unfold respects.
  induction r as [|cs|r1 IH1 r2 IH2|r1 IH1 r2 IH2|lz lo hi r1 IH1|r1 IH1|r1 IH1| |];
    intros A s cap k1 k2 Hk; simpl.
  - apply Hk.
  - destruct s; auto. destruct (cset_mem cs a); auto.
  - apply IH1. intros s' c. now apply IH2.
  - rewrite (IH1 A s cap k1 k2 Hk), (IH2 A s cap k1 k2 Hk). reflexivity.
  - apply rep_loop_ext; auto. exact (IH1 A).
  - apply IH1. intros s' c. apply Hk.
  - destruct (rmatch r1 s cap (fun _ c1 => Some c1)); auto.
  - now rewrite Hk.
  - now rewrite Hk.
Qed.

Lemma rmatch_fail (r : regex) :
  forall A : Type, fails (fun s cap (k : _ -> _ -> option A) => rmatch r s cap k).
Proof.
  unfold fails.
  induction r as [|cs|r1 IH1 r2 IH2|r1 IH1 r2 IH2|lz lo hi r1 IH1|r1 IH1|r1 IH1| |];
    intros A s cap; simpl; auto.
  - destruct s; auto. destruct (cset_mem cs a); auto.
  - rewrite (rmatch_ext r1 A s cap _ (fun _ _ => None)); auto.
  - now rewrite IH1, IH2.
  - apply rep_loop_fail.
    + exact (rmatch_ext r1 A).
    + exact (IH1 A).
  - destruct (rmatch r1 s cap (fun _ c1 => Some c1)); auto.
  - destruct (at_dollar s); auto.
  - destruct (is_empty s); auto.
Qed.

Lemma rep_loop_fuel (A : Type) body lz lo hi
      (k : string -> capture -> option A) :
  respects body -> fails body ->
  forall fuel1 fuel2 n s cap,
    String.length s <= fuel1 -> String.length s <= fuel2 ->
    rep_loop body lz lo hi k fuel1 n s cap
    = rep_loop body lz lo hi k fuel2 n s cap.
Proof.
  intros Hb Hf.
  assert (Hzero : forall fuel n s cap,
             String.length s = 0 ->
             rep_loop body lz lo hi k fuel n s cap
             = rep_loop body lz lo hi k 0 n s cap).
  { intros fuel n s cap Hs. destruct fuel as [|fuel]; auto. simpl.
    rewrite (Hb s cap _ (fun _ _ => None)).
    - rewrite !Hf. destruct (below n hi); reflexivity.
    - intros s' c. rewrite Hs. reflexivity. }
  induction fuel1 as [|fuel1 IH]; intros fuel2 n s cap H1 H2.
  - symmetry. apply Hzero. lia.
  - destruct fuel2 as [|fuel2]; [apply Hzero; lia|]. simpl.
    rewrite (Hb s cap
               (fun s1 c1 => if Nat.ltb (String.length s1) (String.length s)
                             then rep_loop body lz lo hi k fuel1 (S n) s1 c1
                             else None)
               (fun s1 c1 => if Nat.ltb (String.length s1) (String.length s)
                             then rep_loop body lz lo hi k fuel2 (S n) s1 c1
                             else None)).
    + reflexivity.
    + intros s' c. destruct (Nat.ltb (String.length s') (String.length s)) eqn:E; auto.
      apply Nat.ltb_lt in E. apply IH; lia.
Qed.

(** The repetition of [rmatch] gives the same result with any fuel
    that is at least the length of the text: the bound cuts nothing. *)
Lemma rmatch_rep_fuel (A : Type) lz lo hi (r : regex) (s : string)
      (cap : capture) (k : string -> capture -> option A) (fuel : nat) :
  String.length s <= fuel ->
  rmatch (Rep lz lo hi r) s cap k
  = rep_loop (fun s0 c0 k0 => rmatch r s0 c0 k0) lz lo hi k fuel 0 s cap.
Proof.
  intros H. simpl. apply rep_loop_fuel; auto.
  - exact (rmatch_ext r A).
  - exact (rmatch_fail r A).
Qed.

Lemma M_no_group (r : regex) :
  ngroups r = 0 -> forall w s c c', M r w s c c' -> c' = c.
Proof.
  induction r as [|cs|r1 IH1 r2 IH2|r1 IH1 r2 IH2|lz lo hi r1 IH1|r1 IH1|r1 IH1| |];
    simpl; intros Hn w s c c' H.
  - tauto.
  - destruct H as [a [_ [_ H]]]. auto.
  - destruct H as [w1 [w2 [c1 [_ [H1 H2]]]]].
    assert (ngroups r1 = 0) by lia. assert (ngroups r2 = 0) by lia.
    apply IH1 in H1; auto. apply IH2 in H2; auto. congruence.
  - assert (ngroups r1 = 0) by lia. assert (ngroups r2 = 0) by lia.
    destruct H; eauto.
  - destruct H as [n [_ [_ H]]].
    induction H as [|n w1 w2 s c c1 c2 H1 H2 IH]; auto.
    apply IH1 in H1; auto. congruence.
  - discriminate.
  - destruct H as [_ [w1 [s1 [_ H]]]]. eauto.
  - tauto.
  - tauto.
Qed.

Lemma match_at_sound (r : regex) (s : string) (m : rmatch_object) :
  match_at r s = Some m ->
  exists s', s = (group0 m ++ s')%string /\ M r (group0 m) s' None (group1 m).
Proof.
  unfold match_at. intros H.
  apply (rmatch_sound r) in H.
  destruct H as [w [s' [c' [Hs [HM Hk]]]]].
  inversion Hk; subst; simpl. rewrite consumed_app. eauto.
Qed.

(** [re.search] returns a match of the pattern somewhere in the text. *)
Lemma search_sound (r : regex) (text : string) (m : rmatch_object) :
  search r text = Some m ->
  exists pre s', text = (pre ++ group0 m ++ s')%string
                 /\ M r (group0 m) s' None (group1 m).
Proof.
  induction text as [|a text IH]; simpl.
  - destruct (match_at r "") eqn:E; [|discriminate].
    intros H; inversion H; subst.
    apply match_at_sound in E. destruct E as [s' [Hs HM]].
    exists EmptyString, s'. auto.
  - destruct (match_at r (String a text)) eqn:E.
    + intros H; inversion H; subst.
      apply match_at_sound in E. destruct E as [s' [Hs HM]].
      exists EmptyString, s'. auto.
    + intros H. apply IH in H. destruct H as [pre [s' [Hs HM]]].
      exists (String a pre), s'. simpl. split; [congruence | auto].
Qed.

(** The group of a well-formed rule always takes part in a match, and
    its content is a word its body matches. *)
Lemma rule_capture (r : regex) (w s : string) (c' : capture) :
  is_rule r = true -> M r w s None c' ->
  exists g t c0 c1, c' = Some g /\ M (rule_body r) g t c0 c1.
Proof.
  destruct r as [| |p q| | | | | |]; try discriminate.
  destruct q as [| |g x| | | | | |]; try discriminate.
  destruct g as [| | | | |b| | |]; try discriminate.
  simpl. intros Hr H.
  apply andb_prop in Hr. destruct Hr as [Hr Hx].
  apply andb_prop in Hr. destruct Hr as [Hp Hb].
  apply Nat.eqb_eq in Hp, Hb, Hx.
  destruct H as [w1 [w2 [c1 [_ [_ H]]]]].
  destruct H as [w3 [w4 [c2 [_ [[[c3 Hbody] Hc2] Hsuf]]]]].
  apply (M_no_group x Hx) in Hsuf. subst.
  exists w3, (w4 ++ s)%string, c1, c3. auto.
Qed.

Lemma is_rule_ngroups (r : regex) : is_rule r = true -> ngroups r = 1.
Proof.
  destruct r as [| |p q| | | | | |]; try discriminate.
  destruct q as [| |g x| | | | | |]; try discriminate.
  destruct g as [| | | | |b| | |]; try discriminate.
  simpl. intros Hr.
  apply andb_prop in Hr. destruct Hr as [Hr Hx].
  apply andb_prop in Hr. destruct Hr as [Hp Hb].
  apply Nat.eqb_eq in Hp, Hb, Hx. lia.
Qed.

End ReFacts.

(** ** The extraction stage *)

Lemma patterns_ok : rules_ok patterns = true.
Proof. reflexivity. Qed.

Lemma doc_type_patterns_ok :
  forallb (fun tr => rules_ok (snd tr)) doc_type_patterns = true.
Proof. reflexivity. Qed.

Lemma registered_ok (doc_type : option string) (rules : PyDict.dict Re.regex) :
  registered doc_type = Some rules -> rules_ok rules = true.
Proof.
  unfold registered. destruct doc_type as [dt|]; [|discriminate].
  destruct (is_empty dt); [discriminate|].
  pose proof doc_type_patterns_ok as H.
  rewrite forallb_forall in H.
  intros Hg.
  assert (Hin : In (dt, rules) doc_type_patterns).
  { revert Hg. generalize doc_type_patterns.
    induction d as [|[k v] l IH]; simpl; [discriminate|].
    destruct (String.eqb dt k) eqn:E.
    - apply String.eqb_eq in E. subst. intros H1; inversion H1. auto.
    - intros H1. auto. }
  apply (H (dt, rules) Hin).
Qed.

Lemma extract_loop_ok (text : string) (rules : PyDict.dict Re.regex) :
  rules_ok rules = true ->
  forall acc, NoDup (PyDict.keys acc) ->
    exists dd, extract_loop text rules acc = Ok dd
               /\ NoDup (PyDict.keys dd)
               /\ forall k v, In (k, v) dd ->
                              In (k, v) acc \/ extracted_by text rules k v.
Proof.
  induction rules as [|[field r] rules IH]; simpl; intros Hok acc Hnd.
  - exists acc. auto.
  - apply andb_prop in Hok. destruct Hok as [Hr Hok]. simpl in Hr.
    destruct (Re.search r text) as [m|] eqn:Es.
    + unfold matched_value.
      rewrite (ReFacts.is_rule_ngroups r Hr). simpl.
      destruct (ReFacts.search_sound _ _ _ Es) as [pre [s' [_ HM]]].
      destruct (ReFacts.rule_capture _ _ _ _ Hr HM) as [g [t [c0 [c1 [Hg _]]]]].
      rewrite Hg.
      destruct (IH Hok (PyDict.set field (strip g) acc)) as [dd [H1 [H2 H3]]].
      { now apply DictFacts.nodup_set. }
      exists dd. repeat split; auto.
      intros k v Hin. apply H3 in Hin. destruct Hin as [Hin | Hin].
      * apply DictFacts.in_set in Hin. destruct Hin as [[-> ->] | Hin]; auto.
        right. exists r, m, g. simpl. auto.
      * right. destruct Hin as [r' [m' [g' [Ha Hb]]]].
        exists r', m', g'. simpl. auto.
    + destruct (IH Hok acc Hnd) as [dd [H1 [H2 H3]]].
      exists dd. repeat split; auto.
      intros k v Hin. apply H3 in Hin. destruct Hin as [Hin | Hin]; auto.
      right. destruct Hin as [r' [m' [g' [Ha Hb]]]].
      exists r', m', g'. simpl. auto.
Qed.

(** With a well-formed rule table extraction never raises; its result
    has no repeated key and every entry comes from a rule's match. *)
Lemma extract_ok (text : string) (rules : PyDict.dict Re.regex) :
  rules_ok rules = true ->
  exists dd, _extract_using_patterns text rules = Ok dd
             /\ NoDup (PyDict.keys dd)
             /\ forall k v, In (k, v) dd -> extracted_by text rules k v.
Proof.
  intros Hok. unfold _extract_using_patterns.
  destruct (extract_loop_ok text rules Hok nil (NoDup_nil _)) as [dd [H1 [H2 H3]]].
  exists dd. repeat split; auto.
  intros k v Hin. destruct (H3 k v Hin) as [[] | H]; auto.
Qed.

(** ** The entry point *)

Section Stages.

Variable ex : string -> PyDict.dict Re.regex -> res (PyDict.dict string).
Variable no : PyDict.dict string -> res (PyDict.dict value).
Variable va : PyDict.dict value -> option string -> res report.

Lemma entry_unfold (now : PyDate.datetime) (text : string)
      (doc_type : option string) :
  is_empty text = false ->
  extract_structured_data_with ex no va now text doc_type =
  let r0 := initial_result now doc_type in
  match ex text patterns with
  | Raise e => Returns (set_error (str_exn e) r0)
  | Ok common =>
      let raw := PyDict.update [] common in
      match registered doc_type with
      | Some rules =>
          match ex text rules with
          | Raise e =>
              Returns (set_error (str_exn e) (set_fields (raw_view raw) r0))
          | Ok specific =>
              after_merge no va r0 doc_type (PyDict.update raw specific)
          end
      | None => after_merge no va r0 doc_type raw
      end
  end.
Proof.
  intros Ht. unfold extract_structured_data_with. rewrite Ht.
  unfold try_except_return, pipeline, after_merge, bind, call, modify, ret.
  cbv zeta.
  destruct (ex text patterns) as [common|e]; [|reflexivity].
  destruct (registered doc_type) as [rules|].
  - destruct (ex text rules) as [specific|e]; [|reflexivity].
    destruct (no _) as [processed|e]; [|reflexivity].
    destruct (va processed doc_type); reflexivity.
  - destruct (no _) as [processed|e]; [|reflexivity].
    destruct (va processed doc_type); reflexivity.
Qed.

End Stages.

(** The entry point of the class never sees a stage fail: it returns
    the normalised merged fields and their validation report. *)
Lemma entry_closed_form (iso : string -> bool) (now : PyDate.datetime)
      (text : string) (doc_type : option string) :
  is_empty text = false ->
  exists raw,
    merged_fields _extract_using_patterns text doc_type = Ok raw
    /\ extract_structured_data iso now text doc_type =
       Returns (MkResult (Some (PyDate.datetime_isoformat now))
                         (Some (or_unknown doc_type))
                         (Some (_post_process_fields raw))
                         (Some (_validate_extracted_data iso
                                  (_post_process_fields raw) doc_type))
                         None).
Proof.
  intros Ht. unfold extract_structured_data.
  rewrite entry_unfold by assumption. unfold merged_fields. cbv zeta.
  destruct (extract_ok text patterns patterns_ok) as [common [Hc _]]. rewrite Hc.
  destruct (registered doc_type) as [rules|] eqn:Er.
  - destruct (extract_ok text rules (registered_ok _ _ Er)) as [specific [Hs _]].
    rewrite Hs. eexists. split; reflexivity.
  - eexists. split; reflexivity.
Qed.

(** C6. For the empty text the entry point returns at once, whatever
    the doc_type (and whatever the stages would do): no exception
    leaves the call, and what it returns is the empty dictionary [{}],
    a map with no key, so a result without any extracted field. *)
Theorem C6_empty_text_empty_result :
  forall (iso : string -> bool) (now : PyDate.datetime)
         (doc_type : option string),
    extract_structured_data iso now "" doc_type = Returns empty_result
    /\ PyDict.keys (fields_of empty_result) = []
    /\ (forall ex no va,
          extract_structured_data_with ex no va now "" doc_type
          = Returns empty_result).
Proof.
  intros iso now doc_type. repeat split; reflexivity.
Qed.

(** C5. Whatever the three stages do, the entry point returns a
    dictionary and no exception leaves it.  When a stage raises, the
    returned dictionary carries the exception's message under [error]
    and the fields assembled so far: none when the common extraction
    fails, the common raw fields when the type-specific extraction
    fails, the merged raw fields when normalisation fails, the
    normalised fields (and no validation) when validation fails. *)
Theorem C5_failures_are_caught :
  forall (ex : string -> PyDict.dict Re.regex -> res (PyDict.dict string))
         (no : PyDict.dict string -> res (PyDict.dict value))
         (va : PyDict.dict value -> option string -> res report)
         (now : PyDate.datetime) (text : string) (doc_type : option string),
    let run := extract_structured_data_with ex no va now text doc_type in
    let r0 := initial_result now doc_type in
    (exists r, run = Returns r)
    /\ (is_empty text = false ->
        (forall e, ex text patterns = Raise e ->
                   run = Returns (set_error (str_exn e) r0))
        /\ (forall common rules e,
              ex text patterns = Ok common ->
              registered doc_type = Some rules ->
              ex text rules = Raise e ->
              run = Returns (set_error (str_exn e)
                               (set_fields (raw_view (PyDict.update [] common)) r0)))
        /\ (forall raw e,
              merged_fields ex text doc_type = Ok raw ->
              no raw = Raise e ->
              run = Returns (set_error (str_exn e)
                               (set_fields (raw_view raw) r0)))
        /\ (forall raw processed e,
              merged_fields ex text doc_type = Ok raw ->
              no raw = Ok processed ->
              va processed doc_type = Raise e ->
              run = Returns (set_error (str_exn e) (set_fields processed r0)))
        /\ (forall raw processed rep,
              merged_fields ex text doc_type = Ok raw ->
              no raw = Ok processed ->
              va processed doc_type = Ok rep ->
              run = Returns (set_validation rep (set_fields processed r0)))).
Proof.
  intros ex no va now text doc_type run r0. subst run r0.
  destruct (is_empty text) eqn:Ht.
  - split; [|discriminate].
    unfold extract_structured_data_with. rewrite Ht. eauto.
  - rewrite entry_unfold by assumption. unfold merged_fields, after_merge.
    cbv zeta. split.
    + destruct (ex text patterns) as [common|e]; [|eauto].
      destruct (registered doc_type) as [rules|].
      * destruct (ex text rules) as [specific|e]; [|eauto].
        destruct (no _) as [processed|e]; [|eauto].
        destruct (va processed doc_type); eauto.
      * destruct (no _) as [processed|e]; [|eauto].
        destruct (va processed doc_type); eauto.
    + intros _. repeat split.
      * intros e He. now rewrite He.
      * intros common rules e Hc Hr He. now rewrite Hc, Hr, He.
      * intros raw e Hm Hn.
        destruct (ex text patterns) as [common|e1]; [|discriminate].
        destruct (registered doc_type) as [rules|].
        -- destruct (ex text rules) as [specific|e2]; [|discriminate].
           inversion Hm; subst. now rewrite Hn.
        -- inversion Hm; subst. now rewrite Hn.
      * intros raw processed e Hm Hn Hv.
        destruct (ex text patterns) as [common|e1]; [|discriminate].
        destruct (registered doc_type) as [rules|].
        -- destruct (ex text rules) as [specific|e2]; [|discriminate].
           inversion Hm; subst. now rewrite Hn, Hv.
        -- inversion Hm; subst. now rewrite Hn, Hv.
      * intros raw processed rep Hm Hn Hv.
        destruct (ex text patterns) as [common|e1]; [|discriminate].
        destruct (registered doc_type) as [rules|].
        -- destruct (ex text rules) as [specific|e2]; [|discriminate].
           inversion Hm; subst. now rewrite Hn, Hv.
        -- inversion Hm; subst. now rewrite Hn, Hv.
Qed.

Lemma C5_witness :
  extract_structured_data_with
    _extract_using_patterns failing_normalizer
    (fun f dt => Ok (_validate_extracted_data (fun _ => true) f dt))
    noon "Name: Ann" None
  = Returns (MkResult (Some "2023-05-10T12:00:00") (Some "unknown")
               (Some [("patient_name", VStr "Ann")]) None
               (Some "'int' object has no attribute 'strip'")).
Proof.
  destruct (C5_failures_are_caught
              _extract_using_patterns failing_normalizer
              (fun f dt => Ok (_validate_extracted_data (fun _ => true) f dt))
              noon "Name: Ann" None) as [_ H].
  destruct (H eq_refl) as [_ [_ [H3 _]]].
  exact (H3 [("patient_name", "Ann")]
            (AttributeError "'int' object has no attribute 'strip'")
            eq_refl eq_refl).
Defined.

(** C7, as the code has it. Two calls with the same text and doc_type
    return dictionaries that agree on every key except
    [extraction_timestamp]; for a non-empty text that key is the clock
    reading of the call, and for the empty text the two results are
    identical. *)
Theorem C7_deterministic_except_timestamp :
  forall (iso : string -> bool) (now1 now2 : PyDate.datetime)
         (text : string) (doc_type : option string),
    forget_timestamp (extract_structured_data iso now1 text doc_type)
    = forget_timestamp (extract_structured_data iso now2 text doc_type)
    /\ (is_empty text = false ->
        exists r, extract_structured_data iso now1 text doc_type = Returns r
                  /\ extraction_timestamp r
                     = Some (PyDate.datetime_isoformat now1))
    /\ (is_empty text = true ->
        extract_structured_data iso now1 text doc_type
        = extract_structured_data iso now2 text doc_type).
Proof.
  intros iso now1 now2 text doc_type.
  destruct (is_empty text) eqn:Ht.
  - destruct text; [|discriminate].
    repeat split; try reflexivity. discriminate.
  - destruct (entry_closed_form iso now1 text doc_type Ht) as [raw1 [Hm1 H1]].
    destruct (entry_closed_form iso now2 text doc_type Ht) as [raw2 [Hm2 H2]].
    assert (raw1 = raw2) by congruence. subst raw2.
    rewrite H1, H2. repeat split.
    + intros _. eexists. split; reflexivity.
    + discriminate.
Qed.

Lemma C7_witness :
  exists r, extract_structured_data (fun _ => true) noon "Name: Ann" None
            = Returns r
            /\ extraction_timestamp r = Some "2023-05-10T12:00:00".
Proof.
  destruct (C7_deterministic_except_timestamp
              (fun _ => true) noon midnight "Name: Ann" None) as [_ [H _]].
  exact (H eq_refl).
Defined.

(** C7, as stated, fails: the same arguments at two clock readings
    give two different results. *)
Lemma C7_counterexample :
  extract_structured_data (fun _ => true) noon "Name: Ann" None
  <> extract_structured_data (fun _ => true) midnight "Name: Ann" None.
Proof. vm_compute. discriminate. Qed.

(** ** Normalisation of a field map *)

Lemma get_post_loop (k : string) (items : PyDict.dict string) :
  NoDup (PyDict.keys items) ->
  forall acc,
    PyDict.get k (post_loop items acc) =
    match PyDict.get k items with
    | Some val => match normalized k val with
                  | Some v => Some v
                  | None => PyDict.get k acc
                  end
    | None => PyDict.get k acc
    end.
Proof.
  unfold normalized.
  induction items as [|[k1 v1] items IH]; intros Hnd acc; simpl; auto.
  inversion Hnd as [|x l Hnotin Hnd']; subst.
  apply DictFacts.get_none_not_in in Hnotin.
  destruct (String.eqb k k1) eqn:E.
  - apply String.eqb_eq in E. subst k1.
    destruct (is_empty v1); rewrite IH by assumption; rewrite Hnotin; auto.
    apply DictFacts.get_set_same.
  - apply String.eqb_neq in E.
    destruct (is_empty v1); rewrite IH by assumption; auto.
    rewrite DictFacts.get_set_other by assumption. reflexivity.
Qed.

(** Looking a key up in the normalised map. *)
Lemma get_post_process (k : string) (fields : PyDict.dict string) :
  NoDup (PyDict.keys fields) ->
  PyDict.get k (_post_process_fields fields) =
  match PyDict.get k fields with
  | Some val => normalized k val
  | None => None
  end.
Proof.
  intros H. unfold _post_process_fields. rewrite get_post_loop by assumption.
  simpl. destruct (PyDict.get k fields); auto. destruct (normalized k s); auto.
Qed.

Lemma in_post_loop (items : PyDict.dict string) :
  forall acc k v,
    In (k, v) (post_loop items acc) ->
    In (k, v) acc
    \/ exists val, In (k, val) items /\ normalized k val = Some v.
Proof.
  unfold normalized.
  induction items as [|[k1 v1] items IH]; intros acc k v; simpl; auto.
  destruct (is_empty v1) eqn:E; intros H; apply IH in H.
  - destruct H as [H | [val [H1 H2]]]; eauto.
  - destruct H as [H | [val [H1 H2]]]; eauto.
    apply DictFacts.in_set in H. destruct H as [[-> ->] | H]; auto.
    right. exists v1. rewrite E. auto.
Qed.

(** Every entry of the normalised map is the normalisation of a raw
    entry. *)
Lemma in_post_process (fields : PyDict.dict string) (k : string) (v : value) :
  In (k, v) (_post_process_fields fields) ->
  exists val, In (k, val) fields /\ normalized k val = Some v.
Proof.
  intros H. apply in_post_loop in H. destruct H as [[] | H]; auto.
Qed.

Lemma set_fresh {V} (k : string) (v : V) (dd : PyDict.dict V) :
  ~ In k (PyDict.keys dd) -> PyDict.set k v dd = dd ++ [(k, v)].
Proof.
  induction dd as [|[k' v'] dd IH]; simpl; auto.
  intros H. destruct (String.eqb k k') eqn:E.
  - apply String.eqb_eq in E. subst. tauto.
  - rewrite IH; auto.
Qed.

Lemma update_fresh {V} (e : PyDict.dict V) :
  forall dd, NoDup (PyDict.keys dd ++ PyDict.keys e) ->
             PyDict.update dd e = dd ++ e.
Proof.
  unfold PyDict.update, PyDict.keys.
  induction e as [|[k v] e IH]; intros dd H; simpl.
  - now rewrite app_nil_r.
  - simpl in H. rewrite set_fresh.
    + rewrite IH.
      * now rewrite <- app_assoc.
      * rewrite map_app. simpl. rewrite <- app_assoc. simpl. exact H.
    + apply NoDup_remove_2 in H. intros Hi. apply H.
      apply in_or_app. left. assumption.
Qed.

(** Updating the empty dictionary with a dictionary gives that
    dictionary. *)
Lemma update_nil {V} (e : PyDict.dict V) :
  NoDup (PyDict.keys e) -> PyDict.update [] e = e.
Proof.
  intros H. now rewrite update_fresh.
Qed.

(** ** Rule-set selection by doc_type *)

Lemma unregistered_tables (dt : string) :
  ~ In dt registered_types ->
  PyDict.get dt doc_type_patterns = None
  /\ PyDict.get dt required_fields = None.
Proof.
  unfold registered_types. simpl. intros H.
  destruct (String.eqb dt "insurance_claim") eqn:E1;
    [apply String.eqb_eq in E1; exfalso; apply H; subst; auto|].
  destruct (String.eqb dt "prescription") eqn:E2;
    [apply String.eqb_eq in E2; exfalso; apply H; subst; auto|].
  destruct (String.eqb dt "medical_report") eqn:E3;
    [apply String.eqb_eq in E3; exfalso; apply H; subst; auto|].
  auto.
Qed.

Lemma registered_nonempty (dt : string) (rules : PyDict.dict Re.regex) :
  PyDict.get dt doc_type_patterns = Some rules ->
  registered (Some dt) = Some rules.
Proof.
  intros H. unfold registered.
  destruct dt; [discriminate | exact H].
Qed.

Lemma is_empty_false (s : string) : s <> "" -> is_empty s = false.
Proof. destruct s; [tauto | reflexivity]. Qed.

(** C4. For every text and registered doc_type the entry point runs
    the extraction on the common table, then on the table of the
    doc_type, and overlays the second result on the first.  Whatever
    the two extractions return (here: any extraction stage, with any
    two dictionaries as results), a field name the type-specific result
    holds has the type-specific value, also when the common result
    holds the same name, and every other field name keeps what the
    common result gave it, so no common field is lost otherwise; for a
    non-empty text the returned fields are the normalisation of that
    overlay.  The extraction method of the class is such a stage: on
    both tables it returns a dictionary (for the empty text the entry
    point returns the empty dictionary before any rule runs). *)
Theorem C4_type_specific_overlays_common :
  forall (iso : string -> bool) (now : PyDate.datetime) (text dt : string)
         (rules : PyDict.dict Re.regex),
    PyDict.get dt doc_type_patterns = Some rules ->
    (forall (ex : string -> PyDict.dict Re.regex -> res (PyDict.dict string))
            (common specific : PyDict.dict string),
        text <> "" ->
        ex text patterns = Ok common ->
        ex text rules = Ok specific ->
        NoDup (PyDict.keys common) ->
        NoDup (PyDict.keys specific) ->
        exists rep,
          extract_structured_data_with
            ex
            (fun fields => Ok (_post_process_fields fields))
            (fun fields d => Ok (_validate_extracted_data iso fields d))
            now text (Some dt)
          = Returns (MkResult
                       (Some (PyDate.datetime_isoformat now)) (Some dt)
                       (Some (_post_process_fields (overlaid common specific)))
                       (Some rep) None)
          /\ (forall k v,
                PyDict.get k specific = Some v ->
                PyDict.get k (overlaid common specific) = Some v
                /\ PyDict.get k (_post_process_fields (overlaid common specific))
                   = normalized k v)
          /\ (forall k,
                PyDict.get k specific = None ->
                PyDict.get k (overlaid common specific) = PyDict.get k common
                /\ PyDict.get k (_post_process_fields (overlaid common specific))
                   = match PyDict.get k common with
                     | Some v => normalized k v
                     | None => None
                     end))
    /\ (exists common specific,
          _extract_using_patterns text patterns = Ok common
          /\ _extract_using_patterns text rules = Ok specific
          /\ NoDup (PyDict.keys common)
          /\ NoDup (PyDict.keys specific))
    /\ (text = "" ->
        extract_structured_data iso now text (Some dt) = Returns empty_result).
Proof.
  intros iso now text dt rules Hreg.
  pose proof (registered_nonempty dt rules Hreg) as Hr.
  split; [|split].
  - intros ex common specific Ht Hc Hs Hnc Hns.
    apply is_empty_false in Ht. unfold overlaid.
    assert (Hget : forall k,
               PyDict.get k (PyDict.update (PyDict.update [] common) specific)
               = match PyDict.get k specific with
                 | Some v => Some v
                 | None => PyDict.get k common
                 end).
    { intros k. rewrite DictFacts.get_update by assumption.
      destruct (PyDict.get k specific); auto.
      now apply DictFacts.update_nil_l. }
    assert (Hnd : NoDup (PyDict.keys
                           (PyDict.update (PyDict.update [] common) specific))).
    { apply DictFacts.nodup_update. apply DictFacts.nodup_update. constructor. }
    eexists. split; [|split].
    + rewrite entry_unfold by assumption. cbv zeta.
      rewrite Hc, Hr, Hs. unfold after_merge, initial_result, or_unknown.
      destruct dt; [discriminate | reflexivity].
    + intros k v Hk. rewrite get_post_process by assumption.
      rewrite Hget, Hk. auto.
    + intros k Hk. rewrite get_post_process by assumption.
      rewrite Hget, Hk. auto.
  - destruct (extract_ok text patterns patterns_ok) as [common [Hc [Hnc _]]].
    destruct (extract_ok text rules (registered_ok _ _ Hr))
      as [specific [Hs [Hns _]]].
    exists common, specific. auto.
  - intros ->. reflexivity.
Qed.

(** With a stage whose two results share the name patient_name, the
    value of the type-specific result is the one returned. *)
Lemma C4_witness :
  exists rep,
    extract_structured_data_with
      colliding_stage
      (fun fields => Ok (_post_process_fields fields))
      (fun fields d => Ok (_validate_extracted_data (fun _ => true) fields d))
      noon "Rx" (Some "prescription")
    = Returns (MkResult
                 (Some "2023-05-10T12:00:00") (Some "prescription")
                 (Some [("patient_name", VStr "Ann Specific");
                        ("member_id", VStr "M1");
                        ("dosage", VStr "5 mg")])
                 (Some rep) None).
Proof.
  assert (Ht : "Rx" <> "") by discriminate.
  assert (Hnc : NoDup (PyDict.keys [("patient_name", "Ann Common");
                                    ("member_id", "M1")])).
  { repeat constructor; simpl; intuition discriminate. }
  assert (Hns : NoDup (PyDict.keys [("patient_name", "Ann Specific");
                                    ("dosage", "5 mg")])).
  { repeat constructor; simpl; intuition discriminate. }
  destruct (C4_type_specific_overlays_common
              (fun _ => true) noon "Rx" "prescription"
              prescription_rules eq_refl) as [Hoverlay _].
  destruct (Hoverlay colliding_stage _ _ Ht eq_refl eq_refl Hnc Hns)
    as [rep [Hrun _]].
  exists rep. exact Hrun.
Defined.

(** C8. For every non-empty text and every doc_type that is absent or
    outside the registered set, only the common rule set is applied:
    the returned fields are the normalised common extraction, every
    field name in them is a common rule's name, the report has no
    error and is valid, no [error] is recorded, and the recorded
    document type is "unknown" when the doc_type is absent. *)
Theorem C8_unknown_doc_type_common_rules_only :
  forall (iso : string -> bool) (now : PyDate.datetime) (text : string)
         (doc_type : option string),
    text <> "" ->
    (doc_type = None
     \/ exists dt, doc_type = Some dt /\ ~ In dt registered_types) ->
    exists common rep,
      _extract_using_patterns text patterns = Ok common
      /\ extract_structured_data iso now text doc_type
         = Returns (MkResult
                      (Some (PyDate.datetime_isoformat now))
                      (Some (or_unknown doc_type))
                      (Some (_post_process_fields common))
                      (Some rep) None)
      /\ (forall k v, In (k, v) (_post_process_fields common) ->
                      In k common_fields)
      /\ errors rep = []
      /\ is_valid rep = true
      /\ (doc_type = None -> or_unknown doc_type = "unknown").
Proof.
  intros iso now text doc_type Ht Hdt.
  apply is_empty_false in Ht.
  assert (Hreg : registered doc_type = None
                 /\ spec_required doc_type = []
                 /\ match doc_type with
                    | Some dt => PyDict.get dt required_fields = None
                    | None => True
                    end).
  { destruct Hdt as [-> | [dt [-> Hn]]]; [auto|].
    destruct (unregistered_tables dt Hn) as [H1 H2].
    rewrite <- required_fields_spec. rewrite H2.
    unfold registered. rewrite H1. destruct (is_empty dt); auto. }
  destruct Hreg as [Hreg [Hreq Hreq']].
  destruct (extract_ok text patterns patterns_ok) as [common [Hc [Hnc Hfrom]]].
  destruct (entry_closed_form iso now text doc_type Ht) as [raw [Hm H]].
  unfold merged_fields in Hm. rewrite Hc, Hreg in Hm.
  rewrite update_nil in Hm by assumption. inversion Hm; subst raw.
  exists common. eexists. split; [exact Hc|]. split; [exact H|].
  split; [|split; [|split]].
  - intros k v Hin. apply in_post_process in Hin.
    destruct Hin as [val [Hin _]]. apply Hfrom in Hin.
    destruct Hin as [r [m [g [Hin _]]]].
    unfold patterns in Hin. unfold common_fields. simpl in *.
    repeat (destruct Hin as [Hin | Hin];
            [inversion Hin; subst; tauto|]).
    contradiction.
  - unfold _validate_extracted_data.
    match goal with |- context [check_dates iso ?f ?v] =>
      destruct (check_dates_keeps iso f v) as [_ He] end.
    rewrite He. destruct doc_type as [dt|]; auto. now rewrite Hreq'.
  - rewrite validate_is_valid. now rewrite Hreq.
  - intros ->. reflexivity.
Qed.

Lemma C8_witness :
  exists common rep,
    _extract_using_patterns "Name: Ann" patterns = Ok common
    /\ extract_structured_data (fun _ => true) noon "Name: Ann"
         (Some "unknown_type")
       = Returns (MkResult (Some "2023-05-10T12:00:00") (Some "unknown_type")
                    (Some (_post_process_fields common)) (Some rep) None)
    /\ errors rep = [] /\ is_valid rep = true.
Proof.
  assert (Hn : ~ In "unknown_type" registered_types).
  { simpl. intros [H|[H|[H|[]]]]; discriminate. }
  assert (Ht : "Name: Ann" <> "") by discriminate.
  destruct (C8_unknown_doc_type_common_rules_only
              (fun _ => true) noon "Name: Ann" (Some "unknown_type") Ht
              (or_intror (ex_intro _ "unknown_type" (conj eq_refl Hn))))
    as [common [rep [H1 [H2 [_ [H3 [H4 _]]]]]]].
  exists common, rep. auto.
Defined.

(** ** Characters *)

Module CharFacts.
Import CharSets.
Local Open Scope char_scope.

Lemma digit_cases (c : ascii) : is_digit c = true -> In c digit_chars.
Proof.
  destruct c as [[] [] [] [] [] [] [] []]; vm_compute; intros H;
    try discriminate; tauto.
Qed.

Lemma digit_chars_digit (c : ascii) : In c digit_chars -> is_digit c = true.
Proof.
  simpl. intros H.
  repeat (destruct H as [H | H]; [subst; reflexivity|]). contradiction.
Qed.

(** A property of all ten digits can be checked by running it. *)
Lemma for_digits (p : ascii -> bool) :
  forallb p digit_chars = true -> forall c, is_digit c = true -> p c = true.
Proof.
  intros H c Hc. rewrite forallb_forall in H. apply H. now apply digit_cases.
Qed.

Lemma digit_cset (c : ascii) : is_digit c = true -> Re.cset_mem Re.CDigit c = true.
Proof.
  intros H. unfold Re.cset_mem. simpl. now rewrite H.
Qed.

Lemma cset_digit (c : ascii) : Re.cset_mem Re.CDigit c = true -> is_digit c = true.
Proof.
  destruct c as [[] [] [] [] [] [] [] []]; vm_compute; auto.
Qed.

Lemma digit_not_space (c : ascii) : is_digit c = true -> is_space c = false.
Proof.
  intros H. apply negb_true_iff.
  apply (for_digits (fun c => negb (is_space c))); [reflexivity | exact H].
Qed.

End CharFacts.

(** ** [str.strip] and [str.replace] *)

Module StrFacts.
Import CharSets.

Section StripFacts.

Variable blank : ascii -> bool.

Lemma rstrip_idem (s : string) :
  rstrip_with blank (rstrip_with blank s) = rstrip_with blank s.
Proof.
  induction s as [|c s IH]; simpl; auto.
  destruct (blank c && is_empty (rstrip_with blank s)) eqn:E; simpl; auto.
  now rewrite IH, E.
Qed.

Lemma rstrip_head (c : ascii) (s : string) :
  blank c = false ->
  rstrip_with blank (String c s) = String c (rstrip_with blank s).
Proof. intros H. simpl. now rewrite H. Qed.

Lemma lstrip_head (s : string) :
  lstrip_with blank s = ""
  \/ exists c t, lstrip_with blank s = String c t /\ blank c = false.
Proof.
  induction s as [|c s IH]; simpl; auto.
  destruct (blank c) eqn:E; auto. right. eauto.
Qed.

(** Stripping a stripped text changes nothing. *)
Lemma strip_with_idem (s : string) :
  strip_with blank (strip_with blank s) = strip_with blank s.
Proof.
  unfold strip_with.
  destruct (lstrip_head s) as [-> | [c [t [-> Hc]]]]; [reflexivity|].
  rewrite rstrip_head by assumption. simpl lstrip_with. rewrite Hc.
  rewrite rstrip_head by assumption. now rewrite rstrip_idem.
Qed.

Lemma rstrip_none (s : string) :
  all_chars (fun c => negb (blank c)) s = true -> rstrip_with blank s = s.
Proof.
  induction s as [|c s IH]; simpl; auto.
  rewrite andb_true_iff, negb_true_iff.
  intros [Hc Hs]. rewrite Hc, IH by assumption. reflexivity.
Qed.

(** A text without a blank is its own stripping. *)
Lemma strip_with_none (s : string) :
  all_chars (fun c => negb (blank c)) s = true -> strip_with blank s = s.
Proof.
  intros H. unfold strip_with.
  assert (Hl : lstrip_with blank s = s).
  { destruct s as [|c s]; auto. simpl in *.
    rewrite andb_true_iff, negb_true_iff in H.
    destruct H as [-> _]. reflexivity. }
  rewrite Hl. now apply rstrip_none.
Qed.

End StripFacts.

Lemma strip_idem (s : string) : strip (strip s) = strip s.
Proof. apply strip_with_idem. Qed.

(** A text without white space is its own [strip()]. *)
Lemma strip_no_space (s : string) :
  all_chars not_space s = true -> strip s = s.
Proof. apply strip_with_none. Qed.


Lemma all_chars_impl (p q : ascii -> bool) (s : string) :
  (forall c, p c = true -> q c = true) ->
  all_chars p s = true -> all_chars q s = true.
Proof.
  intros Hpq. induction s as [|c s IH]; simpl; auto.
  rewrite !andb_true_iff. intros [H1 H2]. auto.
Qed.

Lemma all_chars_app (p : ascii -> bool) (a b : string) :
  all_chars p (a ++ b) = all_chars p a && all_chars p b.
Proof.
  induction a as [|c a IH]; simpl; auto. now rewrite IH, andb_assoc.
Qed.

End StrFacts.

(** ** Dates *)

Module DateFacts.
Import PyDate CharSets CharFacts DateShape.
Local Open Scope char_scope.

Lemma digit_chr_digit (n : Z) : is_digit (digit_chr (n mod 10)) = true.
Proof.
  assert (H : (0 <= n mod 10 < 10)%Z) by (apply Z.mod_pos_bound; lia).
  assert (Hc : (n mod 10 = 0 \/ n mod 10 = 1 \/ n mod 10 = 2 \/ n mod 10 = 3
                \/ n mod 10 = 4 \/ n mod 10 = 5 \/ n mod 10 = 6
                \/ n mod 10 = 7 \/ n mod 10 = 8 \/ n mod 10 = 9)%Z) by lia.
  repeat (destruct Hc as [Hc | Hc]; [rewrite Hc; reflexivity|]).
  rewrite Hc; reflexivity.
Qed.

(** [isoformat] always prints the shape [YYYY-MM-DD]. *)
Lemma isoformat_shape (dt : date) : iso_shape (isoformat dt) = true.
Proof.
  destruct dt as [y m dd]. unfold isoformat, zpad4, zpad2. simpl.
  rewrite !digit_chr_digit. reflexivity.
Qed.

Lemma parse_formats :
  map parse_format date_formats
  = [Some (f_mdY "/"); Some (f_mdY "-"); Some f_Ymd;
     Some (f_mdy "/"); Some (f_mdy "-")].
Proof. reflexivity. Qed.

(** A digit is neither of the two separators. *)
Lemma digit_not_sep (c x : ascii) :
  c = "/" \/ c = "-" -> is_digit x = true -> Re.cset_mem (Re.CLit c) x = false.
Proof.
  intros Hc Hx. apply negb_true_iff.
  destruct Hc; subst c;
    [apply (for_digits (fun x => negb (Re.cset_mem (Re.CLit "/") x)))
    |apply (for_digits (fun x => negb (Re.cset_mem (Re.CLit "-") x)))];
    auto.
Qed.

(** What [%m] leaves of a text is the text without its first one or
    two characters. *)
Lemma month_rest (s t rest : string) :
  In (t, rest) (directive_matches Dm s) ->
  (exists a, s = String a rest) \/ (exists a b, s = String a (String b rest)).
Proof.
  unfold directive_matches. simpl.
  destruct s as [|a s]; simpl; [tauto|].
  destruct s as [|b s]; simpl.
  - repeat match goal with
           | |- context [if ?c then _ else _] => destruct c; simpl
           end;
      intros H; repeat (destruct H as [H | H]; [inversion H; subst; eauto|]);
      try contradiction.
  - repeat match goal with
           | |- context [if ?c then _ else _] => destruct c; simpl
           end;
      intros H; repeat (destruct H as [H | H]; [inversion H; subst; eauto|]);
      try contradiction.
Qed.

Lemma flat_map_nil {A B} (f : A -> list B) (l : list A) :
  (forall x, In x l -> f x = []) -> flat_map f l = [].
Proof.
  induction l as [|x l IH]; simpl; auto.
  intros H. rewrite (H x) by auto. rewrite IH; auto.
Qed.

(** A format that starts with [%m] and a separator matches no text
    that starts with three digits. *)
Lemma month_first_no_match (c : ascii) (f : list fmt_item)
      (a b x : ascii) (rest : string) :
  c = "/" \/ c = "-" ->
  is_digit a = true -> is_digit b = true -> is_digit x = true ->
  format_matches (Dir Dm :: Lit c :: f) (String a (String b (String x rest))) = [].
Proof.
  intros Hc Ha Hb Hx.
  change (format_matches (Dir Dm :: Lit c :: f) (String a (String b (String x rest))))
    with (flat_map (fun m => map (fun fr => ((Dm, fst m) :: fst fr, snd fr))
                                 (format_matches (Lit c :: f) (snd m)))
                   (directive_matches Dm (String a (String b (String x rest))))).
  apply flat_map_nil. intros [t r] Hin. simpl fst. simpl snd.
  apply month_rest in Hin.
  destruct Hin as [[a' Hs] | [a' [b' Hs]]]; inversion Hs; subst; simpl.
  - now rewrite (digit_not_sep c b Hc Hb).
  - now rewrite (digit_not_sep c x Hc Hx).
Qed.

Lemma month_day_checked :
  forallb (fun m1 => forallb (fun m2 => forallb (fun d1 => forallb (fun d2 =>
    month_day_check m1 m2 d1 d2) digit_chars) digit_chars) digit_chars)
    digit_chars = true.
Proof. vm_compute. reflexivity. Qed.

Lemma month_day_ok (m1 m2 d1 d2 : ascii) :
  is_digit m1 = true -> is_digit m2 = true ->
  is_digit d1 = true -> is_digit d2 = true ->
  month_day_check m1 m2 d1 d2 = true.
Proof.
  intros H1 H2 H3 H4. pose proof month_day_checked as H.
  rewrite forallb_forall in H. specialize (H m1 (digit_cases m1 H1)).
  rewrite forallb_forall in H. specialize (H m2 (digit_cases m2 H2)).
  rewrite forallb_forall in H. specialize (H d1 (digit_cases d1 H3)).
  rewrite forallb_forall in H. exact (H d2 (digit_cases d2 H4)).
Qed.

Lemma year_checked :
  forallb (fun a => forallb (fun b => forallb (fun c => forallb (fun e =>
    year_check a b c e) digit_chars) digit_chars) digit_chars)
    digit_chars = true.
Proof. vm_compute. reflexivity. Qed.

Lemma year_ok (a b c e : ascii) :
  is_digit a = true -> is_digit b = true ->
  is_digit c = true -> is_digit e = true ->
  zpad4 (py_int (str4 a b c e)) = str4 a b c e.
Proof.
  intros H1 H2 H3 H4. pose proof year_checked as H.
  rewrite forallb_forall in H. specialize (H a (digit_cases a H1)).
  rewrite forallb_forall in H. specialize (H b (digit_cases b H2)).
  rewrite forallb_forall in H. specialize (H c (digit_cases c H3)).
  rewrite forallb_forall in H. specialize (H e (digit_cases e H4)).
  now apply String.eqb_eq.
Qed.

Lemma year_step (f : list fmt_item) (a b c e : ascii) (rest : string) :
  is_digit a = true -> is_digit b = true ->
  is_digit c = true -> is_digit e = true ->
  format_matches (Dir DY :: f)
                 (String a (String b (String c (String e rest))))
  = map (fun fr => ((DY, str4 a b c e) :: fst fr, snd fr))
        (format_matches f rest).
Proof.
  intros H1 H2 H3 H4.
  change (format_matches (Dir DY :: f) (String a (String b (String c (String e rest)))))
    with (flat_map (fun m => map (fun fr => ((DY, fst m) :: fst fr, snd fr))
                                 (format_matches f (snd m)))
                   (directive_matches DY (String a (String b (String c (String e rest)))))).
  unfold directive_matches. simpl.
  unfold r09. rewrite !digit_cset by assumption. simpl.
  now rewrite app_nil_r.
Qed.

Lemma iso_shape_inv (s : string) :
  iso_shape s = true ->
  exists y1 y2 y3 y4 m1 m2 d1 d2,
    s = String y1 (String y2 (String y3 (String y4 (String "-"
          (String m1 (String m2 (String "-" (str2 d1 d2))))))))
    /\ is_digit y1 = true /\ is_digit y2 = true
    /\ is_digit y3 = true /\ is_digit y4 = true
    /\ is_digit m1 = true /\ is_digit m2 = true
    /\ is_digit d1 = true /\ is_digit d2 = true.
Proof.
  do 10 (destruct s as [|? s]; [discriminate|]).
  destruct s; [|discriminate]. simpl.
  rewrite !andb_true_iff. rewrite !Ascii.eqb_eq.
  intros [[[[[[[[[H1 H2] H3] H4] H5] H6] H7] H8] H9] H10]. subst.
  do 8 eexists. split; [reflexivity|]. tauto.
Qed.

(** On a text of the shape [YYYY-MM-DD] the format [%Y-%m-%d] either
    raises or parses a date that prints back as the text. *)
Lemma strptime_Ymd_iso (s : string) :
  iso_shape s = true ->
  match strptime s "%Y-%m-%d" with
  | Ok dt => isoformat dt = s
  | Raise _ => True
  end.
Proof.
  intros Hs. apply iso_shape_inv in Hs.
  destruct Hs as [y1 [y2 [y3 [y4 [m1 [m2 [d1 [d2 [-> H]]]]]]]]].
  destruct H as [Hy1 [Hy2 [Hy3 [Hy4 [Hm1 [Hm2 [Hd1 Hd2]]]]]]].
  unfold strptime.
  change (parse_format "%Y-%m-%d") with (Some f_Ymd).
  unfold f_Ymd. rewrite year_step by assumption.
  change (format_matches [Lit "-"; Dir Dm; Lit "-"; Dir Dd]
            (String "-" (String m1 (String m2 (String "-" (str2 d1 d2))))))
    with (format_matches [Dir Dm; Lit "-"; Dir Dd]
            (String m1 (String m2 (String "-" (str2 d1 d2))))).
  pose proof (month_day_ok m1 m2 d1 d2 Hm1 Hm2 Hd1 Hd2) as Hmd.
  unfold month_day_check in Hmd.
  destruct (format_matches [Dir Dm; Lit "-"; Dir Dd]
              (String m1 (String m2 (String "-" (str2 d1 d2)))))
    as [|[found rest] l]; simpl; [exact I|].
  destruct (is_empty rest); [|exact I].
  simpl negb in Hmd. rewrite orb_false_l in Hmd.
  destruct found as [|[[] a] [|[[] b] [|]]]; try discriminate.
  rewrite !andb_true_iff in Hmd. rewrite !String.eqb_eq in Hmd.
  destruct Hmd as [[[Ha Hb] Hza] Hzb].
  simpl assign.
  destruct (make_date (py_int (str4 y1 y2 y3 y4)) (py_int a) (py_int b))
    as [dt|e] eqn:Em; [|exact I].
  unfold make_date in Em.
  repeat match type of Em with
         | (if ?c then _ else _) = _ => destruct c; [discriminate|]
         end.
  inversion Em; subst dt. unfold isoformat. simpl year. simpl month. simpl day.
  rewrite year_ok by assumption. rewrite Hza, Hzb. subst a b. reflexivity.
Qed.

(** The other four formats start with [%m] and a separator and raise
    on a text of the shape [YYYY-MM-DD]. *)
Lemma strptime_month_first_iso (s fmt : string) :
  iso_shape s = true ->
  In fmt ["%m/%d/%Y"; "%m-%d-%Y"; "%m/%d/%y"; "%m-%d-%y"]%string ->
  exists e, strptime s fmt = Raise e.
Proof.
  intros Hs Hf. apply iso_shape_inv in Hs.
  destruct Hs as [y1 [y2 [y3 [y4 [m1 [m2 [d1 [d2 [-> H]]]]]]]]].
  destruct H as [Hy1 [Hy2 [Hy3 _]]].
  simpl in Hf.
  destruct Hf as [<- | [<- | [<- | [<- | []]]]]; unfold strptime.
  - change (parse_format "%m/%d/%Y") with (Some (f_mdY "/")).
    unfold f_mdY. rewrite month_first_no_match by auto. eauto.
  - change (parse_format "%m-%d-%Y") with (Some (f_mdY "-")).
    unfold f_mdY. rewrite month_first_no_match by auto. eauto.
  - change (parse_format "%m/%d/%y") with (Some (f_mdy "/")).
    unfold f_mdy. rewrite month_first_no_match by auto. eauto.
  - change (parse_format "%m-%d-%y") with (Some (f_mdy "-")).
    unfold f_mdy. rewrite month_first_no_match by auto. eauto.
Qed.

End DateFacts.

(** ** [_parse_date] *)

Lemma try_formats_cons (s fmt : string) (rest : list string) :
  try_formats s (fmt :: rest)
  = match PyDate.strptime s fmt with
    | Ok dt => Some (PyDate.isoformat dt)
    | Raise _ => try_formats s rest
    end.
Proof. reflexivity. Qed.

(** A text of the shape [YYYY-MM-DD] is a fixed point of [_parse_date]. *)
Lemma parse_date_iso_shape (s : string) :
  DateShape.iso_shape s = true -> _parse_date s = VStr s.
Proof.
  intros Hs. unfold _parse_date.
  destruct s as [|c s]; [discriminate|]. simpl is_empty. cbv iota.
  set (t := String c s) in *.
  assert (Hfail : forall fmt,
             In fmt ["%m/%d/%Y"; "%m-%d-%Y"; "%m/%d/%y"; "%m-%d-%y"] ->
             forall rest, try_formats t (fmt :: rest) = try_formats t rest).
  { intros fmt Hin rest. rewrite try_formats_cons.
    destruct (DateFacts.strptime_month_first_iso t fmt Hs Hin) as [e ->].
    reflexivity. }
  unfold date_formats.
  rewrite Hfail by (simpl; tauto). rewrite Hfail by (simpl; tauto).
  rewrite try_formats_cons.
  pose proof (DateFacts.strptime_Ymd_iso t Hs) as H3.
  destruct (PyDate.strptime t "%Y-%m-%d") as [dt|e].
  - now rewrite H3.
  - rewrite Hfail by (simpl; tauto). rewrite Hfail by (simpl; tauto).
    reflexivity.
Qed.

(** The result of [_parse_date] on a non-empty text is a string: the
    ISO text of a parsed date or the text itself. *)
Lemma parse_date_cases (s : string) :
  s <> "" ->
  (exists fmt dt, In fmt date_formats /\ PyDate.strptime s fmt = Ok dt
                  /\ _parse_date s = VStr (PyDate.isoformat dt))
  \/ ((forall fmt, In fmt date_formats -> exists e, PyDate.strptime s fmt = Raise e)
      /\ _parse_date s = VStr s).
Proof.
  intros Hne. unfold _parse_date. rewrite (is_empty_false s Hne).
  induction date_formats as [|fmt fmts IH]; simpl.
  - right. split; [tauto | reflexivity].
  - destruct (PyDate.strptime s fmt) as [dt|e] eqn:E.
    + left. exists fmt, dt. auto.
    + destruct IH as [[f [dt [H1 [H2 H3]]]] | [H1 H2]].
      * left. exists f, dt. auto.
      * right. split; auto. intros f [<- | Hin]; eauto.
Qed.

Lemma try_formats_first (s : string) (before : list string) (fmt : string)
      (after : list string) (dt : PyDate.date) :
  (forall f, In f before -> exists e, PyDate.strptime s f = Raise e) ->
  PyDate.strptime s fmt = Ok dt ->
  try_formats s (before ++ fmt :: after) = Some (PyDate.isoformat dt).
Proof.
  intros Hb Hf. induction before as [|f before IH]; simpl.
  - now rewrite Hf.
  - destruct (Hb f (or_introl eq_refl)) as [e ->].
    apply IH. intros f' Hin. apply Hb. now right.
Qed.

Lemma try_formats_none (s : string) (fmts : list string) :
  (forall f, In f fmts -> exists e, PyDate.strptime s f = Raise e) ->
  try_formats s fmts = None.
Proof.
  induction fmts as [|f fmts IH]; simpl; auto.
  intros H. destruct (H f (or_introl eq_refl)) as [e ->].
  apply IH. intros f' Hin. apply H. now right.
Qed.

Lemma date_key_not_numeric (key : string) :
  is_date_key key = true -> is_numeric_key key = false.
Proof.
  intros H. unfold is_numeric_key. simpl.
  destruct (String.eqb key "amount") eqn:E1.
  - apply String.eqb_eq in E1. subst. discriminate.
  - destruct (String.eqb key "patient_responsibility") eqn:E2; auto.
    apply String.eqb_eq in E2. subst. discriminate.
Qed.

(** The normaliser hands a date field's stripped value to
    [_parse_date]. *)
Lemma normalized_date (key val : string) :
  is_date_key key = true -> val <> "" ->
  normalized key val = Some (_parse_date (strip val)).
Proof.
  intros Hk Hv. unfold normalized, process_value.
  rewrite (is_empty_false val Hv), (date_key_not_numeric key Hk), Hk.
  reflexivity.
Qed.

(** C2. For a non-empty date text [_parse_date] tries the formats
    MM/DD/YYYY, MM-DD-YYYY, YYYY-MM-DD, MM/DD/YY, MM-DD-YY in this
    order; the first one that parses decides, and the result is that
    date's ISO text, of the shape YYYY-MM-DD; when none parses the text
    comes back verbatim; nothing is raised.  The normaliser applies
    this to the stripped value of every field whose lower-cased name
    contains "date" or "dob" (for a value that is already stripped, as
    every extracted value is, to the value itself).  "01/15/1980"
    becomes "1980-01-15" and "15-01-1980" stays as it is. *)
Theorem C2_date_fields_first_format_wins :
  forall s : string,
    s <> "" ->
    date_formats = ["%m/%d/%Y"; "%m-%d-%Y"; "%Y-%m-%d"; "%m/%d/%y"; "%m-%d-%y"]
    /\ (forall before fmt after dt,
          date_formats = before ++ fmt :: after ->
          (forall f, In f before -> exists e, PyDate.strptime s f = Raise e) ->
          PyDate.strptime s fmt = Ok dt ->
          _parse_date s = VStr (PyDate.isoformat dt)
          /\ DateShape.iso_shape (PyDate.isoformat dt) = true)
    /\ ((forall f, In f date_formats ->
                   exists e, PyDate.strptime s f = Raise e) ->
        _parse_date s = VStr s)
    /\ (forall key, is_date_key key = true ->
                    normalized key s = Some (_parse_date (strip s))
                    /\ (strip s = s ->
                        _post_process_fields [(key, s)] = [(key, _parse_date s)]))
    /\ _parse_date "01/15/1980" = VStr "1980-01-15"
    /\ _parse_date "15-01-1980" = VStr "15-01-1980"
    /\ _post_process_fields [("date_of_birth", "01/15/1980");
                             ("date_of_service", "15-01-1980")]
       = [("date_of_birth", VStr "1980-01-15");
          ("date_of_service", VStr "15-01-1980")].
Proof.
  intros s Hne. split; [reflexivity|]. split; [|split; [|split]].
  - intros before fmt after dt Hl Hb Hf. split.
    + unfold _parse_date. rewrite (is_empty_false s Hne), Hl.
      now rewrite (try_formats_first s before fmt after dt Hb Hf).
    + apply DateFacts.isoformat_shape.
  - intros H. unfold _parse_date.
    now rewrite (is_empty_false s Hne), (try_formats_none s date_formats H).
  - intros key Hk. split.
    + now apply normalized_date.
    + intros Hs. unfold _post_process_fields. simpl.
      rewrite (is_empty_false s Hne). unfold process_value.
      now rewrite (date_key_not_numeric key Hk), Hk, Hs.
  - repeat split; vm_compute; reflexivity.
Qed.

Lemma C2_witness :
  _parse_date "1/5/80" = VStr "1980-01-05"
  /\ DateShape.iso_shape "1980-01-05" = true.
Proof.
  assert (Hne : "1/5/80" <> "") by discriminate.
  destruct (C2_date_fields_first_format_wins "1/5/80" Hne) as [_ [H _]].
  apply (H ["%m/%d/%Y"; "%m-%d-%Y"; "%Y-%m-%d"] "%m/%d/%y" ["%m-%d-%y"]
           (PyDate.MkDate 1980 1 5)).
  - reflexivity.
  - intros f Hin. simpl in Hin.
    destruct Hin as [<- | [<- | [<- | []]]]; vm_compute; eauto.
  - reflexivity.
Defined.

Lemma iso_shape_no_space (s : string) :
  DateShape.iso_shape s = true -> all_chars CharSets.not_space s = true.
Proof.
  intros H. apply DateFacts.iso_shape_inv in H.
  destruct H as [y1 [y2 [y3 [y4 [m1 [m2 [d1 [d2 [-> H]]]]]]]]].
  destruct H as [Hy1 [Hy2 [Hy3 [Hy4 [Hm1 [Hm2 [Hd1 Hd2]]]]]]].
  unfold DateShape.str2. simpl. unfold CharSets.not_space.
  rewrite !CharFacts.digit_not_space by assumption. reflexivity.
Qed.

(** Whatever string [_parse_date] returns, [_parse_date] returns it
    again. *)
Lemma parse_date_idem (s v : string) :
  _parse_date s = VStr v -> _parse_date v = VStr v.
Proof.
  intros H. destruct s as [|c s]; [discriminate|].
  destruct (parse_date_cases (String c s)) as [[fmt [dt [_ [_ H1]]]] | [_ H1]];
    [discriminate| |]; rewrite H1 in H; inversion H; subst v.
  - apply parse_date_iso_shape. apply DateFacts.isoformat_shape.
  - exact H1.
Qed.

(** C9. Date normalisation is idempotent: every text of the ISO shape
    YYYY-MM-DD is returned unchanged by [_parse_date], and so is every
    string [_parse_date] has returned; a date field that the normaliser
    has produced normalises to itself.  "2023-05-10" parses back to
    "2023-05-10". *)
Theorem C9_date_normalization_idempotent :
  forall s : string,
    DateShape.iso_shape s = true ->
    _parse_date s = VStr s
    /\ (forall key, is_date_key key = true ->
                    normalized key s = Some (VStr s))
    /\ (forall t v, _parse_date t = VStr v -> _parse_date v = VStr v)
    /\ (forall key val v,
          is_date_key key = true ->
          normalized key val = Some (VStr v) ->
          normalized key v = Some (VStr v))
    /\ _parse_date "2023-05-10" = VStr "2023-05-10".
Proof.
  intros s Hs. split; [now apply parse_date_iso_shape|].
  split; [|split; [exact parse_date_idem|split]].
  - intros key Hk.
    rewrite normalized_date; auto.
    + rewrite (StrFacts.strip_no_space s (iso_shape_no_space s Hs)).
      now rewrite parse_date_iso_shape.
    + destruct s; discriminate.
  - intros key val v Hk Hn.
    destruct val as [|c val]; [discriminate|].
    rewrite normalized_date in Hn by (auto; discriminate).
    injection Hn as Hp.
    assert (Hv : v <> "").
    { destruct (strip (String c val)) eqn:E; [discriminate|].
      destruct (parse_date_cases (String a s0)) as [[fmt [dt [_ [_ H1]]]] | [_ H1]];
        [discriminate| |]; rewrite H1 in Hp; inversion Hp; subst v.
      - pose proof (DateFacts.isoformat_shape dt) as Hi.
        destruct (PyDate.isoformat dt); discriminate.
      - discriminate. }
    assert (Hst : strip v = v).
    { destruct (strip (String c val)) eqn:E; [discriminate|].
      destruct (parse_date_cases (String a s0)) as [[fmt [dt [_ [_ H1]]]] | [_ H1]];
        [discriminate| |]; rewrite H1 in Hp; inversion Hp; subst v.
      - apply StrFacts.strip_no_space. apply iso_shape_no_space.
        apply DateFacts.isoformat_shape.
      - rewrite <- E. apply StrFacts.strip_idem. }
    rewrite normalized_date by assumption.
    rewrite Hst. now rewrite (parse_date_idem _ _ Hp).
  - vm_compute. reflexivity.
Qed.

Lemma C9_witness :
  _parse_date "1999-12-31" = VStr "1999-12-31".
Proof.
  exact (proj1 (C9_date_normalization_idempotent "1999-12-31" eq_refl)).
Defined.

(** ** Amounts *)

(** C3, as the code has it. For a non-empty value of a field named
    amount or patient_responsibility the normaliser strips white
    space, removes every "$" and "," and strips again, and parses the
    result as a float; when that fails it keeps the white-space-stripped
    value, with its "$" and "," still in it; nothing is raised.
    "$150.00" becomes the number 150.0 and "abc" the string "abc". *)
Theorem C3_amounts_parse_or_keep_stripped :
  forall key val : string,
    is_numeric_key key = true ->
    val <> "" ->
    normalized key val
    = Some (match PyFloat.float_of_str
                    (strip (remove_char "," (remove_char "$" (strip val)))) with
            | Some f => VFloat f
            | None => VStr (strip val)
            end)
    /\ _post_process_fields [(key, val)]
       = [(key, match PyFloat.float_of_str
                        (strip (remove_char "," (remove_char "$" (strip val)))) with
                | Some f => VFloat f
                | None => VStr (strip val)
                end)]
    /\ _post_process_fields [("amount", "$150.00")]
       = [("amount", VFloat (PyFloat.Num (Qmake 150 1)))]
    /\ _post_process_fields [("amount", "abc")] = [("amount", VStr "abc")]
    /\ _post_process_fields [("patient_responsibility", " $1,250.50 ")]
       = [("patient_responsibility", VFloat (PyFloat.Num (Qmake 2501 2)))].
Proof.
  intros key val Hk Hv. split; [|split].
  - unfold normalized, process_value.
    now rewrite (is_empty_false val Hv), Hk.
  - unfold _post_process_fields. simpl. unfold process_value.
    now rewrite (is_empty_false val Hv), Hk.
  - repeat split; vm_compute; reflexivity.
Qed.

Lemma C3_witness :
  normalized "amount" "$12 dollars" = Some (VStr "$12 dollars").
Proof.
  assert (Hv : "$12 dollars" <> "") by discriminate.
  exact (proj1 (C3_amounts_parse_or_keep_stripped "amount" "$12 dollars"
                  eq_refl Hv)).
Defined.

(** C3, as stated, fails: for the amount "$abc" the parse fails and the
    value kept is "$abc", not the text with the symbol removed. *)
Lemma C3_counterexample :
  PyFloat.float_of_str (strip (remove_char "," (remove_char "$" (strip "$abc"))))
  = None
  /\ strip (remove_char "," (remove_char "$" (strip "$abc"))) = "abc"
  /\ _post_process_fields [("amount", "$abc")] = [("amount", VStr "$abc")]
  /\ _post_process_fields [("amount", "$abc")] <> [("amount", VStr "abc")].
Proof.
  repeat split; try (vm_compute; reflexivity).
  vm_compute. discriminate.
Qed.

Module AmountFacts.
Import Re ReSem ReFacts CharFacts.
Local Open Scope char_scope.








End AmountFacts.

(** ** [float] on decimal texts *)

Module FloatFacts.
Import PyFloat CharSets CharFacts StrFacts FloatShape.
Local Open Scope char_scope.










End FloatFacts.

(** ** Rounding to binary64 *)

Module RoundFacts.
Import PyFloat FloatRead.
Local Open Scope Q_scope.









End RoundFacts.

(** ** The value of a decimal text *)

Module DecimalFacts.
Import PyFloat Decimal CharSets CharFacts StrFacts FloatShape FloatFacts.
Local Open Scope char_scope.













End DecimalFacts.


(** ** Amounts found by the rules *)

Lemma registered_cases (doc_type : option string) (rules : PyDict.dict Re.regex) :
  registered doc_type = Some rules ->
  rules = insurance_claim_rules \/ rules = prescription_rules
  \/ rules = medical_report_rules.
Proof.
  unfold registered. destruct doc_type as [dt|]; [|discriminate].
  destruct (is_empty dt); [discriminate|]. simpl.
  destruct (String.eqb dt "insurance_claim"); [intros H; inversion H; auto|].
  destruct (String.eqb dt "prescription"); [intros H; inversion H; auto|].
  destruct (String.eqb dt "medical_report"); [intros H; inversion H; auto|].
  discriminate.
Qed.








(** ** The sample run of the module *)

(** What the [__main__] block prints for its sample claim, at a given
    clock reading.  The name rule matches at "PATIENT" and captures the
    words that follow it, across the line break; the claim rule matches
    at the "ID" of "Member ID". *)
Example sample_run :
  extract_structured_data (fun _ => true) noon sample_text
                          (Some "insurance_claim")
  = Returns
      (MkResult
         (Some "2023-05-10T12:00:00") (Some "insurance_claim")
         (Some [("patient_name", VStr "INFORMATION
    Name");
                ("date_of_birth", VStr "1980-01-15");
                ("member_id", VStr "ABC123456");
                ("date_of_service", VStr "2023-05-10");
                ("provider_name", VStr "Dr");
                ("diagnosis_code", VStr "E11.65");
                ("amount", VFloat (PyFloat.Num (Qmake 150 1)));
                ("claim_number", VStr "ABC123456")])
         (Some (MkReport true [] []))
         None).
Proof. vm_compute. reflexivity. Qed.

(* ================================================================= *)
(** * Further properties *)

(** ** [_extract_using_patterns] *)

Lemma captured_matched (r : Re.regex) (text : string) (m : Re.rmatch_object) :
  ReSem.is_rule r = true -> Re.search r text = Some m ->
  exists g, Re.group1 m = Some g /\ matched_value r m = Ok (strip g)
            /\ captured r text = Some (strip g).
Proof.
  intros Hr Hs. unfold matched_value, captured. rewrite Hs.
  rewrite (ReFacts.is_rule_ngroups r Hr). simpl.
  destruct (ReFacts.search_sound _ _ _ Hs) as [pre [s' [_ HM]]].
  destruct (ReFacts.rule_capture _ _ _ _ Hr HM) as [g [t [c0 [c1 [Hg _]]]]].
  exists g. rewrite Hg. auto.
Qed.

Lemma keys_selected_incl (text : string) (rules : PyDict.dict Re.regex) (k : string) :
  In k (PyDict.keys (selected text rules)) -> In k (PyDict.keys rules).
Proof.
  unfold selected, PyDict.keys.
  induction rules as [|[k1 r1] rules IH]; simpl; auto.
  rewrite map_app, in_app_iff. intros [H | H]; auto.
  destruct (captured r1 text); simpl in H; tauto.
Qed.

Lemma extract_loop_selected (text : string) (rules : PyDict.dict Re.regex) :
  rules_ok rules = true ->
  forall acc,
    NoDup (PyDict.keys acc ++ PyDict.keys rules) ->
    extract_loop text rules acc = Ok (acc ++ selected text rules).
Proof.
  induction rules as [|[field r] rules IH]; intros Hok acc Hnd; simpl.
  - now rewrite app_nil_r.
  - simpl in Hok. apply andb_prop in Hok. destruct Hok as [Hr Hok].
    unfold selected. simpl. fold (selected text rules).
    simpl in Hnd.
    pose proof (NoDup_remove_2 _ _ _ Hnd) as Hfresh.
    destruct (Re.search r text) as [m|] eqn:Es.
    + destruct (captured_matched r text m Hr Es) as [g [_ [Hv Hc]]].
      rewrite Hv, Hc.
      rewrite set_fresh by (intros Hi; apply Hfresh; apply in_or_app; auto).
      rewrite IH; auto.
      * now rewrite <- app_assoc.
      * unfold PyDict.keys in *. rewrite map_app. simpl.
        rewrite <- app_assoc. exact Hnd.
    + unfold captured. rewrite Es. simpl. apply IH; auto.
      now apply NoDup_remove_1 in Hnd.
Qed.

Lemma get_selected (text : string) (rules : PyDict.dict Re.regex) (k : string) :
  NoDup (PyDict.keys rules) ->
  PyDict.get k (selected text rules)
  = match PyDict.get k rules with
    | Some r => captured r text
    | None => None
    end.
Proof.
  unfold selected.
  induction rules as [|[k1 r1] rules IH]; intros Hnd; simpl; auto.
  inversion Hnd as [|x l Hnotin Hnd']; subst.
  destruct (String.eqb k k1) eqn:E.
  - apply String.eqb_eq in E. subst k1.
    destruct (captured r1 text) as [v|] eqn:Ec; simpl.
    + now rewrite String.eqb_refl.
    + rewrite IH by assumption.
      apply DictFacts.get_none_not_in in Hnotin. now rewrite Hnotin.
  - destruct (captured r1 text) as [v|]; simpl; [rewrite E|]; now apply IH.
Qed.

(** X1. With a well-formed rule table without repeated names,
    extraction never raises and returns exactly the fields whose rule
    matches somewhere in the text, in table order, each with the
    stripped content of the rule's group; so a field is present exactly
    when its rule matches, and a rule without a match contributes
    nothing. *)
Theorem X1_extraction_selects_matching_rules :
  forall (text : string) (rules : PyDict.dict Re.regex),
    rules_ok rules = true ->
    NoDup (PyDict.keys rules) ->
    _extract_using_patterns text rules = Ok (selected text rules)
    /\ (forall k r, PyDict.get k rules = Some r ->
          PyDict.get k (selected text rules)
          = match Re.search r text with
            | Some m => option_map strip (Re.group1 m)
            | None => None
            end)
    /\ (forall k r, PyDict.get k rules = Some r ->
          ((exists v, PyDict.get k (selected text rules) = Some v)
           <-> exists m, Re.search r text = Some m))
    /\ (forall k, PyDict.get k rules = None ->
                  PyDict.get k (selected text rules) = None).
Proof.
  intros text rules Hok Hnd. split; [|split; [|split]].
  - unfold _extract_using_patterns.
    now rewrite (extract_loop_selected text rules Hok []).
  - intros k r Hk. rewrite get_selected by assumption. now rewrite Hk.
  - intros k r Hk. rewrite get_selected by assumption. rewrite Hk.
    assert (Hr : ReSem.is_rule r = true).
    { unfold rules_ok in Hok. rewrite forallb_forall in Hok.
      assert (Hin : In (k, r) rules).
      { clear - Hk. induction rules as [|[k1 r1] rules IH]; [discriminate|].
        simpl in Hk. destruct (String.eqb k k1) eqn:E.
        - apply String.eqb_eq in E. inversion Hk; subst. now left.
        - right. auto. }
      exact (Hok (k, r) Hin). }
    split.
    + intros [v Hv]. unfold captured in Hv.
      destruct (Re.search r text) as [m|]; [eauto | discriminate].
    + intros [m Hm].
      destruct (captured_matched r text m Hr Hm) as [g [_ [_ Hc]]]. eauto.
  - intros k Hk. rewrite get_selected by assumption. now rewrite Hk.
Qed.

Lemma patterns_nodup : NoDup (PyDict.keys patterns).
Proof.
  unfold patterns, PyDict.keys. simpl.
  repeat (constructor; [simpl; intros H;
                        repeat (destruct H as [H | H]; [discriminate|]);
                        exact H|]).
  constructor.
Qed.

Lemma X1_witness :
  _extract_using_patterns "Name: Ann" patterns = Ok [("patient_name", "Ann")].
Proof.
  exact (proj1 (X1_extraction_selects_matching_rules
                  "Name: Ann" patterns patterns_ok patterns_nodup)).
Defined.

(** ** Captures that cannot be blank *)

Module FirstFacts.
Import Re ReSem ReFirst.

Lemma in_all_ascii (a : ascii) : In a all_ascii.
Proof.
  unfold all_ascii. rewrite <- (ascii_nat_embedding a).
  apply in_map. apply in_seq. pose proof (nat_ascii_bounded a). lia.
Qed.

Lemma cset_black_sound (cs : cset) (a : ascii) :
  cset_black cs = true -> cset_mem cs a = true -> is_space a = false.
Proof.
  unfold cset_black. rewrite forallb_forall. intros H Hm.
  specialize (H a (in_all_ascii a)). rewrite Hm in H. simpl in H.
  now apply negb_true_iff.
Qed.

Lemma starts_black_app (w1 w2 : string) :
  starts_black w1 -> starts_black (w1 ++ w2).
Proof.
  intros [a [t [-> Ha]]]. exists a, (t ++ w2)%string. auto.
Qed.

Lemma black0_app (w1 w2 : string) :
  w1 = "" \/ starts_black w1 -> w2 = "" \/ starts_black w2 ->
  (w1 ++ w2)%string = "" \/ starts_black (w1 ++ w2).
Proof.
  intros [-> | H1] H2; simpl; auto. right. now apply starts_black_app.
Qed.

Lemma black0_sound (r : regex) :
  black0 r = true ->
  forall w s c c', M r w s c c' -> w = "" \/ starts_black w.
Proof.
  induction r as [|cs|r1 IH1 r2 IH2|r1 IH1 r2 IH2|lz lo hi r1 IH1|r1 IH1|r1 IH1| |];
    simpl; intros Hb w s c c' H.
  - tauto.
  - destruct H as [a [-> [Ha _]]]. right. exists a, EmptyString.
    split; auto. exact (cset_black_sound cs a Hb Ha).
  - apply andb_prop in Hb. destruct Hb as [Hb1 Hb2].
    destruct H as [w1 [w2 [c1 [-> [H1 H2]]]]].
    apply black0_app; eauto.
  - apply andb_prop in Hb. destruct Hb as [Hb1 Hb2]. destruct H; eauto.
  - destruct H as [n [_ [_ H]]].
    induction H as [|n w1 w2 s c c1 c2 H1 H2 IH]; auto.
    apply black0_app; eauto.
  - destruct H as [[c1 H] _]. eauto.
  - tauto.
  - tauto.
  - tauto.
Qed.

Lemma black1_sound (r : regex) :
  black1 r = true ->
  forall w s c c', M r w s c c' -> starts_black w.
Proof.
  induction r as [|cs|r1 IH1 r2 IH2|r1 IH1 r2 IH2|lz lo hi r1 IH1|r1 IH1|r1 IH1| |];
    simpl; intros Hb w s c c' H; try discriminate.
  - destruct H as [a [-> [Ha _]]]. exists a, EmptyString.
    split; auto. exact (cset_black_sound cs a Hb Ha).
  - destruct H as [w1 [w2 [c1 [-> [H1 H2]]]]].
    apply orb_prop in Hb. destruct Hb as [Hb | Hb].
    + apply starts_black_app. eauto.
    + apply andb_prop in Hb. destruct Hb as [Hb0 Hb1].
      destruct (black0_sound r1 Hb0 _ _ _ _ H1) as [-> | Hs].
      * simpl. eauto.
      * now apply starts_black_app.
  - apply andb_prop in Hb. destruct Hb as [Hb1 Hb2]. destruct H; eauto.
  - apply andb_prop in Hb. destruct Hb as [Hlo Hb].
    assert (1 <= lo) by (destruct lo; [discriminate | lia]).
    destruct H as [n [Hn [_ H]]].
    inversion H as [|n' w1 w2 s' ca cb cc H1 H2]; subst; [lia|].
    apply starts_black_app. eauto.
  - destruct H as [[c1 H] _]. eauto.
Qed.

(** The [strip()] of a word that starts with a character that is not
    white space is not empty. *)
Lemma strip_starts_black (w : string) :
  starts_black w -> strip w <> "".
Proof.
  intros [a [t [-> Ha]]]. unfold strip, strip_with. simpl. rewrite Ha.
  simpl. rewrite Ha. simpl. discriminate.
Qed.

(** A rule whose group cannot be blank captures a non-empty value. *)
Lemma captured_nonempty (r : regex) (text v : string) :
  is_rule r = true -> black1 (rule_body r) = true ->
  captured r text = Some v -> v <> "".
Proof.
  intros Hr Hb. unfold captured.
  destruct (search r text) as [m|] eqn:Es; [|discriminate].
  destruct (ReFacts.search_sound _ _ _ Es) as [pre [s' [_ HM]]].
  destruct (ReFacts.rule_capture _ _ _ _ Hr HM) as [g [t [c0 [c1 [Hg Hbody]]]]].
  rewrite Hg. simpl. intros Hv. inversion Hv; subst.
  apply strip_starts_black. exact (black1_sound _ Hb _ _ _ _ Hbody).
Qed.

End FirstFacts.

Lemma patterns_black : rules_black patterns = true.
Proof. vm_compute. reflexivity. Qed.

(** ** [_post_process_fields] *)

Lemma keys_kept_incl (fields : PyDict.dict string) (k : string) :
  In k (PyDict.keys (kept fields)) -> In k (PyDict.keys fields).
Proof.
  unfold kept, PyDict.keys.
  induction fields as [|[k1 v1] fields IH]; simpl; auto.
  rewrite map_app, in_app_iff. intros [H | H]; auto.
  destruct (normalized k1 v1); simpl in H; tauto.
Qed.

Lemma post_loop_kept (items : PyDict.dict string) :
  forall acc,
    NoDup (PyDict.keys acc ++ PyDict.keys items) ->
    post_loop items acc = acc ++ kept items.
Proof.
  induction items as [|[k v] items IH]; intros acc Hnd; simpl.
  - now rewrite app_nil_r.
  - unfold kept. simpl. fold (kept items). unfold normalized at 1. simpl.
    simpl in Hnd. pose proof (NoDup_remove_2 _ _ _ Hnd) as Hfresh.
    destruct (is_empty v).
    + simpl. apply IH. now apply NoDup_remove_1 in Hnd.
    + rewrite IH.
      * rewrite set_fresh by (intros Hi; apply Hfresh; apply in_or_app; auto).
        now rewrite <- app_assoc.
      * rewrite set_fresh by (intros Hi; apply Hfresh; apply in_or_app; auto).
        unfold PyDict.keys in *. rewrite map_app. simpl.
        rewrite <- app_assoc. exact Hnd.
Qed.

(** X2. On a field map without repeated names normalisation keeps the
    order of the entries: it drops the entries whose value is the empty
    string and replaces every other value by its normalised value; no
    name is added, none is renamed. *)
Theorem X2_normalization_keeps_order :
  forall fields : PyDict.dict string,
    NoDup (PyDict.keys fields) ->
    _post_process_fields fields = kept fields
    /\ PyDict.keys (_post_process_fields fields)
       = PyDict.keys (filter (fun kv => negb (is_empty (snd kv))) fields)
    /\ NoDup (PyDict.keys (_post_process_fields fields)).
Proof.
  intros fields Hnd.
  assert (H : _post_process_fields fields = kept fields).
  { unfold _post_process_fields. now rewrite post_loop_kept. }
  rewrite H. split; [reflexivity|].
  assert (Hk : PyDict.keys (kept fields)
               = PyDict.keys (filter (fun kv => negb (is_empty (snd kv))) fields)).
  { clear. unfold kept, PyDict.keys.
    induction fields as [|[k v] fields IH]; simpl; auto.
    unfold normalized at 1. simpl. destruct (is_empty v); simpl; congruence. }
  split; [exact Hk|]. rewrite Hk. clear - Hnd.
  unfold PyDict.keys in *.
  induction fields as [|[k v] fields IH]; simpl; [constructor|].
  inversion Hnd as [|x l Hnotin Hnd']; subst.
  destruct (negb (is_empty v)); simpl; auto.
  constructor; auto. intros Hin. apply Hnotin.
  clear - Hin. induction fields as [|[k1 v1] fields IH]; simpl in *; auto.
  destruct (negb (is_empty v1)); simpl in *; tauto.
Qed.

Lemma X2_witness :
  _post_process_fields [("dosage", ""); ("amount", "5"); ("refills", " 2 ")]
  = [("amount", VFloat (PyFloat.Num (Qmake 5 1))); ("refills", VStr "2")].
Proof.
  assert (Hnd : NoDup (PyDict.keys
                  [("dosage", ""); ("amount", "5"); ("refills", " 2 ")])).
  { simpl. repeat (constructor; [simpl; intros H;
      repeat (destruct H as [H | H]; [discriminate|]); exact H|]).
    constructor. }
  exact (proj1 (X2_normalization_keeps_order _ Hnd)).
Defined.

(** X3. Normalisation is idempotent on every string it produces: when
    a field normalises to a non-empty string, normalising that string
    under the same name gives the same string again (for dates, amounts
    that did not parse, and plain text alike). *)
Theorem X3_normalization_idempotent_on_strings :
  forall key val s : string,
    normalized key val = Some (VStr s) ->
    s <> "" ->
    normalized key s = Some (VStr s).
Proof.
  intros key val s Hn Hs. unfold normalized in *.
  destruct (is_empty val) eqn:Ev; [discriminate|].
  rewrite (is_empty_false s Hs). injection Hn as Hn.
  unfold process_value in *.
  destruct (is_numeric_key key).
  - destruct (PyFloat.float_of_str
                (strip (remove_char "," (remove_char "$" (strip val))))) eqn:Ef;
      [discriminate|].
    injection Hn as <-. rewrite StrFacts.strip_idem. now rewrite Ef.
  - destruct (is_date_key key).
    + assert (Hst : strip s = s).
      { destruct (strip val) eqn:E; [discriminate|].
        destruct (parse_date_cases (String a s0)) as [[fmt [dt [_ [_ H1]]]] | [_ H1]];
          [discriminate| |]; rewrite H1 in Hn; injection Hn as <-.
        - apply StrFacts.strip_no_space. apply iso_shape_no_space.
          apply DateFacts.isoformat_shape.
        - rewrite <- E. apply StrFacts.strip_idem. }
      rewrite Hst. now rewrite (parse_date_idem _ _ Hn).
    + injection Hn as <-. now rewrite StrFacts.strip_idem.
Qed.

Lemma X3_witness :
  normalized "amount" "$12 dollars" = Some (VStr "$12 dollars").
Proof.
  assert (Hs : "$12 dollars" <> "") by discriminate.
  exact (X3_normalization_idempotent_on_strings
           "amount" " $12 dollars " "$12 dollars" eq_refl Hs).
Defined.

(** X4. A value that is not empty but consists of white space only is
    not dropped by the normaliser: the field stays in the map, with
    [None] for a date field and the empty string for any other field,
    a falsy value in both cases, so the validator counts the field as
    missing. *)
Theorem X4_blank_values_are_kept_falsy :
  forall key val : string,
    val <> "" ->
    strip val = "" ->
    normalized key val = Some (if is_date_key key then VNone else VStr "")
    /\ _post_process_fields [(key, val)]
       = [(key, if is_date_key key then VNone else VStr "")]
    /\ missing (_post_process_fields [(key, val)]) key = true.
Proof.
  intros key val Hv Hs.
  assert (Hp : process_value key val
               = if is_date_key key then VNone else VStr "").
  { unfold process_value. rewrite Hs.
    destruct (is_date_key key) eqn:Ed.
    - now rewrite (date_key_not_numeric key Ed).
    - destruct (is_numeric_key key); reflexivity. }
  assert (Hpost : _post_process_fields [(key, val)]
                  = [(key, if is_date_key key then VNone else VStr "")]).
  { unfold _post_process_fields. simpl.
    now rewrite (is_empty_false val Hv), Hp. }
  split; [|split; [exact Hpost|]].
  - unfold normalized. now rewrite (is_empty_false val Hv), Hp.
  - rewrite Hpost. unfold missing. simpl. rewrite String.eqb_refl.
    destruct (is_date_key key); reflexivity.
Qed.

Lemma X4_witness :
  _post_process_fields [("date_of_service", "   ")]
  = [("date_of_service", VNone)].
Proof.
  assert (Hv : "   " <> "") by discriminate.
  exact (proj1 (proj2 (X4_blank_values_are_kept_falsy
                         "date_of_service" "   " Hv eq_refl))).
Defined.

(** ** [_validate_extracted_data]: the messages *)

Lemma check_required_errors (fields : PyDict.dict value) (req : list string) :
  forall v,
    errors (check_required fields req v)
    = errors v ++ map missing_message (filter (missing fields) req)
    /\ warnings (check_required fields req v) = warnings v.
Proof.
  induction req as [|f req IH]; intros v; simpl.
  - now rewrite app_nil_r.
  - destruct (missing fields f).
    + match goal with |- context [check_required fields req ?r] =>
        destruct (IH r) as [H1 H2] end.
      rewrite H1, H2. simpl. unfold missing_message.
      now rewrite <- app_assoc.
    + apply IH.
Qed.

Lemma check_dates_warnings (iso : string -> bool) (items : PyDict.dict value) :
  forall v,
    warnings (check_dates iso items v) = warnings v ++ date_warnings iso items.
Proof.
  unfold date_warnings.
  induction items as [|[field x] items IH]; intros v; simpl.
  - now rewrite app_nil_r.
  - rewrite IH. destruct x; simpl; auto.
    destruct (is_date_key field && negb (iso s)); simpl; auto.
    now rewrite <- app_assoc.
Qed.

(** X5. The errors of a report are, in the order of the required-field
    list of the doc_type, one "Missing required field: <name>" for each
    required field that is absent or falsy, and nothing else; the
    report is valid exactly when it has no error. *)
Theorem X5_errors_list_missing_required_fields :
  forall (iso : string -> bool) (fields : PyDict.dict value)
         (doc_type : option string),
    errors (_validate_extracted_data iso fields doc_type)
    = map missing_message (filter (missing fields) (required_of doc_type))
    /\ (is_valid (_validate_extracted_data iso fields doc_type) = true
        <-> errors (_validate_extracted_data iso fields doc_type) = []).
Proof.
  intros iso fields doc_type.
  unfold required_of. rewrite required_fields_spec.
  assert (He : errors (_validate_extracted_data iso fields doc_type)
               = map missing_message
                     (filter (missing fields) (spec_required doc_type))).
  { unfold _validate_extracted_data.
    match goal with |- context [check_dates iso fields ?v] =>
      destruct (check_dates_keeps iso fields v) as [_ H] end.
    rewrite H. rewrite <- required_fields_spec.
    destruct doc_type as [dt|]; auto.
    destruct (PyDict.get dt required_fields); auto.
    now destruct (check_required_errors fields l (MkReport true [] [])) as [-> _]. }
  split; [exact He|].
  rewrite He, validate_is_valid. clear He.
  induction (spec_required doc_type) as [|f l IH]; simpl.
  - tauto.
  - destruct (missing fields f); simpl.
    + split; discriminate.
    + exact IH.
Qed.

(** X6. The warnings of a report are, in the order of the field map,
    one "Invalid date format for <name>: <value>" for each entry whose
    name contains "date" or "dob", whose value is a string, and which
    [datetime.fromisoformat] rejects; floats and [None] are never
    warned about, and the doc_type has no influence. *)
Theorem X6_warnings_list_rejected_date_strings :
  forall (iso : string -> bool) (fields : PyDict.dict value)
         (doc_type : option string),
    warnings (_validate_extracted_data iso fields doc_type)
    = date_warnings iso fields
    /\ (forall w, In w (warnings (_validate_extracted_data iso fields doc_type)) ->
          exists k s, In (k, VStr s) fields /\ is_date_key k = true
                      /\ iso s = false /\ w = date_message k s).
Proof.
  intros iso fields doc_type.
  assert (Hw : warnings (_validate_extracted_data iso fields doc_type)
               = date_warnings iso fields).
  { unfold _validate_extracted_data. rewrite check_dates_warnings.
    destruct doc_type as [dt|]; auto.
    destruct (PyDict.get dt required_fields); auto.
    now destruct (check_required_errors fields l (MkReport true [] [])) as [_ ->]. }
  split; [exact Hw|]. rewrite Hw. clear Hw.
  intros w Hin. unfold date_warnings in Hin. apply in_flat_map in Hin.
  destruct Hin as [[k v] [Hin Hw]]. simpl in Hw.
  destruct v as [s| |]; try contradiction.
  destruct (is_date_key k && negb (iso s)) eqn:E; [|contradiction].
  apply andb_prop in E. destruct E as [E1 E2]. apply negb_true_iff in E2.
  destruct Hw as [<- | []]. exists k, s. auto.
Qed.

(** ** The pipeline in closed form *)

Ltac nodup_strings :=
  repeat (constructor;
          [simpl; intros H;
           repeat (destruct H as [H | H]; [discriminate|]); exact H|]);
  constructor.

Lemma registered_disjoint (doc_type : option string) (rules : PyDict.dict Re.regex) :
  registered doc_type = Some rules ->
  NoDup (PyDict.keys (patterns ++ rules)).
Proof.
  intros H. apply registered_cases in H.
  destruct H as [-> | [-> | ->]]; unfold PyDict.keys; simpl; nodup_strings.
Qed.

Lemma selected_app (text : string) (a b : PyDict.dict Re.regex) :
  selected text (a ++ b) = selected text a ++ selected text b.
Proof. unfold selected. apply flat_map_app. Qed.

Lemma nodup_selected (text : string) (rules : PyDict.dict Re.regex) :
  NoDup (PyDict.keys rules) -> NoDup (PyDict.keys (selected text rules)).
Proof.
  induction rules as [|[k r] rules IH]; intros Hnd.
  - constructor.
  - inversion Hnd as [|x l Hnotin Hnd']; subst.
    unfold selected. simpl. fold (selected text rules).
    destruct (captured r text); simpl; auto.
    constructor; auto. intros Hin. apply Hnotin.
    now apply keys_selected_incl in Hin.
Qed.

Lemma nodup_app_l {A} (a b : list A) : NoDup (a ++ b) -> NoDup a.
Proof.
  induction a as [|x a IH]; simpl; intros H; [constructor|].
  inversion H; subst. constructor; auto.
  intros Hin. apply H2. apply in_or_app. auto.
Qed.

Lemma raw_fields_nodup (text : string) (doc_type : option string) :
  NoDup (PyDict.keys (raw_fields text doc_type)).
Proof.
  unfold raw_fields. destruct (registered doc_type) as [rules|] eqn:Er.
  - rewrite <- selected_app. apply nodup_selected.
    exact (registered_disjoint doc_type rules Er).
  - rewrite app_nil_r. apply nodup_selected. exact patterns_nodup.
Qed.

Lemma merged_raw (text : string) (doc_type : option string) :
  merged_fields _extract_using_patterns text doc_type
  = Ok (raw_fields text doc_type).
Proof.
  pose proof (raw_fields_nodup text doc_type) as Hnd.
  unfold merged_fields, raw_fields, _extract_using_patterns in *.
  rewrite (extract_loop_selected text patterns patterns_ok [])
    by exact patterns_nodup.
  rewrite app_nil_l.
  rewrite update_nil by (apply nodup_selected; exact patterns_nodup).
  destruct (registered doc_type) as [rules|] eqn:Er.
  - rewrite (extract_loop_selected text rules (registered_ok _ _ Er) []).
    + rewrite app_nil_l. rewrite update_fresh; auto.
      unfold PyDict.keys in *. now rewrite <- map_app.
    + rewrite app_nil_l.
      pose proof (registered_disjoint doc_type rules Er) as H.
      unfold PyDict.keys in H. rewrite map_app in H.
      unfold PyDict.keys.
      clear - H. induction (map fst patterns) as [|x l IH]; auto.
      simpl in H. inversion H; auto.
  - now rewrite app_nil_r.
Qed.

Lemma entry_raw (iso : string -> bool) (now : PyDate.datetime)
      (text : string) (doc_type : option string) :
  is_empty text = false ->
  extract_structured_data iso now text doc_type
  = Returns (MkResult (Some (PyDate.datetime_isoformat now))
                      (Some (or_unknown doc_type))
                      (Some (kept (raw_fields text doc_type)))
                      (Some (_validate_extracted_data iso
                               (kept (raw_fields text doc_type)) doc_type))
                      None).
Proof.
  intros Ht.
  destruct (entry_closed_form iso now text doc_type Ht) as [raw [Hm H]].
  rewrite merged_raw in Hm. injection Hm as <-. rewrite H.
  unfold _post_process_fields.
  rewrite post_loop_kept by (simpl; apply raw_fields_nodup).
  reflexivity.
Qed.

(** X7. For every non-empty text and every doc_type the call returns a
    result in which no error is recorded and the validation is present.
    The extracted fields are the normalised values of the fields the
    common rules select, in table order, followed by those the rules of
    a registered doc_type select; the registered tables share no name
    with the common table, so no common value is ever overwritten. *)
Theorem X7_pipeline_fields_in_table_order :
  forall (iso : string -> bool) (now : PyDate.datetime) (text : string)
         (doc_type : option string),
    text <> "" ->
    extract_structured_data iso now text doc_type
    = Returns (MkResult (Some (PyDate.datetime_isoformat now))
                        (Some (or_unknown doc_type))
                        (Some (kept (raw_fields text doc_type)))
                        (Some (_validate_extracted_data iso
                                 (kept (raw_fields text doc_type)) doc_type))
                        None)
    /\ NoDup (PyDict.keys (kept (raw_fields text doc_type)))
    /\ (forall rules, registered doc_type = Some rules ->
          forall k, In k (PyDict.keys rules) -> ~ In k (PyDict.keys patterns)).
Proof.
  intros iso now text doc_type Ht. apply is_empty_false in Ht.
  split; [now apply entry_raw|]. split.
  - pose proof (raw_fields_nodup text doc_type) as Hnd.
    induction (raw_fields text doc_type) as [|[k v] l IH]; [constructor|].
    inversion Hnd as [|x l' Hnotin Hnd']; subst.
    unfold kept. simpl. fold (kept l).
    destruct (normalized k v); simpl; auto.
    constructor; auto. intros Hin. apply Hnotin.
    now apply keys_kept_incl in Hin.
  - intros rules Hr k Hk Hp.
    pose proof (registered_disjoint doc_type rules Hr) as Hnd.
    unfold PyDict.keys in *. rewrite map_app in Hnd.
    clear - Hnd Hk Hp.
    induction (map fst patterns) as [|x l IH]; [contradiction|].
    simpl in Hnd. inversion Hnd; subst.
    destruct Hp as [-> | Hp]; auto.
    apply H1. apply in_or_app. auto.
Qed.

Lemma X7_witness :
  extract_structured_data (fun _ => true) noon claim_text
                          (Some "insurance_claim")
  = Returns
      (MkResult (Some "2023-05-10T12:00:00") (Some "insurance_claim")
         (Some [("patient_name", VStr "responsibility");
                ("amount", VFloat (PyFloat.Num (Qmake 150 1)));
                ("patient_responsibility",
                 VFloat (PyFloat.Num (Qmake 20 1)))])
         (Some (MkReport false
                  ["Missing required field: member_id";
                   "Missing required field: date_of_service"] []))
         None).
Proof.
  assert (Ht : claim_text <> "") by discriminate.
  exact (proj1 (X7_pipeline_fields_in_table_order
                  (fun _ => true) noon claim_text (Some "insurance_claim") Ht)).
Defined.

(** ** Invariants of the extracted fields *)

Lemma in_selected (text : string) (rules : PyDict.dict Re.regex) (k v : string) :
  In (k, v) (selected text rules) ->
  exists r, In (k, r) rules /\ captured r text = Some v.
Proof.
  unfold selected. intros H. apply in_flat_map in H.
  destruct H as [[k1 r1] [Hin H]]. simpl in H.
  destruct (captured r1 text) as [v1|] eqn:E; [|contradiction].
  destruct H as [H | []]. inversion H; subst. eauto.
Qed.

Lemma captured_stripped (r : Re.regex) (text v : string) :
  captured r text = Some v -> strip v = v.
Proof.
  unfold captured. destruct (Re.search r text) as [m|]; [|discriminate].
  destruct (Re.group1 m); [|discriminate]. simpl.
  intros H. inversion H. apply StrFacts.strip_idem.
Qed.

Lemma raw_stripped (text : string) (doc_type : option string) (k v : string) :
  In (k, v) (raw_fields text doc_type) -> strip v = v.
Proof.
  unfold raw_fields. rewrite in_app_iff. intros [H | H].
  - apply in_selected in H. destruct H as [r [_ H]].
    now apply captured_stripped in H.
  - destruct (registered doc_type); [|contradiction].
    apply in_selected in H. destruct H as [r [_ H]].
    now apply captured_stripped in H.
Qed.

Lemma in_kept (fields : PyDict.dict string) (k : string) (v : value) :
  In (k, v) (kept fields) ->
  exists val, In (k, val) fields /\ normalized k val = Some v.
Proof.
  unfold kept. intros H. apply in_flat_map in H.
  destruct H as [[k1 v1] [Hin H]]. simpl in H.
  destruct (normalized k1 v1) as [x|] eqn:E; [|contradiction].
  destruct H as [H | []]. inversion H; subst. eauto.
Qed.

(** The normalised value of a stripped raw value is a float or a
    non-empty stripped string; for a name that is not numeric it is a
    string. *)
Lemma normalized_solid (k val : string) (x : value) :
  strip val = val -> normalized k val = Some x ->
  solid x /\ (is_numeric_key k = false ->
              exists s, x = VStr s /\ s <> "").
Proof.
  intros Hs. unfold normalized.
  destruct (is_empty val) eqn:Ev; [discriminate|].
  assert (Hne : val <> "") by (intros ->; discriminate).
  intros H. injection H as <-. unfold process_value. rewrite Hs.
  destruct (is_numeric_key k).
  - split; [|discriminate].
    destruct (PyFloat.float_of_str _); [left; eauto|].
    right. exists val. auto.
  - assert (Hgoal : exists s, (if is_date_key k then _parse_date val
                               else VStr val) = VStr s
                              /\ s <> "" /\ strip s = s).
    { destruct (is_date_key k); [|eauto].
      destruct (parse_date_cases val Hne) as [[fmt [dt [_ [_ H1]]]] | [_ H1]];
        rewrite H1; [|eauto].
      exists (PyDate.isoformat dt). split; auto. split.
      - pose proof (DateFacts.isoformat_shape dt) as Hi.
        destruct (PyDate.isoformat dt); discriminate.
      - apply StrFacts.strip_no_space. apply iso_shape_no_space.
        apply DateFacts.isoformat_shape. }
    destruct Hgoal as [s [-> [H1 H2]]]. split.
    + right. exists s. auto.
    + intros _. eauto.
Qed.

(** X8. In every result of the entry point each extracted field is a
    float or a non-empty string without surrounding white space: no
    [None] and no empty string ever appears among the extracted fields
    of a pipeline result. *)
Theorem X8_extracted_values_are_solid :
  forall (iso : string -> bool) (now : PyDate.datetime) (text : string)
         (doc_type : option string) (r : result) (k : string) (v : value),
    extract_structured_data iso now text doc_type = Returns r ->
    In (k, v) (fields_of r) ->
    solid v.
Proof.
  intros iso now text doc_type r k v Hrun Hin.
  destruct (is_empty text) eqn:Ht.
  - destruct text; [|discriminate]. inversion Hrun; subst r. contradiction.
  - rewrite entry_raw in Hrun by assumption. inversion Hrun; subst r.
    unfold fields_of in Hin. simpl in Hin.
    apply in_kept in Hin. destruct Hin as [val [Hin Hn]].
    apply raw_stripped in Hin.
    exact (proj1 (normalized_solid k val v Hin Hn)).
Qed.

Lemma X8_witness : solid (VStr "responsibility").
Proof.
  apply (X8_extracted_values_are_solid
           (fun _ => true) noon claim_text (Some "insurance_claim")
           (MkResult (Some "2023-05-10T12:00:00") (Some "insurance_claim")
              (Some [("patient_name", VStr "responsibility");
                     ("amount", VFloat (PyFloat.Num (Qmake 150 1)));
                     ("patient_responsibility",
                      VFloat (PyFloat.Num (Qmake 20 1)))])
              (Some (MkReport false
                       ["Missing required field: member_id";
                        "Missing required field: date_of_service"] []))
              None)
           "patient_name").
  - vm_compute. reflexivity.
  - simpl. left. reflexivity.
Defined.

Lemma get_app {V} (k : string) (a b : PyDict.dict V) :
  PyDict.get k (a ++ b)
  = match PyDict.get k a with
    | Some v => Some v
    | None => PyDict.get k b
    end.
Proof.
  induction a as [|[k1 v1] a IH]; simpl; auto.
  destruct (String.eqb k k1); auto.
Qed.

Lemma get_in {V} (k : string) (v : V) (dd : PyDict.dict V) :
  PyDict.get k dd = Some v -> In (k, v) dd.
Proof.
  induction dd as [|[k1 v1] dd IH]; simpl; [discriminate|].
  destruct (String.eqb k k1) eqn:E.
  - apply String.eqb_eq in E. intros H. inversion H; subst. now left.
  - intros H. right. auto.
Qed.

Lemma get_some_key {V} (k : string) (v : V) (dd : PyDict.dict V) :
  PyDict.get k dd = Some v -> In k (PyDict.keys dd).
Proof.
  intros H. apply get_in in H. unfold PyDict.keys.
  change k with (fst (k, v)). now apply in_map.
Qed.

Lemma get_kept (k : string) (fields : PyDict.dict string) :
  NoDup (PyDict.keys fields) ->
  PyDict.get k (kept fields)
  = match PyDict.get k fields with
    | Some val => normalized k val
    | None => None
    end.
Proof.
  intros Hnd. rewrite <- get_post_process by assumption.
  unfold _post_process_fields. now rewrite post_loop_kept.
Qed.

(** The raw value of a common field is what its rule captures. *)
Lemma get_raw_common (text : string) (doc_type : option string)
      (k : string) (r : Re.regex) :
  PyDict.get k patterns = Some r ->
  PyDict.get k (raw_fields text doc_type) = captured r text.
Proof.
  intros Hk. unfold raw_fields. rewrite get_app.
  rewrite get_selected by exact patterns_nodup. rewrite Hk.
  destruct (captured r text) as [v|]; auto.
  destruct (registered doc_type) as [rules|] eqn:Er; auto.
  destruct (PyDict.get k (selected text rules)) as [v|] eqn:E; auto.
  exfalso. apply get_some_key in E. apply keys_selected_incl in E.
  pose proof (registered_disjoint doc_type rules Er) as Hnd.
  apply get_some_key in Hk.
  unfold PyDict.keys in *. rewrite map_app in Hnd.
  clear - Hnd Hk E.
  induction (map fst patterns) as [|x l IH]; [contradiction|].
  simpl in Hnd. inversion Hnd; subst.
  destruct Hk as [-> | Hk]; auto.
  apply H1. apply in_or_app. auto.
Qed.

Lemma get_rule_in (k : string) (r : Re.regex) (rules : PyDict.dict Re.regex) :
  PyDict.get k rules = Some r -> rules_ok rules = true ->
  rules_black rules = true ->
  ReSem.is_rule r = true /\ ReFirst.black1 (ReSem.rule_body r) = true.
Proof.
  intros Hk Hok Hb. apply get_in in Hk.
  unfold rules_ok, rules_black in *. rewrite forallb_forall in Hok, Hb.
  split; [exact (Hok _ Hk) | exact (Hb _ Hk)].
Qed.

(** X9. Every common rule captures a value that starts with a character
    that is not white space, so a common field is never dropped: for a
    non-empty text and any doc_type, a common field is among the
    extracted fields of the result exactly when its rule matches
    somewhere in the text. *)
Theorem X9_common_field_present_iff_rule_matches :
  forall (iso : string -> bool) (now : PyDate.datetime) (text : string)
         (doc_type : option string) (k : string) (rule : Re.regex),
    text <> "" ->
    PyDict.get k patterns = Some rule ->
    exists r,
      extract_structured_data iso now text doc_type = Returns r
      /\ ((exists v, PyDict.get k (fields_of r) = Some v)
          <-> exists m, Re.search rule text = Some m).
Proof.
  intros iso now text doc_type k rule Ht Hk. apply is_empty_false in Ht.
  eexists. split; [apply entry_raw; assumption|].
  unfold fields_of. simpl.
  rewrite get_kept by apply raw_fields_nodup.
  rewrite (get_raw_common text doc_type k rule Hk).
  destruct (get_rule_in k rule patterns Hk patterns_ok patterns_black) as [Hr Hb].
  split.
  - intros [v Hv]. unfold captured in Hv.
    destruct (Re.search rule text) as [m|]; [eauto | discriminate].
  - intros [m Hm].
    destruct (captured_matched rule text m Hr Hm) as [g [_ [_ Hc]]].
    rewrite Hc.
    pose proof (FirstFacts.captured_nonempty rule text (strip g) Hr Hb Hc) as Hne.
    unfold normalized. rewrite (is_empty_false _ Hne). eauto.
Qed.

Lemma X9_witness :
  exists r,
    extract_structured_data (fun _ => true) noon "Member ID: A1" None
    = Returns r
    /\ ((exists v, PyDict.get "member_id" (fields_of r) = Some v)
        <-> exists m, Re.search member_id_re "Member ID: A1" = Some m).
Proof.
  assert (Ht : "Member ID: A1" <> "") by discriminate.
  exact (X9_common_field_present_iff_rule_matches
           (fun _ => true) noon "Member ID: A1" None "member_id" member_id_re
           Ht eq_refl).
Defined.

Lemma required_not_numeric (doc_type : option string) (f : string) :
  In f (spec_required doc_type) -> is_numeric_key f = false.
Proof.
  unfold spec_required. destruct doc_type as [dt|]; [|contradiction].
  destruct (String.eqb dt "insurance_claim");
    [|destruct (String.eqb dt "prescription");
      [|destruct (String.eqb dt "medical_report")]];
    simpl; intros H;
    repeat (destruct H as [H | H]; [subst f; reflexivity|]); contradiction.
Qed.

(** X10. For a non-empty text the result is valid exactly when every
    field required for the doc_type was extracted with a value that is
    not empty: validity depends on the rules' matches alone, never on
    how a value normalises. *)
Theorem X10_valid_iff_required_fields_extracted :
  forall (iso : string -> bool) (now : PyDate.datetime) (text : string)
         (doc_type : option string),
    text <> "" ->
    exists r rep,
      extract_structured_data iso now text doc_type = Returns r
      /\ validation r = Some rep
      /\ (is_valid rep = true
          <-> forall f, In f (required_of doc_type) ->
                exists v, PyDict.get f (raw_fields text doc_type) = Some v
                          /\ v <> "").
Proof.
  intros iso now text doc_type Ht. apply is_empty_false in Ht.
  unfold required_of. rewrite required_fields_spec.
  eexists. eexists. split; [apply entry_raw; assumption|].
  split; [reflexivity|].
  rewrite validate_is_valid, forallb_forall.
  assert (Hm : forall f, In f (spec_required doc_type) ->
             (negb (missing (kept (raw_fields text doc_type)) f) = true
              <-> exists v, PyDict.get f (raw_fields text doc_type) = Some v
                            /\ v <> "")).
  { intros f Hf. unfold missing.
    rewrite get_kept by apply raw_fields_nodup.
    destruct (PyDict.get f (raw_fields text doc_type)) as [val|] eqn:Eg.
    - pose proof (raw_stripped text doc_type f val (get_in _ _ _ Eg)) as Hs.
      destruct (normalized f val) as [x|] eqn:En.
      + destruct (normalized_solid f val x Hs En) as [_ Hx].
        destruct (Hx (required_not_numeric doc_type f Hf)) as [s [-> Hne]].
        simpl. unfold nonempty. rewrite (is_empty_false s Hne). simpl.
        split; auto. intros _. exists val. split; auto.
        intros ->. discriminate.
      + simpl. split; [discriminate|].
        intros [v [Hv Hne]]. inversion Hv; subst v.
        unfold normalized in En. now rewrite (is_empty_false val Hne) in En.
    - simpl. split; [discriminate|]. intros [v [Hv _]]. discriminate. }
  split.
  - intros H f Hf. apply Hm; auto.
  - intros H f Hf. apply Hm; auto.
Qed.

Lemma X10_witness :
  exists r rep,
    extract_structured_data (fun _ => true) noon "Patient: Ann"
                            (Some "medical_report") = Returns r
    /\ validation r = Some rep
    /\ (is_valid rep = true
        <-> forall f, In f (required_of (Some "medical_report")) ->
              exists v, PyDict.get f (raw_fields "Patient: Ann"
                                        (Some "medical_report")) = Some v
                        /\ v <> "").
Proof.
  assert (Ht : "Patient: Ann" <> "") by discriminate.
  exact (X10_valid_iff_required_fields_extracted
           (fun _ => true) noon "Patient: Ann" (Some "medical_report") Ht).
Defined.

Lemma strptime_valid (s fmt : string) (dt : PyDate.date) :
  PyDate.strptime s fmt = Ok dt ->
  exists y m d, PyDate.make_date y m d = Ok dt.
Proof.
  unfold PyDate.strptime.
  destruct (PyDate.parse_format fmt) as [f|]; [|discriminate].
  destruct (PyDate.format_matches f s) as [|[found rest] l]; [discriminate|].
  destruct (is_empty rest); [|discriminate].
  destruct (PyDate.assign found 1900%Z 1%Z 1%Z) as [[y m] d]. eauto.
Qed.

(** X11. When [datetime.fromisoformat] accepts the ISO text of every
    calendar date, a result only warns about date fields that no format
    of the list could parse: each warning names a date field whose
    value is the rule's capture, unchanged. *)
Theorem X11_warnings_only_for_unparsed_dates :
  forall (iso : string -> bool) (now : PyDate.datetime) (text : string)
         (doc_type : option string) (r : result) (rep : report) (w : string),
    (forall y m d dt, PyDate.make_date y m d = Ok dt ->
                      iso (PyDate.isoformat dt) = true) ->
    extract_structured_data iso now text doc_type = Returns r ->
    validation r = Some rep ->
    In w (warnings rep) ->
    exists k v,
      In (k, v) (raw_fields text doc_type)
      /\ is_date_key k = true
      /\ (forall fmt, In fmt date_formats ->
                      exists e, PyDate.strptime v fmt = Raise e)
      /\ In (k, VStr v) (fields_of r)
      /\ w = date_message k v.
Proof.
  intros iso now text doc_type r rep w Hiso Hrun Hval Hw.
  destruct (is_empty text) eqn:Ht.
  - destruct text; [|discriminate]. inversion Hrun; subst r. discriminate.
  - rewrite entry_raw in Hrun by assumption. inversion Hrun; subst r.
    simpl in Hval. injection Hval as <-.
    unfold _validate_extracted_data in Hw. rewrite check_dates_warnings in Hw.
    assert (Hnil : forall v0 : report,
               v0 = MkReport true [] [] \/
               (exists req, v0 = check_required
                                   (kept (raw_fields text doc_type)) req
                                   (MkReport true [] [])) ->
               warnings v0 = []).
    { intros v0 [-> | [req ->]]; auto.
      now destruct (check_required_errors
                      (kept (raw_fields text doc_type)) req
                      (MkReport true [] [])) as [_ ->]. }
    rewrite Hnil in Hw
      by (destruct doc_type as [dt|]; auto;
          destruct (PyDict.get dt required_fields); eauto).
    simpl in Hw. unfold date_warnings in Hw. apply in_flat_map in Hw.
    destruct Hw as [[k x] [Hin Hw]]. simpl in Hw.
    destruct x as [s| |]; try contradiction.
    destruct (is_date_key k && negb (iso s)) eqn:E; [|contradiction].
    apply andb_prop in E. destruct E as [Hk Hrej].
    apply negb_true_iff in Hrej. destruct Hw as [<- | []].
    pose proof Hin as Hin'.
    apply in_kept in Hin. destruct Hin as [val [Hraw Hn]].
    pose proof (raw_stripped text doc_type k val Hraw) as Hs.
    assert (Hne : val <> "").
    { intros ->. discriminate. }
    rewrite normalized_date in Hn by assumption. rewrite Hs in Hn.
    injection Hn as Hn.
    destruct (parse_date_cases val Hne) as [[fmt [dt [_ [Hp H1]]]] | [Hall H1]];
      rewrite H1 in Hn; injection Hn as <-.
    + exfalso. destruct (strptime_valid _ _ _ Hp) as [y [m [d Hd]]].
      rewrite (Hiso y m d dt Hd) in Hrej. discriminate.
    + exists k, val. unfold fields_of. simpl. auto.
Qed.

Lemma X11_witness :
  exists k v,
    In (k, v) (raw_fields "DOB: 13/45/2020" None)
    /\ is_date_key k = true
    /\ (forall fmt, In fmt date_formats ->
                    exists e, PyDate.strptime v fmt = Raise e)
    /\ "Invalid date format for date_of_birth: 13/45/2020" = date_message k v.
Proof.
  destruct (X11_warnings_only_for_unparsed_dates
              DateShape.iso_shape noon "DOB: 13/45/2020" None
              (MkResult (Some "2023-05-10T12:00:00") (Some "unknown")
                 (Some [("date_of_birth", VStr "13/45/2020")])
                 (Some (MkReport true []
                          ["Invalid date format for date_of_birth: 13/45/2020"]))
                 None)
              (MkReport true []
                 ["Invalid date format for date_of_birth: 13/45/2020"])
              "Invalid date format for date_of_birth: 13/45/2020"
              (fun y m d dt _ => DateFacts.isoformat_shape dt)
              eq_refl eq_refl (or_introl eq_refl))
    as [k [v [H1 [H2 [H3 [_ H4]]]]]].
  exists k, v. auto.
Defined.

(** ** [_parse_date] on the texts the date rules capture *)

Module DateTextFacts.
Import PyDate DateText CharSets CharFacts DateShape DateFacts.
Local Open Scope char_scope.

Lemma sep_cases (c : ascii) : sep c = true -> c = "/" \/ c = "-".
Proof.
  unfold sep. intros H. apply orb_prop in H.
  destruct H as [H | H]; apply Ascii.eqb_eq in H; auto.
Qed.

Lemma sep_not_digit (c : ascii) : sep c = true -> Re.cset_mem Re.CDigit c = false.
Proof. intros H. destruct (sep_cases c H); subst; reflexivity. Qed.

(** A text of one or two digits, in its characters. *)
Lemma digit_text_12 (s : string) :
  digit_text 1 2 s = true ->
  (exists a, s = String a "" /\ In a digit_chars)
  \/ (exists a b, s = String a (String b "") /\ In a digit_chars
                  /\ In b digit_chars).
Proof.
  unfold digit_text. intros H. apply andb_prop in H. destruct H as [H Hhi].
  apply andb_prop in H. destruct H as [Hd Hlo].
  destruct s as [|a [|b [|c s]]]; simpl in *; try discriminate.
  - left. exists a. apply andb_prop in Hd. destruct Hd as [Ha _].
    split; auto. now apply digit_cases.
  - right. exists a, b. apply andb_prop in Hd. destruct Hd as [Ha Hb].
    apply andb_prop in Hb. destruct Hb as [Hb _].
    repeat split; auto; now apply digit_cases.
Qed.

Lemma format_matches_dir (x : directive) (f : list fmt_item) (s : string) :
  format_matches (Dir x :: f) s
  = flat_map (fun m => map (fun fr => ((x, fst m) :: fst fr, snd fr))
                           (format_matches f (snd m)))
             (directive_matches x s).
Proof. reflexivity. Qed.

Ltac each_digit H :=
  simpl in H;
  repeat (destruct H as [H | H]; [subst | ]); [.. | contradiction].

Ltac settle_step :=
  match goal with
  | |- _ = if ?b then _ else _ =>
      let v := eval vm_compute in b in change b with v
  end;
  rewrite format_matches_dir; cbv [directive_matches directive_re flat_map];
  simpl; rewrite ?app_nil_r; reflexivity.

(** [%m] or [%d] followed by a separator, against one or two digits
    followed by a separator: the digits are taken when the separators
    agree and the number is one the directive accepts, and there is no
    match otherwise. *)
Lemma md_step (x : directive) (c c' : ascii) (f : list fmt_item)
      (ms rest : string) :
  x = Dm \/ x = Dd -> sep c = true -> sep c' = true ->
  digit_text 1 2 ms = true ->
  format_matches (Dir x :: Lit c' :: f) (ms ++ String c rest)
  = if Ascii.eqb c c' && dir_ok x (py_int ms)
    then map (fun fr => ((x, ms) :: fst fr, snd fr)) (format_matches f rest)
    else [].
Proof.
  intros Hx Hc Hc' Hms.
  apply sep_cases in Hc, Hc'. apply digit_text_12 in Hms.
  destruct Hms as [[a [-> Ha]] | [a [b [-> [Ha Hb]]]]].
  - destruct Hx; subst x; destruct Hc; subst c; destruct Hc'; subst c';
      each_digit Ha; settle_step.
  - destruct Hx; subst x; destruct Hc; subst c; destruct Hc'; subst c';
      each_digit Ha; each_digit Hb; settle_step.
Qed.

(** A text of two to four digits, in its characters. *)
Lemma digit_text_24 (s : string) :
  digit_text 2 4 s = true ->
  exists a b t, s = String a (String b t)
    /\ is_digit a = true /\ is_digit b = true
    /\ (t = "" \/ (exists c, t = String c "" /\ is_digit c = true)
        \/ (exists c e, t = String c (String e "")
                        /\ is_digit c = true /\ is_digit e = true))%string.
Proof.
  unfold digit_text. intros H. apply andb_prop in H. destruct H as [H Hhi].
  apply andb_prop in H. destruct H as [Hd Hlo].
  destruct s as [|a [|b t]]; simpl in *; try discriminate.
  apply andb_prop in Hd. destruct Hd as [Ha Hd].
  apply andb_prop in Hd. destruct Hd as [Hb Hd].
  exists a, b, t. repeat split; auto.
  destruct t as [|c [|e [|x t]]]; simpl in *; try discriminate.
  - now left.
  - right. left. exists c. apply andb_prop in Hd. tauto.
  - right. right. exists c, e. apply andb_prop in Hd. destruct Hd as [Hc Hd].
    apply andb_prop in Hd. tauto.
Qed.

(** The year directive at the end of a format, against a text of two
    to four digits: it takes all of the text when the text has the
    number of digits of the directive; otherwise there is no match, or
    text is left over. *)
Lemma year_stage (x : directive) (ys : string) :
  x = DY \/ x = Dy -> digit_text 2 4 ys = true ->
  if Nat.eqb (String.length ys) (year_len x)
  then format_matches [Dir x] ys = [([(x, ys)], EmptyString)]
  else format_matches [Dir x] ys = []
       \/ exists found rest,
            format_matches [Dir x] ys = [(found, rest)]
            /\ is_empty rest = false.
Proof.
  intros Hx Hys. apply digit_text_24 in Hys.
  destruct Hys as [a [b [t [-> [Ha [Hb Ht]]]]]].
  destruct Ht as [-> | [[c [-> Hc]] | [c [e [-> [Hc He]]]]]];
    destruct Hx; subst x; simpl Nat.eqb; cbv iota;
    rewrite format_matches_dir;
    cbv [directive_matches directive_re flat_map match_classes r09];
    rewrite ?digit_cset by assumption; simpl; eauto.
Qed.

Lemma days_in_month_le (y m : Z) : (days_in_month y m <= 31)%Z.
Proof.
  unfold days_in_month.
  repeat match goal with
         | |- context [if ?b then _ else _] => destruct b
         end; lia.
Qed.

(** A month or a day the directives refuse is no date of the calendar. *)
Lemma make_date_refused (y m d : Z) :
  dir_ok Dm m && dir_ok Dd d = false -> exists e, make_date y m d = Raise e.
Proof.
  intros H. unfold make_date.
  destruct (negb ((1 <=? y) && (y <=? 9999))%Z); eauto.
  destruct (negb ((1 <=? m) && (m <=? 12))%Z) eqn:Em; eauto.
  destruct (negb ((1 <=? d) && (d <=? days_in_month y m))%Z) eqn:Ed; eauto.
  exfalso. apply negb_false_iff in Em, Ed.
  unfold dir_ok in H. rewrite Em in H. simpl in H.
  apply andb_prop in Ed. destruct Ed as [E1 E2].
  rewrite E1 in H. simpl in H.
  pose proof (days_in_month_le y m). lia.
Qed.

Lemma same_outcome_raise (a : res date) (b : res date) :
  (exists e, a = Raise e) -> (exists e, b = Raise e) -> same_outcome a b.
Proof. intros [e ->] [e' ->]. exact I. Qed.

(** [strptime] with a month-first format, on a month-first text. *)
Lemma strptime_month_first (fmt : string) (c' : ascii) (x : directive)
      (ms : string) (c1 : ascii) (ds : string) (c2 : ascii) (ys : string) :
  parse_format fmt = Some [Dir Dm; Lit c'; Dir Dd; Lit c'; Dir x] ->
  x = DY \/ x = Dy -> sep c' = true ->
  digit_text 1 2 ms = true -> sep c1 = true ->
  digit_text 1 2 ds = true -> sep c2 = true ->
  digit_text 2 4 ys = true ->
  same_outcome
    (strptime (date_text ms c1 ds c2 ys) fmt)
    (if Ascii.eqb c1 c' && Ascii.eqb c2 c'
        && Nat.eqb (String.length ys) (year_len x)
     then make_date (year_val x ys) (py_int ms) (py_int ds)
     else Raise (ValueError "")).
Proof.
  intros Hf Hx Hc' Hms Hc1 Hds Hc2 Hys.
  unfold strptime, date_text. rewrite Hf.
  rewrite (md_step Dm c1 c') by auto.
  destruct (Ascii.eqb c1 c'); [|exact I]. cbn [andb].
  destruct (dir_ok Dm (py_int ms)) eqn:Em.
  2:{ apply same_outcome_raise; [cbn; eauto|].
      destruct (Ascii.eqb c2 c' && Nat.eqb (String.length ys) (year_len x));
        eauto.
      apply make_date_refused. now rewrite Em. }
  rewrite (md_step Dd c2 c') by auto.
  destruct (Ascii.eqb c2 c'); [|exact I]. cbn [andb].
  destruct (dir_ok Dd (py_int ds)) eqn:Ed.
  2:{ apply same_outcome_raise; [cbn; eauto|].
      destruct (Nat.eqb (String.length ys) (year_len x)); eauto.
      apply make_date_refused. rewrite Ed. apply andb_false_r. }
  pose proof (year_stage x ys Hx Hys) as Hy.
  destruct (Nat.eqb (String.length ys) (year_len x)).
  - rewrite Hy. cbn [map fst snd is_empty].
    destruct Hx; subst x; cbn [assign year_val];
      destruct (make_date _ (py_int ms) (py_int ds)); simpl; auto.
  - destruct Hy as [-> | [found [rest [-> Hr]]]]; cbn [map fst snd]; [exact I|].
    rewrite Hr. exact I.
Qed.

(** [%Y-%m-%d] needs four digits at the front. *)
Lemma strptime_year_first (ms : string) (c1 : ascii) (ds : string) (c2 : ascii)
      (ys : string) :
  digit_text 1 2 ms = true -> sep c1 = true ->
  exists e, strptime (date_text ms c1 ds c2 ys) "%Y-%m-%d" = Raise e.
Proof.
  intros Hms Hc1. unfold strptime, date_text.
  change (parse_format "%Y-%m-%d") with (Some f_Ymd). unfold f_Ymd.
  rewrite format_matches_dir.
  assert (E : directive_matches DY (ms ++ String c1 (ds ++ String c2 ys)) = []).
  { apply digit_text_12 in Hms.
    pose proof (sep_not_digit c1 Hc1) as Hn.
    destruct Hms as [[a [-> _]] | [a [b [-> _]]]];
      cbv [directive_matches directive_re flat_map r09]; simpl.
    - destruct (Re.cset_mem Re.CDigit a); auto. now rewrite Hn.
    - destruct (Re.cset_mem Re.CDigit a); auto.
      destruct (Re.cset_mem Re.CDigit b); auto. now rewrite Hn. }
  rewrite E. simpl. eauto.
Qed.

Lemma try_formats_step (s fmt : string) (fmts : list string) (r : res date) :
  same_outcome (strptime s fmt) r ->
  try_formats s (fmt :: fmts)
  = match r with
    | Ok dt => Some (isoformat dt)
    | Raise _ => try_formats s fmts
    end.
Proof.
  simpl. destruct (strptime s fmt), r; simpl; intros H;
    try contradiction; congruence.
Qed.

Lemma year_val_century (ys : string) :
  year_val Dy ys = century (py_int ys).
Proof.
  unfold year_val, century. destruct (py_int ys <=? 68)%Z; lia.
Qed.

Lemma date_text_nonempty (ms : string) (c1 : ascii) (ds : string) (c2 : ascii)
      (ys : string) :
  is_empty (date_text ms c1 ds c2 ys) = false.
Proof. unfold date_text. destruct ms; reflexivity. Qed.

(** The loop over the formats, on a month-first text. *)
Lemma try_formats_date_text (ms : string) (c1 : ascii) (ds : string)
      (c2 : ascii) (ys : string) :
  digit_text 1 2 ms = true -> sep c1 = true ->
  digit_text 1 2 ds = true -> sep c2 = true ->
  digit_text 2 4 ys = true ->
  try_formats (date_text ms c1 ds c2 ys) date_formats
  = option_map isoformat (date_of ms c1 ds c2 ys).
Proof.
  intros Hms Hc1 Hds Hc2 Hys.
  pose proof (fun fmt c' x Hf Hx Hc' =>
                strptime_month_first fmt c' x ms c1 ds c2 ys
                  Hf Hx Hc' Hms Hc1 Hds Hc2 Hys) as S.
  pose proof (S "%m/%d/%Y"%string "/" DY eq_refl (or_introl eq_refl) eq_refl) as S1.
  pose proof (S "%m-%d-%Y"%string "-" DY eq_refl (or_introl eq_refl) eq_refl) as S2.
  pose proof (S "%m/%d/%y"%string "/" Dy eq_refl (or_intror eq_refl) eq_refl) as S4.
  pose proof (S "%m-%d-%y"%string "-" Dy eq_refl (or_intror eq_refl) eq_refl) as S5.
  destruct (strptime_year_first ms c1 ds c2 ys Hms Hc1) as [e3 S3].
  clear S. rewrite year_val_century in S4, S5. unfold date_formats.
  rewrite (try_formats_step _ _ _ _ S1), (try_formats_step _ _ _ _ S2).
  assert (T3 : forall fmts,
             try_formats (date_text ms c1 ds c2 ys) ("%Y-%m-%d"%string :: fmts)
             = try_formats (date_text ms c1 ds c2 ys) fmts).
  { intros fmts. simpl. now rewrite S3. }
  rewrite T3.
  rewrite (try_formats_step _ _ _ _ S4), (try_formats_step _ _ _ _ S5).
  clear S1 S2 S3 T3 S4 S5.
  unfold date_of, year_of, year_val.
  apply digit_text_24 in Hys.
  destruct Hys as [a [b [t [-> [_ [_ Ht]]]]]].
  apply sep_cases in Hc1, Hc2.
  destruct Ht as [-> | [[c [-> _]] | [c [e [-> _]]]]];
    destruct Hc1; subst c1; destruct Hc2; subst c2; simpl;
    repeat match goal with
           | |- context [make_date ?y ?m ?d] =>
               destruct (make_date y m d); simpl
           end;
    try reflexivity.
Qed.

End DateTextFacts.

(** X12.  A text of one or two digits, a separator [/] or [-], one or
    two digits, a separator and two to four digits, which is what the
    date rules capture, is rewritten by [_parse_date] to the ISO text of
    the date it stands for, month first, when the two separators are
    the same, the year has four digits, or two digits read as 2000 to
    2068 and 1969 to 1999, and the numbers are a date of the calendar;
    every other such text is returned as it is. *)
Theorem X12_parse_date_on_captured_dates
        (ms : string) (c1 : ascii) (ds : string) (c2 : ascii) (ys : string) :
  DateText.digit_text 1 2 ms = true -> DateText.sep c1 = true ->
  DateText.digit_text 1 2 ds = true -> DateText.sep c2 = true ->
  DateText.digit_text 2 4 ys = true ->
  _parse_date (DateText.date_text ms c1 ds c2 ys)
  = VStr match DateText.date_of ms c1 ds c2 ys with
         | Some dt => PyDate.isoformat dt
         | None => DateText.date_text ms c1 ds c2 ys
         end.
Proof.
  intros Hms Hc1 Hds Hc2 Hys. unfold _parse_date.
  rewrite DateTextFacts.date_text_nonempty.
  rewrite DateTextFacts.try_formats_date_text by assumption.
  destruct (DateText.date_of ms c1 ds c2 ys); reflexivity.
Qed.

Lemma X12_witness :
  _parse_date "2/29/24" = VStr "2024-02-29"
  /\ _parse_date "2/29/23" = VStr "2/29/23"
  /\ _parse_date "12-31-69" = VStr "1969-12-31"
  /\ _parse_date "1/5-2020" = VStr "1/5-2020"
  /\ _parse_date "01/15/980" = VStr "01/15/980".
Proof.
  exact (conj (X12_parse_date_on_captured_dates "2" "/" "29" "/" "24"
                 eq_refl eq_refl eq_refl eq_refl eq_refl)
        (conj (X12_parse_date_on_captured_dates "2" "/" "29" "/" "23"
                 eq_refl eq_refl eq_refl eq_refl eq_refl)
        (conj (X12_parse_date_on_captured_dates "12" "-" "31" "-" "69"
                 eq_refl eq_refl eq_refl eq_refl eq_refl)
        (conj (X12_parse_date_on_captured_dates "1" "/" "5" "-" "2020"
                 eq_refl eq_refl eq_refl eq_refl eq_refl)
              (X12_parse_date_on_captured_dates "01" "/" "15" "/" "980"
                 eq_refl eq_refl eq_refl eq_refl eq_refl))))).
Defined.

(** ** What the date rules capture *)

Module CaptureFacts.
Import Re ReSem DateText CharSets.

Lemma iter_chr (cs : cset) (n : nat) (w s : string) (c c' : capture) :
  Iter (M (Chr cs)) n w s c c' ->
  String.length w = n /\ all_chars (cset_mem cs) w = true.
Proof.
  induction 1 as [|n w1 w2 s c c1 c2 H1 _ [IHl IHc]]; [auto|].
  destruct H1 as [a [-> [Ha _]]]. simpl. rewrite Ha, IHc. auto.
Qed.

Lemma rep_digits (lo hi : nat) (w s : string) (c c' : capture) :
  M (rep lo hi d) w s c c' -> digit_text lo hi w = true.
Proof.
  intros [n [Hlo [Hhi H]]]. apply iter_chr in H. destruct H as [Hl Hc].
  unfold digit_text. rewrite Hl.
  rewrite (StrFacts.all_chars_impl _ is_digit w CharFacts.cset_digit Hc).
  simpl in Hhi. simpl.
  apply andb_true_iff. split; apply Nat.leb_le; assumption.
Qed.

Lemma slash_dash_sep (a : ascii) :
  cset_mem slash_dash a = true -> sep a = true.
Proof. destruct a as [[] [] [] [] [] [] [] []]; vm_compute; auto. Qed.

(** A word of [\d{1,2}[/-]\d{1,2}[/-]\d{2,4}], in its parts. *)
Lemma numeric_date_shape (g t : string) (c0 c1 : capture) :
  M numeric_date g t c0 c1 ->
  exists ms s1 ds s2 ys,
    g = date_text ms s1 ds s2 ys
    /\ digit_text 1 2 ms = true /\ sep s1 = true
    /\ digit_text 1 2 ds = true /\ sep s2 = true
    /\ digit_text 2 4 ys = true.
Proof.
  unfold numeric_date. cbn [seq].
  intros [ms [g1 [k1 [-> [Hms H]]]]].
  destruct H as [x1 [g2 [k2 [-> [[s1 [-> [Hs1 _]]] H]]]]].
  destruct H as [ds [g3 [k3 [-> [Hds H]]]]].
  destruct H as [x2 [ys [k4 [-> [[s2 [-> [Hs2 _]]] Hys]]]]].
  exists ms, s1, ds, s2, ys. unfold date_text. simpl.
  repeat split; eauto using rep_digits, slash_dash_sep.
Qed.

Lemma sep_not_space (c : ascii) : sep c = true -> not_space c = true.
Proof.
  intros H. destruct (DateTextFacts.sep_cases c H); subst; reflexivity.
Qed.

Lemma digit_text_no_space (lo hi : nat) (s : string) :
  digit_text lo hi s = true -> all_chars not_space s = true.
Proof.
  unfold digit_text. intros H. apply andb_prop in H. destruct H as [H _].
  apply andb_prop in H. destruct H as [H _].
  apply (StrFacts.all_chars_impl is_digit); auto.
  intros c Hc. unfold not_space. now rewrite CharFacts.digit_not_space.
Qed.

Lemma date_text_no_space (ms : string) (s1 : ascii) (ds : string) (s2 : ascii)
      (ys : string) :
  digit_text 1 2 ms = true -> sep s1 = true ->
  digit_text 1 2 ds = true -> sep s2 = true ->
  digit_text 2 4 ys = true ->
  all_chars not_space (date_text ms s1 ds s2 ys) = true.
Proof.
  intros Hms Hs1 Hds Hs2 Hys. unfold date_text.
  rewrite StrFacts.all_chars_app. simpl. rewrite StrFacts.all_chars_app. simpl.
  rewrite (digit_text_no_space _ _ _ Hms), (digit_text_no_space _ _ _ Hds),
    (digit_text_no_space _ _ _ Hys), (sep_not_space _ Hs1), (sep_not_space _ Hs2).
  reflexivity.
Qed.

(** What a rule with the body [numeric_date] captures. *)
Lemma captured_date (r : regex) (text v : string) :
  is_rule r = true -> rule_body r = numeric_date ->
  captured r text = Some v ->
  exists ms s1 ds s2 ys,
    v = date_text ms s1 ds s2 ys
    /\ digit_text 1 2 ms = true /\ sep s1 = true
    /\ digit_text 1 2 ds = true /\ sep s2 = true
    /\ digit_text 2 4 ys = true.
Proof.
  intros Hr Hb. unfold captured.
  destruct (search r text) as [m|] eqn:Es; [|discriminate].
  destruct (ReFacts.search_sound _ _ _ Es) as [pre [s' [_ HM]]].
  destruct (ReFacts.rule_capture _ _ _ _ Hr HM) as [g [t [c0 [c1 [Hg Hbody]]]]].
  rewrite Hg, Hb in *. simpl. intros Hv. inversion Hv; subst. clear Hv.
  destruct (numeric_date_shape _ _ _ _ Hbody)
    as [ms [s1 [ds [s2 [ys [-> [Hms [Hs1 [Hds [Hs2 Hys]]]]]]]]]].
  exists ms, s1, ds, s2, ys.
  rewrite StrFacts.strip_no_space by now apply date_text_no_space.
  auto 10.
Qed.

End CaptureFacts.

(** X13.  For a non-empty text, the field [date_of_birth] (and likewise
    [date_of_service]) of the result is present exactly when the rule
    captures something, and what it captures is a month-first text of
    one or two digits, a separator, one or two digits, a separator and
    two to four digits; the field then holds the ISO text of the date the
    capture stands for, or the capture itself when it stands for no
    date. *)
Theorem X13_date_fields_of_the_result :
  forall (iso : string -> bool) (now : PyDate.datetime) (text : string)
         (doc_type : option string) (k : string) (rule : Re.regex),
    text <> "" ->
    In (k, rule) [("date_of_birth", date_of_birth_re);
                  ("date_of_service", date_of_service_re)] ->
    exists r,
      extract_structured_data iso now text doc_type = Returns r
      /\ match captured rule text with
         | None => PyDict.get k (fields_of r) = None
         | Some g =>
             exists ms s1 ds s2 ys,
               g = DateText.date_text ms s1 ds s2 ys
               /\ DateText.digit_text 1 2 ms = true /\ DateText.sep s1 = true
               /\ DateText.digit_text 1 2 ds = true /\ DateText.sep s2 = true
               /\ DateText.digit_text 2 4 ys = true
               /\ PyDict.get k (fields_of r)
                  = Some (VStr match DateText.date_of ms s1 ds s2 ys with
                               | Some dt => PyDate.isoformat dt
                               | None => g
                               end)
         end.
Proof.
  intros iso now text doc_type k rule Ht Hk. apply is_empty_false in Ht.
  eexists. split; [apply entry_raw; assumption|].
  unfold fields_of. simpl.
  rewrite get_kept by apply raw_fields_nodup.
  assert (Hfacts : PyDict.get k patterns = Some rule
                   /\ ReSem.is_rule rule = true
                   /\ ReSem.rule_body rule = numeric_date
                   /\ is_date_key k = true).
  { destruct Hk as [Hk | [Hk | []]]; inversion Hk; subst;
      repeat split; reflexivity. }
  destruct Hfacts as [Hget [Hr [Hb Hd]]].
  rewrite (get_raw_common text doc_type k rule Hget).
  destruct (captured rule text) as [g|] eqn:Ec; [|reflexivity].
  destruct (CaptureFacts.captured_date rule text g Hr Hb Ec)
    as [ms [s1 [ds [s2 [ys [-> [Hms [Hs1 [Hds [Hs2 Hys]]]]]]]]]].
  exists ms, s1, ds, s2, ys. repeat (split; [assumption || reflexivity|]).
  assert (Hne : DateText.date_text ms s1 ds s2 ys <> "").
  { intros E. pose proof (DateTextFacts.date_text_nonempty ms s1 ds s2 ys) as N.
    rewrite E in N. discriminate. }
  rewrite (normalized_date k _ Hd Hne).
  rewrite StrFacts.strip_no_space
    by now apply CaptureFacts.date_text_no_space.
  unfold _parse_date. rewrite DateTextFacts.date_text_nonempty.
  rewrite DateTextFacts.try_formats_date_text by assumption.
  destruct (DateText.date_of ms s1 ds s2 ys); reflexivity.
Qed.

Lemma X13_witness :
  exists r,
    extract_structured_data (fun _ => true) noon "DOB: 2/29/24" None = Returns r
    /\ match captured date_of_birth_re "DOB: 2/29/24" with
       | None => PyDict.get "date_of_birth" (fields_of r) = None
       | Some g =>
           exists ms s1 ds s2 ys,
             g = DateText.date_text ms s1 ds s2 ys
             /\ DateText.digit_text 1 2 ms = true /\ DateText.sep s1 = true
             /\ DateText.digit_text 1 2 ds = true /\ DateText.sep s2 = true
             /\ DateText.digit_text 2 4 ys = true
             /\ PyDict.get "date_of_birth" (fields_of r)
                = Some (VStr match DateText.date_of ms s1 ds s2 ys with
                             | Some dt => PyDate.isoformat dt
                             | None => g
                             end)
       end.
Proof.
  assert (Ht : "DOB: 2/29/24" <> "") by discriminate.
  exact (X13_date_fields_of_the_result
           (fun _ => true) noon "DOB: 2/29/24" None
           "date_of_birth" date_of_birth_re Ht (or_introl eq_refl)).
Defined.

(** ** [_determine_document_type] *)

Module LabelFacts.

Lemma lower_char_idem (c : ascii) : lower_char (lower_char c) = lower_char c.
Proof. destruct c as [[] [] [] [] [] [] [] []]; reflexivity. Qed.

Lemma lower_idem (s : string) : lower (lower s) = lower s.
Proof.
  induction s as [|c s IH]; simpl; auto. now rewrite lower_char_idem, IH.
Qed.

Lemma lower_app (a b : string) : lower (a ++ b) = (lower a ++ lower b)%string.
Proof. induction a as [|c a IH]; simpl; auto. now rewrite IH. Qed.

Lemma prefix_app (sub b : string) : prefix sub (sub ++ b) = true.
Proof.
  induction sub as [|c sub IH]; simpl; [now destruct b|].
  destruct (ascii_dec c c); [exact IH | congruence].
Qed.

Lemma contains_prefix (sub s : string) :
  prefix sub s = true -> contains sub s = true.
Proof. intros H. destruct s; cbn [contains]; rewrite H; reflexivity. Qed.

Lemma contains_app (sub a b : string) : contains sub (a ++ sub ++ b) = true.
Proof.
  induction a as [|c a IH]; simpl.
  - apply contains_prefix, prefix_app.
  - rewrite IH. apply orb_true_r.
Qed.

(** A keyword written in any letter case is mentioned. *)
Lemma mentions_app (keyword a w b : string) :
  lower w = keyword -> mentions keyword (a ++ w ++ b) = true.
Proof.
  intros H. unfold mentions. rewrite !lower_app, H. apply contains_app.
Qed.

End LabelFacts.

(** X14.  The label does not depend on the letter case of the
    rendering: two renderings that agree up to letter case get the same
    label, and so does a rendering and its lower-cased text. *)
Theorem X14_label_ignores_letter_case :
  forall a b : string,
    lower a = lower b ->
    _determine_document_type a = _determine_document_type b
    /\ _determine_document_type (lower a) = _determine_document_type a.
Proof.
  intros a b H. unfold _determine_document_type.
  rewrite LabelFacts.lower_idem, H. auto.
Qed.

Lemma X14_witness :
  _determine_document_type "Insurance CLAIM form"
  = _determine_document_type "insurance Claim FORM"
  /\ _determine_document_type (lower "Insurance CLAIM form")
     = _determine_document_type "Insurance CLAIM form".
Proof.
  exact (X14_label_ignores_letter_case
           "Insurance CLAIM form" "insurance Claim FORM" eq_refl).
Defined.

(** X15.  A rendering in which the word claim occurs anywhere, in any
    letter case and also inside a longer word, is labelled
    insurance_claim whatever else it holds; one in which prescription
    occurs is labelled insurance_claim or prescription; and one in
    which report occurs is never labelled unknown. *)
Theorem X15_keywords_by_priority :
  forall a w b : string,
    (lower w = "claim" ->
     _determine_document_type (a ++ w ++ b) = "insurance_claim")
    /\ (lower w = "prescription" ->
        _determine_document_type (a ++ w ++ b)
        = if mentions "claim" (a ++ w ++ b)
          then "insurance_claim" else "prescription")
    /\ (lower w = "report" ->
        _determine_document_type (a ++ w ++ b)
        = if mentions "claim" (a ++ w ++ b) then "insurance_claim"
          else if mentions "prescription" (a ++ w ++ b) then "prescription"
          else "medical_report").
Proof.
  intros a w b. unfold _determine_document_type.
  repeat split; intros H.
  - fold (mentions "claim" (a ++ w ++ b)).
    now rewrite (LabelFacts.mentions_app "claim" a w b H).
  - fold (mentions "claim" (a ++ w ++ b)).
    fold (mentions "prescription" (a ++ w ++ b)).
    now rewrite (LabelFacts.mentions_app "prescription" a w b H).
  - fold (mentions "claim" (a ++ w ++ b)).
    fold (mentions "prescription" (a ++ w ++ b)).
    fold (mentions "report" (a ++ w ++ b)).
    now rewrite (LabelFacts.mentions_app "report" a w b H).
Qed.

Lemma X15_witness :
  _determine_document_type "A reCLAIMed prescription report" = "insurance_claim".
Proof.
  exact (proj1 (X15_keywords_by_priority "A re" "CLAIM" "ed prescription report")
               eq_refl).
Defined.

(** X16.  The label is unknown exactly when the rendering mentions none
    of the three keywords, and every other label the processor returns
    is a document type the extractor has a rule table for and the
    validator a list of required fields; for the label unknown there is
    neither. *)
Theorem X16_label_is_registered_or_unknown :
  forall rendered : string,
    (_determine_document_type rendered = "unknown"
     <-> mentions "claim" rendered = false
         /\ mentions "prescription" rendered = false
         /\ mentions "report" rendered = false)
    /\ (_determine_document_type rendered <> "unknown" ->
        registered (Some (_determine_document_type rendered)) <> None
        /\ required_of (Some (_determine_document_type rendered)) <> [])
    /\ (_determine_document_type rendered = "unknown" ->
        registered (Some (_determine_document_type rendered)) = None
        /\ required_of (Some (_determine_document_type rendered)) = []).
Proof.
  intros rendered. unfold _determine_document_type, mentions.
  destruct (contains "claim" (lower rendered));
    [|destruct (contains "prescription" (lower rendered));
      [|destruct (contains "report" (lower rendered))]];
    (split; [split; [intros H; try discriminate; auto
                    |intros [H1 [H2 H3]]; try discriminate; auto]
            |split; [intros H; try (exfalso; apply H; reflexivity);
                     split; discriminate
                    |intros H; try discriminate; split; reflexivity]]).
Qed.

(** ** The value of an amount *)



(** ** The empty doc_type *)

(** X18.  An empty doc_type is treated as an absent one: for every text
    the call with the doc_type [""] returns what the call without a
    doc_type returns, with the document type recorded as unknown, the
    common rules only and no required field. *)
Theorem X18_empty_doc_type_is_absent :
  forall (iso : string -> bool) (now : PyDate.datetime) (text : string),
    extract_structured_data iso now text (Some "")
    = extract_structured_data iso now text None.
Proof.
  intros iso now text. destruct (is_empty text) eqn:Ht.
  - destruct text; [reflexivity | discriminate].
  - rewrite !entry_raw by assumption. reflexivity.
Qed.
